(** * The iterative developer of [ai_code.py]: a shallow embedding

    The development follows [AIIterativeDeveloper]: Python text and its
    string methods, the JSON documents exchanged with the model, the two
    regular-expression scans of [_extract_scores_from_text], the
    structural validator, the versioned store and the iteration loop;
    then the entry points the loop does not use, the file manager and the
    dialogue on the terminal.

    Modelling conventions.
    - A Python [str] is a list of Unicode code points ([N]).  Literals are
      written as UTF-8 strings and decoded by [u].
    - Python floats are modelled by exact rationals, kept in lowest terms;
      the rounding of binary64 is shown on one example ([Binary64]).
    - The Unicode tables behind [\d], [str.lower], [str.upper] and
      [re.IGNORECASE] are restricted to the ASCII digits and letters
      ([isdigit], [lower], [upper]);
      [isspace] is the full white-space table of [str.strip] and [\s].
    - What the interpreter and the outside world decide (the replies of
      the chat endpoint, [json.loads], [compile], I/O faults, the clock,
      the digest) is gathered in an environment record [Env].
    - The file system is the listing of the project root ([disk]), the
      one directory that [PathConfig.OUTPUT_DIR] and the [project_dir] of
      a load name.  The root is a directory in which the directories
      asked for are made ([init_file_manager_at] lifts both conditions);
      the faults that hit a save are those of [io_fault].  Text files are
      written and read as on a POSIX system; paths are those of [pathlib]
      there.
    - The directory tree the file manager walks is a record [Tree]; the
      lines typed on the terminal are a list.
    - [print] calls are left out.

    The first part holds the definitions, the second part the properties
    proved of them. *)

From Stdlib Require Import Strings.String Strings.Ascii.
From Stdlib Require Import DecimalString DecimalZ DecimalPos DecimalFacts.
From Stdlib Require Import List NArith ZArith QArith Bool Lia Lqa Arith.
From Corelib Require PrimFloat.
Import ListNotations.

Set Warnings "-notation-for-abbreviation,-register-all,-inexact-float".
Close Scope Q_scope.
Open Scope list_scope.

(** ** Python text *)

Module Py.

Definition str := list N.

(** UTF-8 decoding of the bytes of a literal. *)
Fixpoint utf8_decode (bs : list N) : str :=
  match bs with
  | [] => []
  | b0 :: r0 =>
    if (b0 <? 128)%N then b0 :: utf8_decode r0
    else if (b0 <? 224)%N then
      match r0 with
      | b1 :: r1 => ((b0 - 192) * 64 + (b1 - 128))%N :: utf8_decode r1
      | [] => []
      end
    else if (b0 <? 240)%N then
      match r0 with
      | b1 :: b2 :: r2 =>
        ((b0 - 224) * 4096 + (b1 - 128) * 64 + (b2 - 128))%N :: utf8_decode r2
      | _ => []
      end
    else
      match r0 with
      | b1 :: b2 :: b3 :: r3 =>
        ((b0 - 240) * 262144 + (b1 - 128) * 4096 + (b2 - 128) * 64 + (b3 - 128))%N
          :: utf8_decode r3
      | _ => []
      end
  end.

Fixpoint bytes_of_string (s : string) : list N :=
  match s with
  | EmptyString => []
  | String a s' => N_of_ascii a :: bytes_of_string s'
  end.

(** The escapes used in the literals of this file: [\n], [\t], [\\], and
    [\q] for the double quote. *)
Fixpoint unescape (s : str) : str :=
  match s with
  | 92%N :: c :: r =>
    (if (c =? 110)%N then 10%N
     else if (c =? 116)%N then 9%N
     else if (c =? 113)%N then 34%N
     else c) :: unescape r
  | c :: r => c :: unescape r
  | [] => []
  end.

Definition u (s : string) : str := unescape (utf8_decode (bytes_of_string s)).

Fixpoint eqb (a b : str) : bool :=
  match a, b with
  | [], [] => true
  | x :: a', y :: b' => (x =? y)%N && eqb a' b'
  | _, _ => false
  end.

(** [s.startswith(p)] *)
Fixpoint startswith (p s : str) : bool :=
  match p, s with
  | [], _ => true
  | x :: p', y :: s' => (x =? y)%N && startswith p' s'
  | _ :: _, [] => false
  end.

(** [s.endswith(p)] *)
Definition endswith (p s : str) : bool :=
  (length p <=? length s) && eqb (skipn (length s - length p) s) p.

(** [needle in s] *)
Fixpoint contains (needle s : str) : bool :=
  startswith needle s ||
  match s with
  | [] => false
  | _ :: s' => contains needle s'
  end.

(** [s.find(needle)], with [-1] when absent *)
Fixpoint find (needle s : str) : Z :=
  if startswith needle s then 0%Z
  else match s with
       | [] => (-1)%Z
       | _ :: s' => let r := find needle s' in
                    if (r <? 0)%Z then (-1)%Z else (r + 1)%Z
       end.

(** [s.rfind(needle)], with [-1] when absent *)
Fixpoint rfind (needle s : str) : Z :=
  match s with
  | [] => if startswith needle s then 0%Z else (-1)%Z
  | _ :: s' =>
    let r := rfind needle s' in
    if (0 <=? r)%Z then (r + 1)%Z
    else if startswith needle s then 0%Z else (-1)%Z
  end.

(** [s[a:b]] for [0 <= a], [0 <= b] *)
Definition slice (a b : Z) (s : str) : str :=
  firstn (Z.to_nat b - Z.to_nat a) (skipn (Z.to_nat a) s).

(** The white space of [str.strip] and of [\s]. *)
Definition isspace (c : N) : bool :=
  ((9 <=? c) && (c <=? 13) || (28 <=? c) && (c <=? 32) || (c =? 133) || (c =? 160)
   || (c =? 5760) || (8192 <=? c) && (c <=? 8202) || (c =? 8232) || (c =? 8233)
   || (c =? 8239) || (c =? 8287) || (c =? 12288))%N.

Fixpoint lstrip (s : str) : str :=
  match s with
  | c :: s' => if isspace c then lstrip s' else s
  | [] => []
  end.

Definition rstrip (s : str) : str := rev (lstrip (rev s)).

(** [s.strip()] *)
Definition strip (s : str) : str := rstrip (lstrip s).

(** [s.split(sep)] for a non-empty separator: [skip] counts the characters
    of a separator still to be dropped. *)
Fixpoint split_aux (sep : str) (skip : nat) (s : str) : list str :=
  match s with
  | [] => [[]]
  | c :: s' =>
    match skip with
    | S k => split_aux sep k s'
    | O =>
      if startswith sep s then [] :: split_aux sep (length sep - 1) s'
      else match split_aux sep O s' with
           | w :: ws => (c :: w) :: ws
           | [] => [[c]]
           end
    end
  end.

Definition split (sep s : str) : list str := split_aux sep 0 s.

(** [''.join(parts)] *)
Definition join (parts : list str) : str := concat parts.

(** The decimal digits of [\d]. *)
Definition isdigit (c : N) : bool := ((48 <=? c) && (c <=? 57))%N.

(** [s.lower()], on the letters A to Z. *)
Definition lower_chr (c : N) : N :=
  if ((65 <=? c) && (c <=? 90))%N then (c + 32)%N else c.

Definition lower (s : str) : str := map lower_chr s.

(** Truth value of a string: non-empty. *)
Definition truthy (s : str) : bool :=
  match s with [] => false | _ => true end.

(** [str(n)] for an integer *)
Definition of_Z (z : Z) : str :=
  bytes_of_string (NilZero.string_of_int (Z.to_int z)).

End Py.

Notation str := Py.str.
Notation u := Py.u.

(** ** JSON values, Python dictionaries and numbers *)

Inductive json :=
| JNull
| JBool (b : bool)
| JNum (q : Q)
| JNaN
| JInfinity (negative : bool)
| JStr (s : str)
| JArr (l : list json)
| JObj (m : list (str * json)).

(** A [dict] with string keys, in insertion order. *)
Definition dict := list (str * json).

Fixpoint dict_get {V} (k : str) (m : list (str * V)) : option V :=
  match m with
  | [] => None
  | (k', v) :: m' => if Py.eqb k k' then Some v else dict_get k m'
  end.

(** [k in m] *)
Definition dict_has {V} (k : str) (m : list (str * V)) : bool :=
  match dict_get k m with Some _ => true | None => false end.

(** [m[k] = v]: an existing key keeps its place. *)
Fixpoint dict_set {V} (k : str) (v : V) (m : list (str * V)) : list (str * V) :=
  match m with
  | [] => [(k, v)]
  | (k', v') :: m' =>
    if Py.eqb k k' then (k, v) :: m' else (k', v') :: dict_set k v m'
  end.

(** The number a value stands for in arithmetic and comparisons; [None]
    is a [TypeError].  Booleans are the integers 0 and 1. *)
Definition as_number (v : json) : option Q :=
  match v with
  | JNum q => Some q
  | JBool b => Some (if b then 1%Q else 0%Q)
  | _ => None
  end.

(** [0 <= v <= 1]; [None] is a [TypeError], NaN and the infinities
    compare false. *)
Definition in_unit_interval (v : json) : option bool :=
  match v with
  | JNaN | JInfinity _ => Some false
  | _ => match as_number v with
         | Some q => Some (Qle_bool 0 q && Qle_bool q 1)
         | None => None
         end
  end.

(** The value of a run of decimal digits, continuing [acc]. *)
Fixpoint digits_value (acc : N) (ds : str) : option N :=
  match ds with
  | [] => Some acc
  | d :: ds' =>
    if Py.isdigit d then digits_value (acc * 10 + (d - 48))%N ds' else None
  end.

Fixpoint split_at_dot (s : str) : str * option str :=
  match s with
  | [] => ([], None)
  | c :: s' =>
    if (c =? 46)%N then ([], Some s')
    else let '(a, b) := split_at_dot s' in (c :: a, b)
  end.

Fixpoint pow10 (k : nat) : positive :=
  match k with O => 1%positive | S k' => (10 * pow10 k')%positive end.

(** [float(s)] on plain decimal notation [digits.digits]; [None] is a
    [ValueError]. *)
Definition py_float (s : str) : option Q :=
  match split_at_dot s with
  | (ip, Some fp) =>
    match ip, fp with
    | [], [] => None
    | _, _ =>
      match digits_value 0 ip, digits_value 0 fp with
      | Some i, Some f =>
        Some (Qred (Qmake (Z.of_N (i * Npos (pow10 (length fp)) + f))
                           (pow10 (length fp))))
      | _, _ => None
      end
    end
  | (ip, None) =>
    match ip with
    | [] => None
    | _ => match digits_value 0 ip with
           | Some i => Some (Qmake (Z.of_N i) 1)
           | None => None
           end
    end
  end.

(** ** Regular expressions

    The fragment of [re] used by [_extract_scores_from_text]: character
    classes, greedy and lazy repetition of a class, sequence, alternative,
    capture groups, look-ahead and [$].  [run r s] lists, in the order in
    which the backtracking matcher of [re] tries them, the ways [r] matches
    a prefix of [s]: the captured groups and the text left over. *)

Module Re.

Inductive regex :=
| Chr (cls : N -> bool)
| Plus (cls : N -> bool)
| Star (cls : N -> bool)
| LazyStar (cls : N -> bool)
| Seq (r1 r2 : regex)
| Alt (r1 r2 : regex)
| Group (r : regex)
| Ahead (r : regex)
| Eos
| Eps.

(** The texts left after one or more characters of the class, the longest
    match first. *)
Fixpoint plus_rests (cls : N -> bool) (s : str) : list str :=
  match s with
  | c :: s' => if cls c then plus_rests cls s' ++ [s'] else []
  | [] => []
  end.

(** The same, shortest match first, starting with no character at all. *)
Fixpoint lazy_rests (cls : N -> bool) (s : str) : list str :=
  s :: match s with
       | c :: s' => if cls c then lazy_rests cls s' else []
       | [] => []
       end.

Definition consumed (s rest : str) : str := firstn (length s - length rest) s.

Fixpoint run (r : regex) (s : str) : list (list str * str) :=
  match r with
  | Chr cls =>
    match s with
    | c :: s' => if cls c then [([], s')] else []
    | [] => []
    end
  | Plus cls => map (fun rest => ([], rest)) (plus_rests cls s)
  | Star cls => map (fun rest => ([], rest)) (plus_rests cls s ++ [s])
  | LazyStar cls => map (fun rest => ([], rest)) (lazy_rests cls s)
  | Seq r1 r2 =>
    flat_map (fun m1 =>
                map (fun m2 => (fst m1 ++ fst m2, snd m2)) (run r2 (snd m1)))
             (run r1 s)
  | Alt r1 r2 => run r1 s ++ run r2 s
  | Group r' => map (fun m => (consumed s (snd m) :: fst m, snd m)) (run r' s)
  | Ahead r' => match run r' s with [] => [] | _ :: _ => [([], s)] end
  | Eos => match s with
           | [] => [([], s)]
           | [c] => if (c =? 10)%N then [([], s)] else []
           | _ => []
           end
  | Eps => [([], s)]
  end.

(** The match the engine reports at this position: the first success. *)
Definition match_here (r : regex) (s : str) : option (list str * str) :=
  match run r s with
  | m :: _ => Some m
  | [] => None
  end.

(** [re.search]: the first position with a match. *)
Fixpoint search (r : regex) (s : str) : option (list str) :=
  match match_here r s with
  | Some m => Some (fst m)
  | None => match s with
            | _ :: s' => search r s'
            | [] => None
            end
  end.

(** [re.finditer] for patterns that never match the empty text: the
    matches from left to right, the scan resuming where a match ended. *)
Fixpoint finditer_aux (r : regex) (skip : nat) (s : str) : list (list str) :=
  match s with
  | [] => []
  | _ :: s' =>
    match skip with
    | S k => finditer_aux r k s'
    | O =>
      match match_here r s with
      | Some m => fst m :: finditer_aux r (length s - length (snd m) - 1) s'
      | None => finditer_aux r O s'
      end
    end
  end.

Definition finditer (r : regex) (s : str) : list (list str) := finditer_aux r 0 s.

(** Classes and literals. *)
Definition one_of (cs : str) : N -> bool := fun c => existsb (N.eqb c) cs.
Definition none_of (cs : str) : N -> bool := fun c => negb (existsb (N.eqb c) cs).
Definition dot : N -> bool := fun c => negb (c =? 10)%N.
Definition only (c : N) : N -> bool := fun x => (x =? c)%N.
Definition is_nocase (c : N) : N -> bool :=
  fun x => (Py.lower_chr x =? Py.lower_chr c)%N.

Fixpoint lit (s : str) : regex :=
  match s with
  | [] => Eps
  | c :: s' => Seq (Chr (only c)) (lit s')
  end.

Fixpoint lit_nocase (s : str) : regex :=
  match s with
  | [] => Eps
  | c :: s' => Seq (Chr (is_nocase c)) (lit_nocase s')
  end.

End Re.

(** ** The evaluation report: validity predicate, default, text fallback *)

Definition required_keys : list str := [u "scores"; u "total_score"; u "analysis"].

Definition required_scores : list str :=
  [u "structure"; u "style"; u "error_handling"; u "readability"; u "performance"].

(** [all(0 <= scores[key] <= 1 for key in scores)]: a [TypeError] and a
    failed comparison both end in [False]. *)
Definition all_in_unit_interval (scores : dict) : bool :=
  forallb (fun kv => match in_unit_interval (snd kv) with
                     | Some b => b
                     | None => false
                     end) scores.

(** [_validate_evaluation_format].  Whatever is not a dictionary runs into
    a [TypeError] at [data['scores']] or [scores[key]], which the
    [except Exception] turns into [False]. *)
Definition _validate_evaluation_format (data : json) : bool :=
  match data with
  | JObj d =>
    if negb (forallb (fun key => dict_has key d) required_keys) then false
    else
      match dict_get (u "scores") d with
      | Some (JObj scores) =>
        if negb (forallb (fun key => dict_has key scores) required_scores) then false
        else if negb (all_in_unit_interval scores) then false
        else
          match dict_get (u "total_score") d with
          | Some total_score =>
            match in_unit_interval total_score with
            | Some true =>
              match dict_get (u "analysis") d with
              | Some (JStr analysis) => negb (length analysis <? 10)
              | _ => false
              end
            | _ => false
            end
          | None => false
          end
      | _ => false
      end
  | _ => false
  end.

(** [_get_default_evaluation] *)
Definition _get_default_evaluation : json :=
  JObj [ (u "scores",
          JObj [ (u "structure", JNum (1 # 2)%Q);
                 (u "style", JNum (1 # 2)%Q);
                 (u "error_handling", JNum (1 # 2)%Q);
                 (u "readability", JNum (1 # 2)%Q);
                 (u "performance", JNum (1 # 2)%Q) ]);
         (u "total_score", JNum (1 # 2)%Q);
         (u "analysis", JStr (u "无法解析评估结果，使用默认评分。")) ].

Import Re.

(** The three [score_patterns]. *)
Definition score_number : regex := Group (Seq (lit (u "0.")) (Plus Py.isdigit)).

Definition score_patterns : list regex :=
  [ (* ([^：\n]+)[:：]\s*(0\.\d+) *)
    Seq (Group (Plus (none_of (u "：\n"))))
        (Seq (Chr (one_of (u ":："))) (Seq (Star Py.isspace) score_number));
    (* ([^:\n]+):\s*(0\.\d+) *)
    Seq (Group (Plus (none_of (u ":\n"))))
        (Seq (Chr (only 58)) (Seq (Star Py.isspace) score_number));
    (* ([^=\n]+)\s*=\s*(0\.\d+) *)
    Seq (Group (Plus (none_of (u "=\n"))))
        (Seq (Star Py.isspace)
             (Seq (Chr (only 61)) (Seq (Star Py.isspace) score_number))) ].

(** The three [analysis_patterns], searched with [re.IGNORECASE]. *)
Definition rest_of_line : regex :=
  Seq (Group (LazyStar dot)) (Ahead (Alt (Chr (only 10)) Eos)).

Definition analysis_patterns : list regex :=
  [ Seq (lit_nocase (u "分析")) (Seq (Chr (one_of (u "：:"))) rest_of_line);
    Seq (lit_nocase (u "analysis")) (Seq (Chr (one_of (u "：:"))) rest_of_line);
    Seq (lit_nocase (u "评估结果")) (Seq (Chr (one_of (u "：:"))) rest_of_line) ].

Definition any_in (ks : list str) (key : str) : bool :=
  existsb (fun k => Py.contains k key) ks.

(** One match of a score pattern: the key is normalised and the score
    stored under the canonical name, if the label is recognised. *)
Definition record_score (scores : dict) (groups : list str) : dict :=
  match groups with
  | [g1; g2] =>
    let key := Py.lower (Py.strip g1) in
    match py_float g2 with
    | Some score =>
      if any_in [u "结构"; u "structure"] key then dict_set (u "structure") (JNum score) scores
      else if any_in [u "风格"; u "style"] key then dict_set (u "style") (JNum score) scores
      else if any_in [u "错误"; u "error"] key then dict_set (u "error_handling") (JNum score) scores
      else if any_in [u "可读"; u "read"] key then dict_set (u "readability") (JNum score) scores
      else if any_in [u "性能"; u "performance"] key then dict_set (u "performance") (JNum score) scores
      else scores
    | None => scores
    end
  | _ => scores
  end.

Definition scan_scores (text : str) : dict :=
  fold_left (fun scores pattern => fold_left record_score (finditer pattern text) scores)
            score_patterns [].

(** [sum(scores.values())] *)
Definition sum_values (scores : dict) : Q :=
  fold_left (fun acc kv => match as_number (snd kv) with
                           | Some q => Qplus acc q
                           | None => acc
                           end) scores 0%Q.

Definition mean_values (scores : dict) : Q :=
  Qred (Qdiv (sum_values scores) (inject_Z (Z.of_nat (length scores)))).

Fixpoint first_analysis (patterns : list regex) (text : str) : str :=
  match patterns with
  | [] => u "无详细分析"
  | pattern :: rest =>
    match search pattern text with
    | Some (g1 :: _) => Py.strip g1
    | _ => first_analysis rest text
    end
  end.

(** [_extract_scores_from_text] *)
Definition _extract_scores_from_text (text : str) : json :=
  let scores := scan_scores text in
  match scores with
  | _ :: _ =>
    let total_score := mean_values scores in
    let analysis_text := first_analysis analysis_patterns text in
    JObj [ (u "scores", JObj scores);
           (u "total_score", JNum total_score);
           (u "analysis", JStr analysis_text) ]
  | [] => _get_default_evaluation
  end.

(** ** Exceptions, the outside world and the developer's state *)

Inductive exn :=
| Timeout                 (* requests.exceptions.Timeout *)
| RequestException        (* any other requests.exceptions.RequestException *)
| JSONDecodeError
| ValueError (msg : str)
| KeyError (key : str)
| TypeError
| OSError
| OtherException.

(** [isinstance(e, (RequestException, JSONDecodeError, ValueError))]:
    [Timeout] derives from [RequestException], [JSONDecodeError] from
    [ValueError]. *)
Definition retry_if_exception_type (e : exn) : bool :=
  match e with
  | Timeout | RequestException | JSONDecodeError | ValueError _ => true
  | _ => false
  end.

(** What [client.chat.completions.create(..., stream=True)] does: it raises,
    or returns an iterator over chunks; [delta.content] of a chunk may be
    [None]; the iterator may break off with an exception. *)
Inductive api_reply :=
| ApiRaise (e : exn)
| ApiStream (chunks : list (option str)) (broken : option exn).

(** Where a save can fail. *)
Inductive save_fault :=
| FaultMkdir
| FaultOpenMain
| FaultWriteMain
| FaultHash
| FaultOpenCheckpoint
| FaultDumpCheckpoint.

Record Env := {
  client_create : nat -> api_reply;        (* the reply to the n-th request *)
  json_loads : str -> option json;         (* [None]: JSONDecodeError *)
  py_compile : str -> bool;                (* [false]: compile() raises *)
  io_fault : nat -> option save_fault;     (* the fault hitting the n-th save *)
  time_time : nat -> Q;                    (* the clock at the n-th save *)
  path_exists : str -> bool;               (* [Path(project_dir).exists()] *)
  md5_hexdigest : str -> str
}.

(** The checkpoint document written by the store; on reading, any key may
    be missing. *)
Record Checkpoint := {
  ck_version : option Z;
  ck_timestamp : option Q;
  ck_files : list (str * (str * str));
  ck_history : option (list str);
  ck_user_feedback : option (list str)
}.

(** The content of [checkpoint.json]: a checkpoint document, or text that
    [json.load] does not read as one. *)
Inductive ckfile :=
| CkDoc (c : Checkpoint)
| CkUnreadable.

(** A version directory holds [main.py] and [checkpoint.json].  [main_py]
    is the text that [open(main_file, 'r', encoding='utf-8').read()]
    gives. *)
Record vdir := { main_py : option str; checkpoint_json : option ckfile }.

Inductive entry :=
| EFile (content : str)
| EDir (d : vdir).

(** The children of the project root, by name, in listing order. *)
Definition filesystem := list (str * entry).

Fixpoint fs_lookup (name : str) (fs : filesystem) : option entry :=
  match fs with
  | [] => None
  | (n, e) :: fs' => if Py.eqb name n then Some e else fs_lookup name fs'
  end.

Fixpoint fs_store (name : str) (e : entry) (fs : filesystem) : filesystem :=
  match fs with
  | [] => [(name, e)]
  | (n, e') :: fs' =>
    if Py.eqb name n then (n, e) :: fs' else (n, e') :: fs_store name e fs'
  end.

Record Config := {
  max_iterations : Z;
  min_improvement_score : Q;
  auto_save : bool;
  current_api_calls : Z
}.

Record ProjectState := {
  code : list (str * str);
  current_code : str;
  version : Z;
  history : list str;
  user_feedback : list str
}.

Record CodeFileManager := { root_dir : str }.

Record world := {
  config : Config;
  project_state : ProjectState;
  file_manager : option CodeFileManager;
  OUTPUT_DIR : option str;            (* PathConfig.OUTPUT_DIR *)
  disk : filesystem;
  requests_sent : nat;
  saves_tried : nat;
  slept : list Z                      (* the waits of the retry policy, in seconds *)
}.

Definition set_project_state (ps : ProjectState) (w : world) : world :=
  {| config := config w; project_state := ps; file_manager := file_manager w;
     OUTPUT_DIR := OUTPUT_DIR w; disk := disk w; requests_sent := requests_sent w;
     saves_tried := saves_tried w; slept := slept w |}.

Definition set_config (c : Config) (w : world) : world :=
  {| config := c; project_state := project_state w; file_manager := file_manager w;
     OUTPUT_DIR := OUTPUT_DIR w; disk := disk w; requests_sent := requests_sent w;
     saves_tried := saves_tried w; slept := slept w |}.

Definition set_disk (fs : filesystem) (w : world) : world :=
  {| config := config w; project_state := project_state w; file_manager := file_manager w;
     OUTPUT_DIR := OUTPUT_DIR w; disk := fs; requests_sent := requests_sent w;
     saves_tried := saves_tried w; slept := slept w |}.

Definition set_requests_sent (n : nat) (w : world) : world :=
  {| config := config w; project_state := project_state w; file_manager := file_manager w;
     OUTPUT_DIR := OUTPUT_DIR w; disk := disk w; requests_sent := n;
     saves_tried := saves_tried w; slept := slept w |}.

Definition set_saves_tried (n : nat) (w : world) : world :=
  {| config := config w; project_state := project_state w; file_manager := file_manager w;
     OUTPUT_DIR := OUTPUT_DIR w; disk := disk w; requests_sent := requests_sent w;
     saves_tried := n; slept := slept w |}.

Definition set_slept (l : list Z) (w : world) : world :=
  {| config := config w; project_state := project_state w; file_manager := file_manager w;
     OUTPUT_DIR := OUTPUT_DIR w; disk := disk w; requests_sent := requests_sent w;
     saves_tried := saves_tried w; slept := l |}.

Definition set_file_manager (fm : option CodeFileManager) (o : option str) (w : world) : world :=
  {| config := config w; project_state := project_state w; file_manager := fm;
     OUTPUT_DIR := o; disk := disk w; requests_sent := requests_sent w;
     saves_tried := saves_tried w; slept := slept w |}.

Definition set_current_code (c : str) (ps : ProjectState) : ProjectState :=
  {| code := code ps; current_code := c; version := version ps;
     history := history ps; user_feedback := user_feedback ps |}.

Definition set_version (v : Z) (ps : ProjectState) : ProjectState :=
  {| code := code ps; current_code := current_code ps; version := v;
     history := history ps; user_feedback := user_feedback ps |}.

Definition set_code (c : list (str * str)) (ps : ProjectState) : ProjectState :=
  {| code := c; current_code := current_code ps; version := version ps;
     history := history ps; user_feedback := user_feedback ps |}.

Definition set_user_feedback (f : list str) (ps : ProjectState) : ProjectState :=
  {| code := code ps; current_code := current_code ps; version := version ps;
     history := history ps; user_feedback := f |}.

Definition set_history (h : list str) (ps : ProjectState) : ProjectState :=
  {| code := code ps; current_code := current_code ps; version := version ps;
     history := h; user_feedback := user_feedback ps |}.

(** ** Computations that read and change the world and may raise *)

Inductive result (A : Type) :=
| Ok (a : A)
| Raise (e : exn).
Arguments Ok {A} a.
Arguments Raise {A} e.

Definition M (A : Type) : Type := world -> result A * world.

Definition ret {A} (a : A) : M A := fun w => (Ok a, w).

Definition raise {A} (e : exn) : M A := fun w => (Raise e, w).

Definition bind {A B} (m : M A) (k : A -> M B) : M B :=
  fun w => match m w with
           | (Ok a, w') => k a w'
           | (Raise e, w') => (Raise e, w')
           end.

(** [try: m  except Exception as e: h e] *)
Definition try_except {A} (m : M A) (h : exn -> M A) : M A :=
  fun w => match m w with
           | (Ok a, w') => (Ok a, w')
           | (Raise e, w') => h e w'
           end.

Definition get : M world := fun w => (Ok w, w).
Definition modify (f : world -> world) : M unit := fun w => (Ok tt, f w).

Declare Scope py_scope.
Delimit Scope py_scope with py.
Notation "x <- m ;; k" := (bind m (fun x => k))
  (at level 61, m at next level, right associativity) : py_scope.
Notation "m ;;; k" := (bind m (fun _ => k))
  (at level 61, right associativity) : py_scope.
Open Scope py_scope.

(** ** Paths *)

(** Paths as [pathlib] has them on a POSIX system: a root ([/], or [//]
    for exactly two leading slashes, or none) and the components between
    slashes that are neither empty nor [.]; the text of a path without
    root and components is [.]. *)
Module Path.

Definition root_of (s : str) : str :=
  if Py.startswith (u "//") s && negb (Py.startswith (u "///") s) then u "//"
  else if Py.startswith (u "/") s then u "/"
  else [].

Definition parts_of (s : str) : list str :=
  filter (fun p => Py.truthy p && negb (Py.eqb p (u "."))) (Py.split (u "/") s).

(** [Path(s)] *)
Definition parse (s : str) : str * list str := (root_of s, parts_of s).

(** ['/'.join(parts)] *)
Fixpoint join_parts (parts : list str) : str :=
  match parts with
  | [] => []
  | [p] => p
  | p :: ps => p ++ u "/" ++ join_parts ps
  end.

(** [str(p)] *)
Definition to_str (p : str * list str) : str :=
  match fst p, snd p with
  | [], [] => u "."
  | root, parts => root ++ join_parts parts
  end.

(** [p / name]: a name with a root replaces [p]. *)
Definition truediv (p : str * list str) (name : str) : str * list str :=
  let q := parse name in
  if Py.truthy (fst q) then q else (fst p, snd p ++ snd q).

End Path.

(** ** The developer *)

Section Developer.

Variable E : Env.

(** One request to the chat endpoint. *)
Definition create : M (list (option str) * option exn) :=
  fun w =>
    let w' := set_requests_sent (S (requests_sent w)) w in
    match client_create E (requests_sent w) with
    | ApiRaise e => (Raise e, w')
    | ApiStream chunks broken => (Ok (chunks, broken), w')
    end.

(** *** [_stream_output] *)

Record stream_state := {
  full_response : list str;
  code_content : list str;
  in_code_block : bool;
  buffer : str
}.

Definition stream_start : stream_state :=
  {| full_response := []; code_content := []; in_code_block := false; buffer := [] |}.

Definition fence_open : str := u "```python".
Definition fence_close : str := u "```".

(** The body of the [for chunk in response_iterator] loop. *)
Definition stream_step (st : stream_state) (chunk : option str) : stream_state :=
  match chunk with
  | None => st
  | Some content =>
    let buffer' := buffer st ++ content in
    let full' := full_response st ++ [content] in
    if Py.contains (u "\n") buffer' || (80 <? length buffer') then
      if Py.contains fence_open buffer' then
        {| full_response := full'; code_content := code_content st;
           in_code_block := true; buffer := [] |}
      else if Py.contains fence_close buffer' && in_code_block st then
        {| full_response := full'; code_content := code_content st;
           in_code_block := false; buffer := [] |}
      else
        {| full_response := full';
           code_content := if in_code_block st then code_content st ++ [buffer']
                           else code_content st;
           in_code_block := in_code_block st; buffer := [] |}
    else
      {| full_response := full'; code_content := code_content st;
         in_code_block := in_code_block st; buffer := buffer' |}
  end.

(** [full_text.split("```python")[1].split("```")[0].strip()], when there
    is a second part. *)
Definition first_fenced_block (full_text : str) : option str :=
  match Py.split fence_open full_text with
  | _ :: block :: _ => Some (Py.strip (hd [] (Py.split fence_close block)))
  | _ => None
  end.

Definition no_code_block : exn := ValueError (u "No code block found in response").

Definition _stream_output (response : list (option str) * option exn) : M str :=
  let st := fold_left stream_step (fst response) stream_start in
  match snd response with
  | Some e => raise e
  | None =>
    let code_content' :=
      if Py.truthy (buffer st) && in_code_block st
      then code_content st ++ [buffer st] else code_content st in
    let code := Py.strip (Py.join code_content') in
    let code :=
      if negb (Py.truthy code) then
        let full_text := Py.join (full_response st) in
        if Py.contains fence_open full_text then
          match first_fenced_block full_text with
          | Some block => block
          | None => code
          end
        else code
      else code in
    if negb (Py.truthy code) then raise no_code_block else ret code
  end.

(** *** [call_ai_api] and its retry decorator *)

Definition add_api_call (w : world) : world :=
  set_config {| max_iterations := max_iterations (config w);
                min_improvement_score := min_improvement_score (config w);
                auto_save := auto_save (config w);
                current_api_calls := current_api_calls (config w) + 1 |} w.

(** The decorated function body: one attempt. *)
Definition call_ai_api_attempt (prompt : str) : M str :=
  response <- create ;;
  modify add_api_call ;;;
  _stream_output response.

(** [wait_exponential(multiplier, min, max)] of tenacity, at the attempt
    that just failed. *)
Definition wait_exponential (multiplier min max attempt_number : Z) : Z :=
  Z.max (Z.max 0 min) (Z.min (multiplier * 2 ^ (attempt_number - 1)) max).

Definition stop_after_attempt : Z := 3.

Definition sleep (seconds : Z) : M unit :=
  modify (fun w => set_slept (slept w ++ [seconds]) w).

(** [@retry(stop=stop_after_attempt(3), wait=wait_exponential(multiplier=2,
    min=4, max=60), retry=retry_if_exception_type(...), reraise=True)]:
    [fuel] bounds the attempts still possible. *)
Fixpoint retrying {A} (fuel : nat) (attempt_number : Z) (body : M A) : M A :=
  try_except body
    (fun e =>
       if negb (retry_if_exception_type e) then raise e
       else if (stop_after_attempt <=? attempt_number)%Z then raise e
       else match fuel with
            | O => raise e
            | S fuel' =>
              sleep (wait_exponential 2 4 60 attempt_number) ;;;
              retrying fuel' (attempt_number + 1) body
            end).

Definition call_ai_api (prompt : str) : M str :=
  retrying 2 1 (call_ai_api_attempt prompt).

(** *** [_evaluate_code] *)

(** The [for chunk in response] loop: chunks with a non-empty content are
    collected; a broken stream raises after the chunks received. *)
Definition collect_text (response : list (option str) * option exn) : M (list str) :=
  let texts := flat_map (fun c => match c with
                                  | Some content => if Py.truthy content then [content] else []
                                  | None => []
                                  end) (fst response) in
  match snd response with
  | Some e => raise e
  | None => ret texts
  end.

(** The inner [try]: the JSON path.  [None] is the function running off
    its end without a [return]. *)
Definition parse_evaluation (evaluation_text : list str) : M (option json) :=
  let full_text := Py.join evaluation_text in
  let json_start := Py.find (u "{") full_text in
  let json_end := (Py.rfind (u "}") full_text + 1)%Z in
  if (0 <=? json_start)%Z && (json_start <? json_end)%Z then
    let json_str := Py.slice json_start json_end full_text in
    match json_loads E json_str with
    | None => raise JSONDecodeError
    | Some evaluation =>
      if _validate_evaluation_format evaluation then ret (Some evaluation)
      else ret None
    end
  else ret None.

Definition _evaluate_code : M (option json) :=
  try_except
    (response <- create ;;
     evaluation_text <- collect_text response ;;
     try_except (parse_evaluation evaluation_text)
       (fun e => match e with
                 | JSONDecodeError =>
                   ret (Some (_extract_scores_from_text (Py.join evaluation_text)))
                 | _ => raise e
                 end))
    (fun _ => ret (Some _get_default_evaluation)).

(** *** [_get_improvement_suggestions] *)

Record suggestion_state := {
  sg_full_response : list str;
  sg_code_content : list str;
  sg_in_code_block : bool
}.

Definition suggestion_step (st : suggestion_state) (chunk : option str) : suggestion_state :=
  match chunk with
  | None => st
  | Some content =>
    let full' := sg_full_response st ++ [content] in
    if Py.contains fence_open content then
      {| sg_full_response := full'; sg_code_content := sg_code_content st;
         sg_in_code_block := true |}
    else if Py.contains fence_close content && sg_in_code_block st then
      {| sg_full_response := full'; sg_code_content := sg_code_content st;
         sg_in_code_block := false |}
    else
      {| sg_full_response := full';
         sg_code_content := if sg_in_code_block st then sg_code_content st ++ [content]
                            else sg_code_content st;
         sg_in_code_block := sg_in_code_block st |}
  end.

Definition suggestion_code (chunks : list (option str)) : option str :=
  let st := fold_left suggestion_step chunks
              {| sg_full_response := []; sg_code_content := []; sg_in_code_block := false |} in
  let code := Py.strip (Py.join (sg_code_content st)) in
  let code :=
    if negb (Py.truthy code) then
      match first_fenced_block (Py.join (sg_full_response st)) with
      | Some block => block
      | None => code
      end
    else code in
  if negb (Py.truthy code) then None else Some code.

Definition _get_improvement_suggestions : M (option str) :=
  try_except
    (response <- create ;;
     match snd response with
     | Some e => raise e
     | None => ret (suggestion_code (fst response))
     end)
    (fun _ => ret None).

(** *** [validate_code] *)

Definition required_components : list str :=
  [u "import"; u "class"; u "def"; u "\q\q\q"; u "try:"; u "except"].

Definition dangerous_imports : list str :=
  [u "subprocess"; u "os.system"; u "eval"; u "exec"].

(** The removal of the code-block markers, as written: [code[8:]] and
    [code[:-3]] between two [strip]s. *)
Definition strip_markers (code : str) : str :=
  let code := Py.strip code in
  let code := if Py.startswith fence_open code then skipn 8 code else code in
  let code := if Py.endswith fence_close code then firstn (length code - 3) code else code in
  Py.strip code.

Definition validate_code (code : str) : bool :=
  if negb (Py.truthy code) then false
  else
    let code := strip_markers code in
    if length (Py.split (u "\n") (Py.strip code)) <? 10 then false
    else if negb (forallb (fun comp => Py.contains comp code) required_components) then false
    else if negb (py_compile E code) then false
    else if existsb (fun imp => Py.contains imp code) dangerous_imports then false
    else true.

(** *** [_apply_improvements] *)

Definition _apply_improvements (improvements : option str) : option str :=
  match improvements with
  | None => None
  | Some imp =>
    if negb (Py.truthy imp) then None
    else if validate_code imp then Some imp else None
  end.

(** *** [_save_current_version] *)

Definition version_name (v : Z) : str := u "v" ++ Py.of_Z v.

(** [str(Path(parent) / name)] *)
Definition path_join (parent name : str) : str :=
  Path.to_str (Path.truediv (Path.parse parent) name).

Definition empty_dir : vdir := {| main_py := None; checkpoint_json := None |}.

Definition fails (f : save_fault) (fault : option save_fault) : bool :=
  match fault, f with
  | Some FaultMkdir, FaultMkdir
  | Some FaultOpenMain, FaultOpenMain
  | Some FaultWriteMain, FaultWriteMain
  | Some FaultHash, FaultHash
  | Some FaultOpenCheckpoint, FaultOpenCheckpoint
  | Some FaultDumpCheckpoint, FaultDumpCheckpoint => true
  | _, _ => false
  end.

(** [version_dir.mkdir(exist_ok=True)] *)
Definition mkdir_version (fault : option save_fault) (name : str) : M vdir :=
  if fails FaultMkdir fault then raise OSError
  else
    w <- get ;;
    match fs_lookup name (disk w) with
    | Some (EFile _) => raise OSError
    | Some (EDir d) => ret d
    | None => modify (fun w => set_disk (fs_store name (EDir empty_dir) (disk w)) w) ;;;
              ret empty_dir
    end.

Definition put_dir (name : str) (d : vdir) : M unit :=
  modify (fun w => set_disk (fs_store name (EDir d) (disk w)) w).

(** What reading in text mode makes of the characters of a file: every
    [\r\n] and every other [\r] is read as [\n]. *)
Fixpoint universal_newlines (s : str) : str :=
  match s with
  | [] => []
  | c :: r =>
    if (c =? 13)%N then
      match r with
      | d :: r' => if (d =? 10)%N then 10%N :: universal_newlines r'
                   else 10%N :: universal_newlines r
      | [] => [10%N]
      end
    else c :: universal_newlines r
  end.

(** [open(path, 'w')] truncates the file; the write may then fail.  On a
    POSIX system the characters are written as they are; the directory
    records what a read in text mode then gives. *)
Definition write_main (fault : option save_fault) (name : str) (d : vdir) (text : str)
  : M vdir :=
  if fails FaultOpenMain fault then raise OSError
  else
    let d0 := {| main_py := Some []; checkpoint_json := checkpoint_json d |} in
    put_dir name d0 ;;;
    if fails FaultWriteMain fault then raise OSError
    else
      let d1 := {| main_py := Some (universal_newlines text);
                   checkpoint_json := checkpoint_json d |} in
      put_dir name d1 ;;; ret d1.

Definition write_checkpoint (fault : option save_fault) (name : str) (d : vdir)
           (c : Checkpoint) : M unit :=
  if fails FaultOpenCheckpoint fault then raise OSError
  else
    put_dir name {| main_py := main_py d; checkpoint_json := Some CkUnreadable |} ;;;
    if fails FaultDumpCheckpoint fault then raise OSError
    else put_dir name {| main_py := main_py d; checkpoint_json := Some (CkDoc c) |}.

(** The body of the [try] of [_save_current_version], the [n]-th save. *)
Definition save_body : M unit :=
  w <- get ;;
  let n := saves_tried w in
  let fault := io_fault E n in
  modify (set_saves_tried (S n)) ;;;
  match OUTPUT_DIR w with
  | None => raise (ValueError (u "路径配置未初始化"))
  | Some out =>
    let ps := project_state w in
    let name := version_name (version ps) in
    d <- mkdir_version fault name ;;
    let main_file := path_join (path_join out name) (u "main.py") in
    d <- write_main fault name d (current_code ps) ;;
    modify (fun w => set_project_state
                       (set_code (dict_set main_file (current_code ps) (code (project_state w)))
                                 (project_state w)) w) ;;;
    (if fails FaultHash fault then raise OSError else ret tt) ;;;
    let checkpoint :=
      {| ck_version := Some (version ps);
         ck_timestamp := Some (time_time E n);
         ck_files := [(main_file, (current_code ps, md5_hexdigest E (current_code ps)))];
         ck_history := Some (history ps);
         ck_user_feedback := Some (user_feedback ps) |} in
    write_checkpoint fault name d checkpoint ;;;
    modify (fun w => set_project_state
                       (set_version (version (project_state w) + 1) (project_state w)) w)
  end.

Definition is_some {A} (o : option A) : bool :=
  match o with Some _ => true | None => false end.

Definition _save_current_version : M unit :=
  w <- get ;;
  if negb (auto_save (config w)) || negb (is_some (file_manager w)) then ret tt
  else try_except save_body (fun _ => ret tt).

(** *** [auto_iterative_development] *)

Definition adopt (c : str) : M unit :=
  modify (fun w => set_project_state (set_current_code c (project_state w)) w).

(** Truth value of a JSON value. *)
Definition json_truthy (v : json) : bool :=
  match v with
  | JNull => false
  | JBool b => b
  | JNum q => negb (Qeq_bool q 0)
  | JNaN | JInfinity _ => true
  | JStr s => Py.truthy s
  | JArr l => match l with [] => false | _ => true end
  | JObj m => match m with [] => false | _ => true end
  end.

(** [evaluation['score']] *)
Definition subscript_score (evaluation : json) : M json :=
  match evaluation with
  | JObj d => match dict_get (u "score") d with
              | Some v => ret v
              | None => raise (KeyError (u "score"))
              end
  | _ => raise TypeError
  end.

(** [f"{score:.2f}"] *)
Definition format_2f (score : json) : M unit :=
  match score with
  | JNum _ | JBool _ | JNaN | JInfinity _ => ret tt
  | JStr _ => raise (ValueError (u "Unknown format code 'f' for object of type 'str'"))
  | _ => raise TypeError
  end.

(** [score >= min_score] *)
Definition score_ge (score : json) (min_score : Q) : M bool :=
  match score with
  | JNaN => ret false
  | JInfinity negative => ret (negb negative)
  | _ => match as_number score with
         | Some q => ret (Qle_bool min_score q)
         | None => raise TypeError
         end
  end.

(** How one pass through the body of the [while] ends. *)
Inductive flow :=
| Next (iteration_count : Z)
| Break
| Return (value : bool).

(** The [try] block of the loop body. *)
Definition iteration_try (improvement_goals : str) (min_score : Q) (iteration_count : Z)
  : M flow :=
  if (iteration_count =? 0)%Z then
    initial_response <- call_ai_api improvement_goals ;;
    if Py.truthy initial_response then
      adopt initial_response ;;;
      _save_current_version ;;;
      ret (Next (iteration_count + 1))
    else ret (Return false)
  else
    evaluation <- _evaluate_code ;;
    match evaluation with
    | Some ev =>
      if json_truthy ev then
        score <- subscript_score ev ;;
        format_2f score ;;;
        reached <- score_ge score min_score ;;
        if reached then ret Break
        else
          improvements <- _get_improvement_suggestions ;;
          match improvements with
          | Some _ =>
            match _apply_improvements improvements with
            | Some improved_code =>
              adopt improved_code ;;;
              _save_current_version ;;;
              ret (Next (iteration_count + 1))
            | None => ret (Next (iteration_count + 1))
            end
          | None => ret (Next (iteration_count + 1))
          end
      else ret (Next (iteration_count + 1))
    | None => ret (Next (iteration_count + 1))
    end.

(** The whole body: the [except Exception] branch leaves the counter as
    it is and continues, or breaks on the last allowed iteration. *)
Definition iteration (improvement_goals : str) (max_iterations : Z) (min_score : Q)
           (iteration_count : Z) : M flow :=
  try_except (iteration_try improvement_goals min_score iteration_count)
    (fun _ => if (iteration_count <? max_iterations - 1)%Z
              then ret (Next iteration_count)
              else ret Break).

(** How the [while] is left. *)
Inductive loop_exit :=
| Left (iteration_count : Z)
| Returned (value : bool).

(** The [while iteration_count < max_iterations] loop; [fuel] bounds the
    number of passes through its body, [None] means the bound was reached
    with the loop still running. *)
Fixpoint while_loop (fuel : nat) (improvement_goals : str) (max_iterations : Z)
         (min_score : Q) (iteration_count : Z) (w : world)
  : option (result loop_exit * world) :=
  if (iteration_count <? max_iterations)%Z then
    match fuel with
    | O => None
    | S fuel' =>
      match iteration improvement_goals max_iterations min_score iteration_count w with
      | (Ok (Next c), w') => while_loop fuel' improvement_goals max_iterations min_score c w'
      | (Ok Break, w') => Some (Ok (Left iteration_count), w')
      | (Ok (Return v), w') => Some (Ok (Returned v), w')
      | (Raise e, w') => Some (Raise e, w')
      end
    end
  else Some (Ok (Left iteration_count), w).

(** The statements after the loop: the last evaluation. *)
Definition final_report : M (option bool) :=
  final_evaluation <- _evaluate_code ;;
  match final_evaluation with
  | Some ev =>
    if json_truthy ev then
      score <- subscript_score ev ;;
      format_2f score ;;;
      ret (Some true)
    else ret (Some true)
  | None => ret (Some true)
  end.

(** [auto_iterative_development]: the result is [None], [False] or [True]
    ([Ok None], [Ok (Some b)]), or an exception. *)
Definition auto_iterative_development (fuel : nat) (improvement_goals : str) (w : world)
  : option (result (option bool) * world) :=
  match file_manager w with
  | None => Some (Ok None, w)
  | Some _ =>
    let ps := project_state w in
    let w1 := set_project_state
                (set_user_feedback (user_feedback ps ++ [improvement_goals]) ps) w in
    match while_loop fuel improvement_goals (max_iterations (config w1))
                     (min_improvement_score (config w1)) 0 w1 with
    | None => None
    | Some (Ok (Left _), w2) => Some (final_report w2)
    | Some (Ok (Returned v), w2) => Some (Ok (Some v), w2)
    | Some (Raise e, w2) => Some (Raise e, w2)
    end
  end.

(** *** [init_file_manager] and [load_existing_project] *)

(** What a path names: a directory, a regular file, or nothing. *)
Inductive path_kind :=
| IsDirectory
| IsFile
| Missing.

Definition kind_of (e : option entry) : path_kind :=
  match e with
  | Some (EDir _) => IsDirectory
  | Some (EFile _) => IsFile
  | None => Missing
  end.

(** [dir_path.mkdir(parents=True, exist_ok=True)]: a directory is left as
    it is; a regular file in its place is a [FileExistsError]; a missing
    directory is made, unless the file system refuses.  The result says
    whether the directory was made. *)
Definition mkdir_parents (kind : path_kind) (refused : bool) : M bool :=
  match kind with
  | IsDirectory => ret false
  | IsFile => raise OSError
  | Missing => if refused then raise OSError else ret true
  end.

(** [init_file_manager] on a project root of the given kind, under a file
    system that refuses to make the directories at the paths [refused]:
    [PathConfig.init_paths] binds the output directory to the project
    root, [ensure_dirs] makes sure that the root and its [history]
    directory exist, then the file manager is created. *)
Definition init_file_manager_at (root : path_kind) (refused : str -> bool)
           (project_root : str) : M bool :=
  try_except
    (modify (fun w => set_file_manager (file_manager w) (Some project_root) w) ;;;
     mkdir_parents root (refused project_root) ;;;
     w <- get ;;
     made <- mkdir_parents (kind_of (fs_lookup (u "history") (disk w)))
                           (refused (path_join project_root (u "history"))) ;;
     (if made
      then modify (fun w => set_disk (disk w ++ [(u "history", EDir empty_dir)]) w)
      else ret tt) ;;;
     modify (fun w => set_file_manager (Some {| root_dir := project_root |}) (OUTPUT_DIR w) w) ;;;
     ret true)
    (fun _ => ret false).

(** The state [disk] lists the children of the project root, so the root
    is a directory; in what follows the file system makes the directories
    it is asked for.  [init_file_manager] is [init_file_manager_at] under
    these two conditions: what is left of the failures of [ensure_dirs] is
    a regular file that has the name [history]. *)
Definition init_file_manager (project_root : str) : M bool :=
  init_file_manager_at IsDirectory (fun _ => false) project_root.

(** [int(s)] on decimal digits with an optional sign, single underscores
    between digits and surrounding white space; [None] is a [ValueError]. *)
Fixpoint int_digits (acc : N) (after_digit : bool) (s : str) : option N :=
  match s with
  | [] => if after_digit then Some acc else None
  | c :: r =>
    if Py.isdigit c then int_digits (acc * 10 + (c - 48))%N true r
    else if (c =? 95)%N && after_digit then
      match r with
      | d :: _ => if Py.isdigit d then int_digits acc false r else None
      | [] => None
      end
    else None
  end.

Definition py_int (s : str) : option Z :=
  match Py.strip s with
  | 45%N :: r => option_map (fun n => (- Z.of_N n)%Z) (int_digits 0 false r)
  | 43%N :: r => option_map Z.of_N (int_digits 0 false r)
  | r => option_map Z.of_N (int_digits 0 false r)
  end.

(** [sorted(..., key=...)]: stable, smallest key first. *)
Fixpoint insert_by_key {A} (x : Z * A) (l : list (Z * A)) : list (Z * A) :=
  match l with
  | [] => [x]
  | y :: l' => if (fst x <? fst y)%Z then x :: y :: l' else y :: insert_by_key x l'
  end.

Definition sorted_by_key {A} (l : list (Z * A)) : list (Z * A) :=
  fold_left (fun acc x => insert_by_key x acc) l [].

(** The key [int(x.name[1:])] of every candidate; one bad name raises. *)
Fixpoint version_keys (ds : list (str * vdir)) : M (list (Z * (str * vdir))) :=
  match ds with
  | [] => ret []
  | (name, d) :: ds' =>
    match py_int (skipn 1 name) with
    | None => raise (ValueError (u "invalid literal for int() with base 10"))
    | Some k => ks <- version_keys ds' ;; ret ((k, (name, d)) :: ks)
    end
  end.

(** [d for d in project_path.iterdir() if d.is_dir() and d.name.startswith('v')] *)
Definition version_dirs (fs : filesystem) : list (str * vdir) :=
  flat_map (fun ne => match snd ne with
                      | EDir d => if Py.startswith (u "v") (fst ne) then [(fst ne, d)] else []
                      | EFile _ => []
                      end) fs.

Definition or_default {A} (o : option A) (d : A) : A :=
  match o with Some a => a | None => d end.

Definition load_existing_project (project_dir : str) : M bool :=
  try_except
    (if negb (path_exists E project_dir) then ret false
     else
       ok <- init_file_manager project_dir ;;
       if negb ok then ret false
       else
         w <- get ;;
         keyed <- version_keys (version_dirs (disk w)) ;;
         match rev (sorted_by_key keyed) with
         | [] => ret false
         | (k, (name, latest_version)) :: _ =>
           let main_file := path_join (path_join project_dir name) (u "main.py") in
           match main_py latest_version with
           | None => ret false
           | Some code_read =>
             version <-
               match checkpoint_json latest_version with
               | Some CkUnreadable => raise JSONDecodeError
               | Some (CkDoc checkpoint) =>
                 modify (fun w => set_project_state
                                    (set_user_feedback (or_default (ck_user_feedback checkpoint) [])
                                       (set_history (or_default (ck_history checkpoint) [])
                                          (project_state w))) w) ;;;
                 ret (or_default (ck_version checkpoint) k)
               | None => ret k
               end ;;
             modify (fun w => set_project_state
                                {| code := [(main_file, code_read)];
                                   current_code := code_read;
                                   version := version + 1;
                                   history := history (project_state w);
                                   user_feedback := user_feedback (project_state w) |} w) ;;;
             ret true
           end
         end)
    (fun _ => ret false).

End Developer.

(** ** A reference decoder for [json.loads]

    The statements below hold for every decoder [json_loads]; this one is
    used where a concrete reply is evaluated.  It reads the JSON grammar
    accepted by Python's [json] module ([NaN] and the infinities included);
    numbers are exact, and a [\uXXXX] escape stands for that code point. *)

Module Json.

Definition is_ws (c : N) : bool :=
  ((c =? 32) || (c =? 9) || (c =? 10) || (c =? 13))%N.

Fixpoint skip_ws (s : str) : str :=
  match s with
  | c :: s' => if is_ws c then skip_ws s' else s
  | [] => []
  end.

Definition hex_value (c : N) : option N :=
  if ((48 <=? c) && (c <=? 57))%N then Some (c - 48)%N
  else if ((97 <=? c) && (c <=? 102))%N then Some (c - 87)%N
  else if ((65 <=? c) && (c <=? 70))%N then Some (c - 55)%N
  else None.

(** The text after an opening quote, up to the closing one. *)
Fixpoint string_body (s : str) : option (str * str) :=
  match s with
  | [] => None
  | 34%N :: r => Some ([], r)
  | 92%N :: 117%N :: a :: b :: c :: d :: r =>
    match hex_value a, hex_value b, hex_value c, hex_value d, string_body r with
    | Some a, Some b, Some c, Some d, Some (t, r') =>
      Some ((a * 4096 + b * 256 + c * 16 + d)%N :: t, r')
    | _, _, _, _, _ => None
    end
  | 92%N :: e :: r =>
    let decoded :=
      if (e =? 34)%N then Some 34%N
      else if (e =? 92)%N then Some 92%N
      else if (e =? 47)%N then Some 47%N
      else if (e =? 98)%N then Some 8%N
      else if (e =? 102)%N then Some 12%N
      else if (e =? 110)%N then Some 10%N
      else if (e =? 114)%N then Some 13%N
      else if (e =? 116)%N then Some 9%N
      else None in
    match decoded, string_body r with
    | Some c, Some (t, r') => Some (c :: t, r')
    | _, _ => None
    end
  | c :: r =>
    if (c <? 32)%N || (c =? 92)%N then None
    else match string_body r with
         | Some (t, r') => Some (c :: t, r')
         | None => None
         end
  end.

(** A maximal run of digits. *)
Fixpoint span_digits (s : str) : str * str :=
  match s with
  | c :: s' => if Py.isdigit c then let '(ds, r) := span_digits s' in (c :: ds, r)
               else ([], s)
  | [] => ([], [])
  end.

Definition nat_of_digits (ds : str) : N := fold_left (fun acc d => (acc * 10 + (d - 48))%N) ds 0%N.

(** [-? (0 | [1-9][0-9]* ) (\.[0-9]+)? ([eE][+-]?[0-9]+)?] *)
Definition number (s : str) : option (json * str) :=
  let '(negative, s0) := match s with 45%N :: r => (true, r) | _ => (false, s) end in
  let '(ip, s1) := span_digits s0 in
  match ip with
  | [] => None
  | lead :: more =>
    if (lead =? 48)%N && Py.truthy more then None
    else
      let '(fp, s2) :=
        match s1 with
        | 46%N :: r => let '(fp, r') := span_digits r in
                       match fp with [] => ([], s1) | _ => (fp, r') end
        | _ => ([], s1)
        end in
      let '(ex, s3) :=
        match s2 with
        | e :: r =>
          if (e =? 101)%N || (e =? 69)%N then
            let '(eneg, r0) := match r with
                               | 45%N :: r' => (true, r')
                               | 43%N :: r' => (false, r')
                               | _ => (false, r)
                               end in
            let '(ed, r1) := span_digits r0 in
            match ed with
            | [] => (0%Z, s2)
            | _ => ((if eneg then - Z.of_N (nat_of_digits ed) else Z.of_N (nat_of_digits ed))%Z, r1)
            end
          else (0%Z, s2)
        | [] => (0%Z, s2)
        end in
      let mantissa :=
        Qmake (Z.of_N (nat_of_digits ip * Npos (pow10 (length fp)) + nat_of_digits fp))
              (pow10 (length fp)) in
      let scaled := Qmult mantissa (Qpower (inject_Z 10) ex) in
      Some (JNum (Qred (if negative then Qopp scaled else scaled)), s3)
  end.

Fixpoint value (fuel : nat) (s : str) : option (json * str) :=
  match fuel with
  | O => None
  | S f =>
    match s with
    | 123%N :: r =>
      match skip_ws r with
      | 125%N :: r' => Some (JObj [], r')
      | r' => members f [] r'
      end
    | 91%N :: r =>
      match skip_ws r with
      | 93%N :: r' => Some (JArr [], r')
      | r' => elements f [] r'
      end
    | 34%N :: r =>
      match string_body r with
      | Some (t, r') => Some (JStr t, r')
      | None => None
      end
    | _ =>
      if Py.startswith (u "true") s then Some (JBool true, skipn 4 s)
      else if Py.startswith (u "false") s then Some (JBool false, skipn 5 s)
      else if Py.startswith (u "null") s then Some (JNull, skipn 4 s)
      else if Py.startswith (u "NaN") s then Some (JNaN, skipn 3 s)
      else if Py.startswith (u "Infinity") s then Some (JInfinity false, skipn 8 s)
      else if Py.startswith (u "-Infinity") s then Some (JInfinity true, skipn 9 s)
      else number s
    end
  end
with members (fuel : nat) (acc : dict) (s : str) : option (json * str) :=
  match fuel with
  | O => None
  | S f =>
    match s with
    | 34%N :: r =>
      match string_body r with
      | Some (k, r1) =>
        match skip_ws r1 with
        | 58%N :: r2 =>
          match value f (skip_ws r2) with
          | Some (v, r3) =>
            match skip_ws r3 with
            | 44%N :: r4 => members f (dict_set k v acc) (skip_ws r4)
            | 125%N :: r4 => Some (JObj (dict_set k v acc), r4)
            | _ => None
            end
          | None => None
          end
        | _ => None
        end
      | None => None
      end
    | _ => None
    end
  end
with elements (fuel : nat) (acc : list json) (s : str) : option (json * str) :=
  match fuel with
  | O => None
  | S f =>
    match value f s with
    | Some (v, r1) =>
      match skip_ws r1 with
      | 44%N :: r2 => elements f (acc ++ [v]) (skip_ws r2)
      | 93%N :: r2 => Some (JArr (acc ++ [v]), r2)
      | _ => None
      end
    | None => None
    end
  end.

Definition loads (s : str) : option json :=
  match value (S (length s)) (skip_ws s) with
  | Some (v, r) => match skip_ws r with [] => Some v | _ => None end
  | None => None
  end.

End Json.

(** ** Concrete configurations, used where the code is evaluated *)

(** [DEV_CONFIG] of [config.py]. *)
Definition DEV_CONFIG : Config :=
  {| max_iterations := 5; min_improvement_score := (7 # 10)%Q;
     auto_save := true; current_api_calls := 0 |}.

(** [AIIterativeDeveloper.__init__], over a project root holding [fs]. *)
Definition new_developer (initial_prompt : str) (fs : filesystem) : world :=
  {| config := DEV_CONFIG;
     project_state := {| code := []; current_code := initial_prompt; version := 0;
                         history := []; user_feedback := [] |};
     file_manager := None; OUTPUT_DIR := None; disk := fs;
     requests_sent := 0; saves_tried := 0; slept := [] |}.

(** An endpoint that answers from a script and times out afterwards. *)
Definition scripted (replies : list api_reply) : nat -> api_reply :=
  fun n => nth n replies (ApiRaise Timeout).

(** An environment without I/O faults, with the reference decoder, and a
    [compile] that accepts exactly the listed programs. *)
Definition script_env (replies : list api_reply) (compiles : list str) : Env :=
  {| client_create := scripted replies;
     json_loads := Json.loads;
     py_compile := fun c => existsb (Py.eqb c) compiles;
     io_fault := fun _ => None;
     time_time := fun n => inject_Z (Z.of_nat n);
     path_exists := fun _ => true;
     md5_hexdigest := fun _ => u "d41d8cd98f00b204e9800998ecf8427e" |}.

(** A developer ready to iterate: [init_file_manager] has been called on
    an empty project root. *)
Definition ready_developer : world :=
  snd (init_file_manager (u "/proj") (new_developer (u "") [])).

(** ** Notions used in the statements *)

(** *** The evaluator and its reports *)

(** The text collected from a reply. *)
Definition reply_texts (chunks : list (option str)) : list str :=
  flat_map (fun c => match c with
                     | Some content => if Py.truthy content then [content] else []
                     | None => []
                     end) chunks.

(** The part of the reply between the first [{] and the last [}], if the
    reply has both in this order. *)
Definition json_part (full_text : str) : option str :=
  let json_start := Py.find (u "{") full_text in
  let json_end := (Py.rfind (u "}") full_text + 1)%Z in
  if (0 <=? json_start)%Z && (json_start <? json_end)%Z
  then Some (Py.slice json_start json_end full_text) else None.

(** What [_evaluate_code] returns, by cases on the reply. *)
Definition evaluation_of (E : Env) (r : api_reply) : option json :=
  match r with
  | ApiRaise _ => Some _get_default_evaluation
  | ApiStream _ (Some _) => Some _get_default_evaluation
  | ApiStream chunks None =>
    let full_text := Py.join (reply_texts chunks) in
    match json_part full_text with
    | None => None
    | Some json_str =>
      match json_loads E json_str with
      | None => Some (_extract_scores_from_text full_text)
      | Some evaluation =>
        if _validate_evaluation_format evaluation then Some evaluation else None
      end
    end
  end.

(** A score text: [0.] followed by one or more digits. *)
Definition score_text (g : str) : Prop :=
  exists ds, ds <> [] /\ forallb Py.isdigit ds = true /\ g = [48; 46]%N ++ ds.

(** Scores read from text: numbers in the unit interval. *)
Definition unit_number (v : json) : Prop :=
  exists q, v = JNum q /\ (0 <= q)%Q /\ (q <= 1)%Q.

Definition unit_scores (scores : dict) : Prop :=
  Forall (fun kv => unit_number (snd kv)) scores.

(** The entries [scores] and [total_score] of a report. *)
Definition score_entries (ev : json) : option dict :=
  match ev with
  | JObj d => match dict_get (u "scores") d with
              | Some (JObj scores) => Some scores
              | _ => None
              end
  | _ => None
  end.

Definition total_score_of (ev : json) : option json :=
  match ev with
  | JObj d => dict_get (u "total_score") d
  | _ => None
  end.

(** Every score the report carries, and its total, lie in [0,1]. *)
Definition within_bounds (ev : json) : Prop :=
  exists scores total,
    score_entries ev = Some scores /\ total_score_of ev = Some total
    /\ Forall (fun kv => in_unit_interval (snd kv) = Some true) scores
    /\ in_unit_interval total = Some true.

(** The five canonical dimensions are all present. *)
Definition has_all_dimensions (ev : json) : Prop :=
  exists scores, score_entries ev = Some scores
                 /\ forall key, In key required_scores -> exists v, dict_get key scores = Some v.

(** The mean of the five canonical dimensions of a report. *)
Definition mean_of_dimensions (ev : json) : option Q :=
  match score_entries ev with
  | Some scores =>
    option_map (fun total => Qred (total / 5)%Q)
      (fold_left (fun acc key =>
                    match acc, dict_get key scores with
                    | Some a, Some v => option_map (Qplus a) (as_number v)
                    | _, _ => None
                    end) required_scores (Some 0%Q))
  | None => None
  end.

(** A reply in the format the prompt asks for, and the report it decodes
    to. *)
Definition solid_reply : str :=
  u "{\qscores\q:{\qstructure\q:0.9,\qstyle\q:0.8,\qerror_handling\q:0.7,\qreadability\q:0.9,\qperformance\q:0.6},\qtotal_score\q:0.78,\qanalysis\q:\qsolid overall\q}".

Definition solid_report : json :=
  JObj [ (u "scores",
          JObj [ (u "structure", JNum (9 # 10)%Q); (u "style", JNum (4 # 5)%Q);
                 (u "error_handling", JNum (7 # 10)%Q); (u "readability", JNum (9 # 10)%Q);
                 (u "performance", JNum (3 # 5)%Q) ]);
         (u "total_score", JNum (39 # 50)%Q);
         (u "analysis", JStr (u "solid overall")) ].

(** A reply whose five scores are 0 and whose [total_score] is 1. *)
Definition skewed_reply : str :=
  u "{\qscores\q:{\qstructure\q:0.0,\qstyle\q:0.0,\qerror_handling\q:0.0,\qreadability\q:0.0,\qperformance\q:0.0},\qtotal_score\q:1.0,\qanalysis\q:\qnothing to praise\q}".

Definition skewed_report : json :=
  JObj [ (u "scores",
          JObj [ (u "structure", JNum 0%Q); (u "style", JNum 0%Q);
                 (u "error_handling", JNum 0%Q); (u "readability", JNum 0%Q);
                 (u "performance", JNum 0%Q) ]);
         (u "total_score", JNum 1%Q);
         (u "analysis", JStr (u "nothing to praise")) ].

(** *** Python's own arithmetic *)

Module Binary64.

Import PrimFloat.

(** [(a + b) / 2] as Python computes it, in binary64. *)
Definition mean (a b : float) : float := ((a + b) / 2)%float.

Definition six_tenths : float := 0.6%float.
Definition seven_tenths : float := 0.7%float.
Definition sixty_five_hundredths : float := 0.65%float.
Definition just_below : float := 0.6499999999999999%float.

End Binary64.

(** *** The retry policy *)

(** The world after a wait of four seconds. *)
Definition wait_then (w : world) : world := set_slept (slept w ++ [4%Z]) w.

(** A first reply without fenced block, a second one with a block. *)
Definition reply_without_block : api_reply :=
  ApiStream [Some (u "I can not write this program.")] None.

Definition reply_with_block : api_reply :=
  ApiStream [Some (u "2. 完整代码：\n```python\nprint(1)\n```\n")] None.

(** *** The validator and the improvement step *)

(** The number of line breaks of a text. *)
Definition line_breaks (s : str) : nat := count_occ N.eq_dec s 10%N.

(** Ten lines, two of them blank: eight non-empty lines. *)
Definition sparse_program : str :=
  u "import os\nclass A:\n    \q\q\qd\q\q\q\n\n    def f(self):\n\n        try:\n            pass\n        except Exception:\n            pass".

(** [code[:-3]] when the text ends with the closing marker. *)
Definition cut_closing_marker (code : str) : str :=
  if Py.endswith fence_close code then firstn (length code - 3) code else code.

(** The lines of a text that are not empty. *)
Definition nonempty_lines (s : str) : list str :=
  filter Py.truthy (Py.split (u "\n") s).

(** Two texts agree as far as both go. *)
Fixpoint agree (x y : str) : bool :=
  match x, y with
  | a :: x', b :: y' => (a =? b)%N && agree x' y'
  | _, _ => true
  end.

(** What [_get_improvement_suggestions] returns, by cases on the reply. *)
Definition suggestion_of (r : api_reply) : option str :=
  match r with
  | ApiStream chunks None => suggestion_code chunks
  | _ => None
  end.

(** The entry [score] of a report. *)
Definition score_entry (ev : json) : option json :=
  match ev with
  | JObj d => dict_get (u "score") d
  | _ => None
  end.

(** An evaluation that carries a [score] below the threshold, in two
    chunks, and the report it decodes to. *)
Definition scored_reply : api_reply :=
  ApiStream
    [Some (u "{\qscores\q:{\qstructure\q:0.5,\qstyle\q:0.5,\qerror_handling\q:0.4,\qreadability\q:0.6,\qperformance\q:0.5},");
     Some (u "\qtotal_score\q:0.5,\qanalysis\q:\qerror handling is thin\q,\qscore\q:0.5}")]
    None.

(** An improvement whose fenced block uses [subprocess]. *)
Definition candidate_with_subprocess : str :=
  u "import subprocess\nclass Runner:\n    \q\q\qRun a command.\q\q\q\n    def run(self):\n        try:\n            return subprocess.run(['ls'])\n        except OSError:\n            return None\nif True:\n    Runner().run()".

Definition unsafe_reply : api_reply :=
  ApiStream
    [Some (u "3. 改进后的代码：\n");
     Some (u "```python\n");
     Some (u "import subprocess\nclass Runner:\n    \q\q\qRun a command.\q\q\q\n");
     Some (u "    def run(self):\n        try:\n            return subprocess.run(['ls'])\n");
     Some (u "        except OSError:\n            return None\n");
     Some (u "if True:\n    Runner().run()\n");
     Some (u "```")]
    None.

Definition scored_report : json :=
  JObj [ (u "scores",
          JObj [ (u "structure", JNum (1 # 2)%Q); (u "style", JNum (1 # 2)%Q);
                 (u "error_handling", JNum (2 # 5)%Q); (u "readability", JNum (3 # 5)%Q);
                 (u "performance", JNum (1 # 2)%Q) ]);
         (u "total_score", JNum (1 # 2)%Q);
         (u "analysis", JStr (u "error handling is thin"));
         (u "score", JNum (1 # 2)%Q) ].

Definition unsafe_env : Env :=
  script_env [scored_reply; unsafe_reply] [candidate_with_subprocess].

(** *** The store *)

(** A developer set up for saving. *)
Definition ready (w : world) : Prop :=
  auto_save (config w) = true /\ file_manager w <> None /\ OUTPUT_DIR w <> None.

(** The directory of the version about to be saved is absent, or a directory. *)
Definition slot_free_or_dir (w : world) : Prop :=
  fs_lookup (version_name (version (project_state w))) (disk w) = None
  \/ exists d, fs_lookup (version_name (version (project_state w))) (disk w) = Some (EDir d).

Section Saves.

Variable E : Env.

(** The two statements with which the controller accepts content:
    [self.project_state['current_code'] = c] and
    [self._save_current_version()]. *)
Definition adopt_and_save (c : str) : M unit :=
  adopt c ;;; _save_current_version E.

(** A run of saves, one per content. *)
Fixpoint save_all (contents : list str) (w : world) : world :=
  match contents with
  | [] => w
  | c :: cs => save_all cs (snd (adopt_and_save c w))
  end.

(** How many of the saves numbered [n0], ..., [n0 + k - 1] meet no fault. *)
Fixpoint successful_saves (n0 k : nat) : nat :=
  match k with
  | O => 0
  | S k' => (match io_fault E n0 with None => 1 | Some _ => 0 end)
            + successful_saves (S n0) k'
  end.

End Saves.

(** The directory of version [z] exists and holds a non-empty main file. *)
Definition has_main (fs : filesystem) (z : Z) : Prop :=
  exists d c, fs_lookup (version_name z) fs = Some (EDir d)
              /\ main_py d = Some c /\ c <> [].

(** After [N] successful saves. *)
Definition saved (N : nat) (w : world) : Prop :=
  ready w
  /\ version (project_state w) = Z.of_nat N
  /\ (forall z, (0 <= z < Z.of_nat N)%Z -> has_main (disk w) z)
  /\ (forall z, (z < 0 \/ Z.of_nat N < z)%Z -> fs_lookup (version_name z) (disk w) = None)
  /\ slot_free_or_dir w.

(** *** The loop *)

(** An endpoint whose every request raises [e]. *)
Definition failing_env (e : exn) : Env :=
  {| client_create := fun _ => ApiRaise e;
     json_loads := Json.loads;
     py_compile := fun _ => true;
     io_fault := fun _ => None;
     time_time := fun n => inject_Z (Z.of_nat n);
     path_exists := fun _ => true;
     md5_hexdigest := fun _ => u "" |}.

(** The reply makes the evaluator return a report without the key
    [score]. *)
Definition report_without_score (E : Env) (r : api_reply) : Prop :=
  exists d, evaluation_of E r = Some (JObj d) /\ d <> [] /\ dict_get (u "score") d = None.

(** The endpoint answers the first request with a fenced block and every
    evaluation with the report its prompt asks for. *)
Definition generation_reply : api_reply :=
  ApiStream [Some (u "```python\nprint('todo')\n```\n")] None.

Definition answering_env : Env :=
  {| client_create := fun n => match n with
                               | O => generation_reply
                               | S _ => ApiStream [Some solid_reply] None
                               end;
     json_loads := Json.loads;
     py_compile := fun _ => true;
     io_fault := fun _ => None;
     time_time := fun n => inject_Z (Z.of_nat n);
     path_exists := fun _ => true;
     md5_hexdigest := fun _ => u "" |}.

(** ** The entry points the iteration loop does not use *)

(** [s.count(c)] for a single character. *)
Definition count (c : N) (s : str) : nat := count_occ N.eq_dec s c.

(** [s.upper()], on the letters a to z. *)
Definition upper_chr (c : N) : N :=
  if ((97 <=? c) && (c <=? 122))%N then (c - 32)%N else c.

Definition upper (s : str) : str := map upper_chr s.

Section OtherEntryPoints.

Variable E : Env.

(** *** [_process_evaluation_stream] *)

(** The [async for] loop: the buffer grows chunk by chunk and is decoded
    whenever its braces balance; [Some] is the [return] inside the loop. *)
Fixpoint evaluation_stream_loop (chunks : list (option str)) (buffer : str) : option json :=
  match chunks with
  | [] => None
  | Some content :: rest =>
    if Py.truthy content then
      let buffer := buffer ++ content in
      if (count 123 buffer =? count 125 buffer) && Py.contains (u "{") buffer then
        match json_loads E buffer with
        | Some evaluation =>
          if _validate_evaluation_format evaluation then Some evaluation
          else evaluation_stream_loop rest buffer
        | None => evaluation_stream_loop rest buffer
        end
      else evaluation_stream_loop rest buffer
    else evaluation_stream_loop rest buffer
  | None :: rest => evaluation_stream_loop rest buffer
  end.

(** Nothing is ever appended to [full_response]: the statements after the
    loop work on the empty text. *)
Definition _process_evaluation_stream (response : list (option str) * option exn) : M json :=
  try_except
    (let full_response : list str := [] in
     match evaluation_stream_loop (fst response) [] with
     | Some evaluation => ret evaluation
     | None =>
       match snd response with
       | Some e => raise e
       | None =>
         let full_text := Py.join full_response in
         found <- try_except (parse_evaluation E full_response)
                    (fun e => match e with
                              | JSONDecodeError => ret None
                              | _ => raise e
                              end) ;;
         match found with
         | Some evaluation => ret evaluation
         | None => ret (_extract_scores_from_text full_text)
         end
       end
     end)
    (fun _ => ret _get_default_evaluation).

(** *** [should_continue_iteration]

    [config['stream']] is [True]: it comes from [MODEL_CONFIG] and no
    statement of the program changes it, so the reply goes through
    [_stream_output]. *)
Definition should_continue_iteration : M bool :=
  try_except
    (response <- create E ;;
     feedback <- _stream_output response ;;
     modify add_api_call ;;;
     if Py.eqb (Py.strip (upper feedback)) (u "DONE") then ret false
     else
       modify (fun w => set_project_state
                          (set_user_feedback (user_feedback (project_state w) ++ [feedback])
                                             (project_state w)) w) ;;;
       ret true)
    (fun _ => ret false).

(** *** [validate_and_merge_code] *)

Definition validate_and_merge_code (new_code : str) : M bool :=
  if validate_code E new_code then
    modify (fun w =>
              let ps := project_state w in
              set_project_state
                (set_version (version ps + 1)
                   (set_current_code new_code
                      (set_history (history ps ++ [current_code ps]) ps))) w) ;;;
    ret true
  else ret false.

End OtherEntryPoints.

(** ** The file manager

    [CodeFileManager] keeps, for every code file under the project root,
    the digest it had at the last comparison. *)

(** [del m[k]] *)
Definition dict_del {V} (k : str) (m : list (str * V)) : list (str * V) :=
  filter (fun kv => negb (Py.eqb k (fst kv))) m.

(** The directory tree at the moment it is looked at.  [rglob] does not
    raise: [pathlib] skips the directories it may not read. *)
Record Tree := {
  rglob : str -> str -> list str;     (* [Path(root).rglob(pattern)], as path strings *)
  read_bytes : str -> option str;     (* [open(path, 'rb').read()]; [None]: it raises *)
  read_text : str -> option str       (* [open(path, 'r', encoding='utf-8').read()] *)
}.

(** The attributes of a [CodeFileManager]. *)
Record ManagedFiles := {
  manager : CodeFileManager;
  file_patterns : list str;           (* a set, in its iteration order *)
  file_cache : list (str * str)       (* path -> digest *)
}.

Definition default_patterns : list str :=
  [u ".py"; u ".js"; u ".java"; u ".cpp"; u ".h"; u ".hpp"].

Section FileManager.

Variable E : Env.
Variable T : Tree.

Definition _find_code_files (self : ManagedFiles) : list str :=
  flat_map (fun pattern => rglob T (root_dir (manager self)) (u "*" ++ pattern))
           (file_patterns self).

Definition _calculate_file_hash (file_path : str) : option str :=
  option_map (md5_hexdigest E) (read_bytes T file_path).

(** A file whose digest cannot be computed is left out. *)
Definition scan_files (self : ManagedFiles) : list (str * str) :=
  fold_left (fun new_cache file_path =>
               match _calculate_file_hash file_path with
               | Some file_hash => dict_set file_path file_hash new_cache
               | None => new_cache
               end) (_find_code_files self) [].

(** [CodeFileManager.__init__]: the result of the first scan is dropped,
    the cache starts empty. *)
Definition new_manager (root : str) (patterns : option (list str)) : ManagedFiles :=
  let self := {| manager := {| root_dir := root |};
                 file_patterns := match patterns with
                                  | Some (p :: ps) => p :: ps
                                  | _ => default_patterns
                                  end;
                 file_cache := [] |} in
  let _ := scan_files self in
  self.

Definition get_modified_files (self : ManagedFiles) : list (str * str) * ManagedFiles :=
  let new_cache := scan_files self in
  let modified_files :=
    fold_left (fun modified_files kv =>
                 let '(file_path, new_hash) := kv in
                 if negb (dict_has file_path (file_cache self))
                    || match dict_get file_path (file_cache self) with
                       | Some old_hash => negb (Py.eqb old_hash new_hash)
                       | None => true
                       end
                 then dict_set file_path (u "modified") modified_files
                 else modified_files) new_cache [] in
  let modified_files :=
    fold_left (fun modified_files kv =>
                 if negb (dict_has (fst kv) new_cache)
                 then dict_set (fst kv) (u "deleted") modified_files
                 else modified_files) (file_cache self) modified_files in
  (modified_files,
   {| manager := manager self; file_patterns := file_patterns self; file_cache := new_cache |}).

(** [_update_project_state]: a deleted file leaves the code map, a
    modified one is read again; a file that cannot be read keeps its old
    entry. *)
Definition _update_project_state (modified_files : list (str * str)) : M unit :=
  modify (fun w =>
    set_project_state
      (set_code
         (fold_left (fun code kv =>
                       let '(file_path, status) := kv in
                       if Py.eqb status (u "deleted") then
                         if dict_has file_path code then dict_del file_path code else code
                       else
                         match read_text T file_path with
                         | Some content => dict_set file_path content code
                         | None => code
                         end) modified_files (code (project_state w)))
         (project_state w)) w).

End FileManager.

(** ** The dialogue on the terminal

    The lines typed by the user are a list; [input()] takes the first one
    and raises [EOFError] when none is left. *)

Definition EOFError : exn := OtherException.

(** [get_project_source] *)
Definition options : list (str * str) :=
  [(u "1", u "创建新项目"); (u "2", u "迭代现有项目")].

Fixpoint get_project_source (stdin : list str) : result str * list str :=
  match stdin with
  | [] => (Raise EOFError, [])
  | line :: rest =>
    let choice := Py.strip line in
    if dict_has choice options then (Ok choice, rest) else get_project_source rest
  end.

(** [continue_iteration] *)
Definition goals_map : list (str * str) :=
  [(u "1", u "优化代码结构，提高可读性和可维护性");
   (u "2", u "扩展现有功能，添加新特性");
   (u "3", u "改进代码性能，优化资源使用");
   (u "4", u "完善错误处理，提高代码健壮性");
   (u "5", u "补充文档和注释，提高代码可理解性")].

(** The prompt built around the current code and the goals. *)
Definition improvement_prompt (current_code improvement_goals : str) : str :=
  u "基于以下现有代码进行改进：\n\n" ++ current_code
  ++ u "\n\n改进目标：" ++ improvement_goals
  ++ u "\n\n请保持代码的核心功能，在此基础上进行改进。\n".

Section Dialogue.

Variable E : Env.

Definition continue_iteration (fuel : nat) (improvement_goals : option str)
           (stdin : list str) (w : world) : option (result (option bool) * world) :=
  if negb (Py.truthy (current_code (project_state w))) then Some (Ok (Some false), w)
  else
    let run improvement_goals :=
      auto_iterative_development E fuel
        (improvement_prompt (current_code (project_state w)) improvement_goals) w in
    let ask :=
      match stdin with
      | [] => Some (Raise EOFError, w)
      | line :: rest =>
        let choice := Py.strip line in
        match dict_get choice goals_map with
        | Some goals => run goals
        | None =>
          if Py.eqb choice (u "6") then
            match rest with
            | [] => Some (Raise EOFError, w)
            | line' :: _ => run (Py.strip line')
            end
          else Some (Ok (Some false), w)
        end
      end in
    match improvement_goals with
    | Some goals => if Py.truthy goals then run goals else ask
    | None => ask
    end.

End Dialogue.

(** ** More notions used in the statements *)

(** The whole text of a reply; a request that raises brings none. *)
Definition reply_text (r : api_reply) : str :=
  match r with
  | ApiStream chunks _ => Py.join (reply_texts chunks)
  | ApiRaise _ => []
  end.

(** The text received with the first [n] chunks. *)
Definition received (n : nat) (chunks : list (option str)) : str :=
  Py.join (reply_texts (firstn n chunks)).

(** While the text received has no opening marker, no code is collected;
    the buffer is always the end of the text received. *)
Definition quiet (st : stream_state) : Prop :=
  (exists pre, Py.join (full_response st) = pre ++ buffer st)
  /\ (Py.contains fence_open (Py.join (full_response st)) = false ->
      in_code_block st = false /\ code_content st = []).

(** The scan stores scores under the five canonical names only, each name
    once. *)
Definition canonical (scores : dict) : Prop :=
  NoDup (map fst scores) /\ forall k, In k (map fst scores) -> In k required_scores.

(** The letters A to Z and a to z. *)
Definition ascii_letter (c : N) : bool :=
  ((65 <=? c) && (c <=? 90) || (97 <=? c) && (c <=? 122))%N.

(** The state a successful load leaves: the code of the latest version,
    the version after it, and the history and feedback given. *)
Definition loaded (project_dir name code_read : str) (v : Z) (h f : list str) (w1 : world)
  : world :=
  set_project_state
    {| code := [(path_join (path_join project_dir name) (u "main.py"), code_read)];
       current_code := code_read;
       version := v + 1;
       history := h;
       user_feedback := f |} w1.

(** The checkpoint written with a version. *)
Definition checkpoint_of (E : Env) (out : str) (w : world) : Checkpoint :=
  let ps := project_state w in
  let main_file := path_join (path_join out (version_name (version ps))) (u "main.py") in
  {| ck_version := Some (version ps);
     ck_timestamp := Some (time_time E (saves_tried w));
     ck_files := [(main_file, (current_code ps, md5_hexdigest E (current_code ps)))];
     ck_history := Some (history ps);
     ck_user_feedback := Some (user_feedback ps) |}.

(** *** What a computation keeps *)

(** [keeps R m]: whether it returns or raises, [m] takes a state to one
    related to it by [R]. *)
Definition keeps {A} (R : world -> world -> Prop) (m : M A) : Prop :=
  forall w, R w (snd (m w)).

(** History and user feedback are as before. *)
Definition same_notes (w w' : world) : Prop :=
  history (project_state w') = history (project_state w)
  /\ user_feedback (project_state w') = user_feedback (project_state w).

(** The version counter has not gone down, and only directories of the
    versions from the counter on may have changed. *)
Definition earlier_versions_kept (w w' : world) : Prop :=
  (version (project_state w) <= version (project_state w'))%Z
  /\ forall name, (forall z, (version (project_state w) <= z)%Z -> name <> version_name z) ->
                  fs_lookup name (disk w') = fs_lookup name (disk w).

(** An endpoint that answers every request with the same fenced block,
    under the limits of [DEV_CONFIG]. *)
Definition fenced_block_env : Env :=
  {| client_create := fun _ => generation_reply;
     json_loads := Json.loads;
     py_compile := fun _ => true;
     io_fault := fun _ => None;
     time_time := fun n => inject_Z (Z.of_nat n);
     path_exists := fun _ => true;
     md5_hexdigest := fun _ => u "" |}.

(** A run of calls of [validate_and_merge_code]. *)
Fixpoint merge_all (E : Env) (codes : list str) (w : world) : world :=
  match codes with
  | [] => w
  | c :: cs => merge_all E cs (snd (validate_and_merge_code E c w))
  end.

(** *** The store, the loop and the loader *)

(** The worlds differ at most in the counters of requests, waits and API
    calls: project state, disk and what a save depends on are the same. *)
Definition same_store (w w' : world) : Prop :=
  project_state w' = project_state w /\ disk w' = disk w
  /\ saves_tried w' = saves_tried w /\ file_manager w' = file_manager w
  /\ OUTPUT_DIR w' = OUTPUT_DIR w /\ auto_save (config w') = auto_save (config w).

(** From a state with [N] saved versions to one with as many more as
    saves have met no fault in between. *)
Definition counts_saves (E : Env) (w w' : world) : Prop :=
  forall N, saved N w ->
    saves_tried w <= saves_tried w'
    /\ saved (N + successful_saves E (saves_tried w) (saves_tried w' - saves_tried w)) w'.

(** The save numbered [n] meets the fault [f]; no other save meets one. *)
Definition faulty_env (n : nat) (f : save_fault) : Env :=
  {| client_create := scripted [];
     json_loads := Json.loads;
     py_compile := fun _ => true;
     io_fault := fun i => if Nat.eqb i n then Some f else None;
     time_time := fun i => inject_Z (Z.of_nat i);
     path_exists := fun _ => true;
     md5_hexdigest := fun _ => u "d41d8cd98f00b204e9800998ecf8427e" |}.

(** An evaluation in the format of the prompt, with a [score] above the
    threshold of [DEV_CONFIG]. *)
Definition passing_reply : api_reply :=
  ApiStream
    [Some (u "{\qscores\q:{\qstructure\q:0.9,\qstyle\q:0.9,\qerror_handling\q:0.8,\qreadability\q:0.9,\qperformance\q:0.9},");
     Some (u "\qtotal_score\q:0.9,\qanalysis\q:\qa short and clear program\q,\qscore\q:0.9}")]
    None.

(** The state in which [auto_iterative_development] enters its loop: the
    goals have been added to the user feedback. *)
Definition entered (improvement_goals : str) (w : world) : world :=
  set_project_state
    (set_user_feedback (user_feedback (project_state w) ++ [improvement_goals])
                       (project_state w)) w.

(** Along the first [fuel] passes of the loop from counter
    [iteration_count] and state [w], no pass raises inside its [try]. *)
Fixpoint no_pass_raises (E : Env) (fuel : nat) (improvement_goals : str) (max_iterations : Z)
         (min_score : Q) (iteration_count : Z) (w : world) : bool :=
  match fuel with
  | O => true
  | S fuel' =>
    if (iteration_count <? max_iterations)%Z then
      match iteration_try E improvement_goals min_score iteration_count w with
      | (Ok (Next c), w') =>
        no_pass_raises E fuel' improvement_goals max_iterations min_score c w'
      | (Ok _, _) => true
      | (Raise _, _) => false
      end
    else true
  end.


(** * Properties *)

(** ** Python text *)

Lemma Py_eqb_eq a b : Py.eqb a b = true <-> a = b.
Proof.
  revert b; induction a as [|x a IH]; intros [|y b]; simpl; try easy.
  rewrite andb_true_iff, N.eqb_eq, IH. split.
  - intros [-> ->]; reflexivity.
  - intros H; injection H; auto.
Qed.

Lemma Py_eqb_refl a : Py.eqb a a = true.
Proof. apply Py_eqb_eq; reflexivity. Qed.

Example u_ascii : u "v0" = [118; 48]%N.
Proof. reflexivity. Qed.

Example u_cjk : u "结构: 0.6\n" = [32467; 26500; 58; 32; 48; 46; 54; 10]%N.
Proof. reflexivity. Qed.

Example split_fences :
  Py.split (u "```python") (u "a```python\nb```c```python") =
  [u "a"; u "\nb```c"; u ""].
Proof. reflexivity. Qed.

Example find_rfind :
  Py.find (u "{") (u "ab{c}d}") = 2%Z /\ Py.rfind (u "}") (u "ab{c}d}") = 6%Z
  /\ Py.find (u "{") (u "abc") = (-1)%Z /\ Py.rfind (u "}") (u "") = (-1)%Z.
Proof. repeat split; reflexivity. Qed.

Example of_Z_examples : Py.of_Z 0 = u "0" /\ Py.of_Z 12 = u "12" /\ Py.of_Z (-3) = u "-3".
Proof. repeat split; reflexivity. Qed.

Example py_float_examples :
  py_float (u "0.6") = Some (3 # 5)%Q /\ py_float (u "0.85") = Some (17 # 20)%Q
  /\ py_float (u "0.0") = Some (0 # 1)%Q /\ py_float (u "x") = None.
Proof. repeat split; reflexivity. Qed.

Example extract_two_labels :
  _extract_scores_from_text (u "结构: 0.6\n风格: 0.7\n") =
  JObj [ (u "scores", JObj [ (u "structure", JNum (3 # 5)%Q); (u "style", JNum (7 # 10)%Q) ]);
         (u "total_score", JNum (13 # 20)%Q);
         (u "analysis", JStr (u "无详细分析")) ].
Proof. vm_compute. reflexivity. Qed.

Example extract_with_analysis :
  _extract_scores_from_text (u "Performance = 0.25\nAnalysis:  fine enough \nreadability：0.5") =
  JObj [ (u "scores", JObj [ (u "readability", JNum (1 # 2)%Q); (u "performance", JNum (1 # 4)%Q) ]);
         (u "total_score", JNum (3 # 8)%Q);
         (u "analysis", JStr (u "fine enough")) ].
Proof. vm_compute. reflexivity. Qed.

Example extract_nothing :
  _extract_scores_from_text (u "no scores here: 1.5") = _get_default_evaluation.
Proof. vm_compute. reflexivity. Qed.

Example loads_report :
  Json.loads (u "{\qscores\q: {\qstructure\q: 0.9, \qstyle\q: 8e-1}, \qtotal_score\q: 0.78,\n \qanalysis\q: \qsolid overall\q, \qtags\q: [true, null, -1.5]}") =
  Some (JObj [ (u "scores", JObj [ (u "structure", JNum (9 # 10)%Q); (u "style", JNum (4 # 5)%Q) ]);
               (u "total_score", JNum (39 # 50)%Q);
               (u "analysis", JStr (u "solid overall"));
               (u "tags", JArr [JBool true; JNull; JNum (-3 # 2)%Q]) ]).
Proof. vm_compute. reflexivity. Qed.

Example loads_rejects :
  Json.loads (u "{oops}") = None /\ Json.loads (u "{\qa\q: 1,}") = None
  /\ Json.loads (u "{\qa\q: 01}") = None /\ Json.loads (u "{} x") = None.
Proof. repeat split; vm_compute; reflexivity. Qed.

Example ready_developer_state :
  file_manager ready_developer = Some {| root_dir := u "/proj" |}
  /\ OUTPUT_DIR ready_developer = Some (u "/proj")
  /\ disk ready_developer = [(u "history", EDir empty_dir)].
Proof. repeat split; reflexivity. Qed.

(** ** The store: saving is switched off (C10) *)

(** C10. If [auto_save] is false or the file manager is unset,
    [_save_current_version] returns at once: nothing is written and the
    whole state (current content, version counter, history, user feedback,
    code map, disk) is as before. *)
Theorem save_disabled_changes_nothing (E : Env) (w : world) :
  auto_save (config w) = false \/ file_manager w = None ->
  _save_current_version E w = (Ok tt, w).
Proof.
  intros H. unfold _save_current_version, bind, get. simpl.
  destruct H as [H | H]; rewrite H; simpl.
  - reflexivity.
  - rewrite orb_true_r. reflexivity.
Qed.

(** A new developer has no file manager: saving does nothing. *)
Lemma save_disabled_changes_nothing_witness :
  file_manager (new_developer (u "print(1)") []) = None
  /\ _save_current_version (script_env [] []) (new_developer (u "print(1)") [])
     = (Ok tt, new_developer (u "print(1)") []).
Proof.
  split; [reflexivity |].
  apply (save_disabled_changes_nothing (script_env [] []) (new_developer (u "print(1)") [])).
  right. reflexivity.
Defined.

(** ** The evaluator *)

(** [_evaluate_code] sends one request and returns [evaluation_of] its
    reply. *)
Lemma _evaluate_code_spec (E : Env) (w : world) :
  _evaluate_code E w =
  (Ok (evaluation_of E (client_create E (requests_sent w))),
   set_requests_sent (S (requests_sent w)) w).
Proof.
  unfold _evaluate_code, try_except, bind, create, evaluation_of.
  destruct (client_create E (requests_sent w)) as [e | chunks [e | ]]; simpl; try reflexivity.
  unfold collect_text, parse_evaluation, json_part, reply_texts, ret, raise; simpl.
  destruct (_ && _); simpl; [| reflexivity].
  destruct (json_loads E _) as [ev | ]; simpl; [| reflexivity].
  destruct (_validate_evaluation_format ev); reflexivity.
Qed.

(** Without a pair of braces in the reply, and with a decoded reply that
    fails the validity predicate, the evaluator returns [None]. *)
Lemma _evaluate_code_without_braces (E : Env) (w : world) chunks :
  client_create E (requests_sent w) = ApiStream chunks None ->
  json_part (Py.join (reply_texts chunks)) = None ->
  fst (_evaluate_code E w) = Ok None.
Proof.
  intros Hc Hj. rewrite _evaluate_code_spec. simpl. unfold evaluation_of.
  now rewrite Hc, Hj.
Qed.

Lemma _evaluate_code_invalid_report (E : Env) (w : world) chunks json_str decoded :
  client_create E (requests_sent w) = ApiStream chunks None ->
  json_part (Py.join (reply_texts chunks)) = Some json_str ->
  json_loads E json_str = Some decoded ->
  _validate_evaluation_format decoded = false ->
  fst (_evaluate_code E w) = Ok None.
Proof.
  intros Hc Hj Hd Hv. rewrite _evaluate_code_spec. simpl. unfold evaluation_of.
  now rewrite Hc, Hj, Hd, Hv.
Qed.

(** The evaluator never raises. *)
Lemma _evaluate_code_never_raises (E : Env) (w : world) :
  exists r w', _evaluate_code E w = (Ok r, w').
Proof. rewrite _evaluate_code_spec. eauto. Qed.

(** C2. The reply is a well-formed JSON object that fails the validity
    predicate (one dimension only): [_evaluate_code] runs off its end and
    returns [None], not the default report. *)
Theorem evaluate_invalid_report_returns_None :
  let reply := u "{\qscores\q: {\qstructure\q: 0.9}, \qtotal_score\q: 0.9, \qanalysis\q: \qonly one dimension was scored\q}" in
  let E := script_env [ApiStream [Some reply] None] [] in
  (exists ev, json_loads E reply = Some ev /\ _validate_evaluation_format ev = false)
  /\ fst (_evaluate_code E ready_developer) = Ok None.
Proof.
  split.
  - eexists. split; vm_compute; reflexivity.
  - vm_compute. reflexivity.
Qed.

(** C5. The reply [结构: 0.6\n风格: 0.7\n] has no brace: no decoding is
    attempted, no [JSONDecodeError] is raised, the text fallback is not
    reached and [_evaluate_code] returns [None].  Applied to the same text,
    [_extract_scores_from_text] yields the two scores, their mean and the
    placeholder analysis. *)
Theorem evaluate_labelled_scores_returns_None :
  let reply := u "结构: 0.6\n风格: 0.7\n" in
  let E := script_env [ApiStream [Some reply] None] [] in
  fst (_evaluate_code E ready_developer) = Ok None
  /\ _extract_scores_from_text reply =
     JObj [ (u "scores", JObj [ (u "structure", JNum (3 # 5)%Q); (u "style", JNum (7 # 10)%Q) ]);
            (u "total_score", JNum (13 # 20)%Q);
            (u "analysis", JStr (u "无详细分析")) ].
Proof. split; vm_compute; reflexivity. Qed.

(** In binary64 the mean of 0.6 and 0.7 is the double below 0.65: the
    rationals of this development abstract from the rounding. *)
Example mean_in_binary64 :
  PrimFloat.eqb (Binary64.mean Binary64.six_tenths Binary64.seven_tenths)
                Binary64.sixty_five_hundredths = false
  /\ PrimFloat.eqb (Binary64.mean Binary64.six_tenths Binary64.seven_tenths)
                   Binary64.just_below = true.
Proof. split; reflexivity. Qed.

(** *** What the matcher consumes and captures *)

Section RegexFacts.

(** The text a group captures is what its pattern consumed. *)
Lemma consumed_app (pre rest : str) : consumed (pre ++ rest) rest = pre.
Proof.
  unfold consumed. rewrite length_app.
  replace (length pre + length rest - length rest) with (length pre) by lia.
  rewrite firstn_app, Nat.sub_diag, firstn_all. simpl. apply app_nil_r.
Qed.

Lemma plus_rests_spec cls s rest :
  In rest (plus_rests cls s) ->
  exists pre, pre <> [] /\ forallb cls pre = true /\ s = pre ++ rest.
Proof.
  revert rest; induction s as [|c s IH]; intros rest H; simpl in H; [contradiction|].
  destruct (cls c) eqn:Hc; [|contradiction].
  apply in_app_or in H. destruct H as [H | [<- | []]].
  - destruct (IH _ H) as (pre & _ & Hall & ->).
    exists (c :: pre). split; [discriminate | split; [simpl; now rewrite Hc | reflexivity]].
  - exists [c]. split; [discriminate | split; [simpl; now rewrite Hc | reflexivity]].
Qed.

Lemma lazy_rests_spec cls s rest :
  In rest (lazy_rests cls s) -> exists pre, s = pre ++ rest.
Proof.
  revert rest; induction s as [|c s IH]; intros rest H; simpl in H.
  - destruct H as [<- | []]. now exists [].
  - destruct H as [<- | H]; [now exists [] |].
    destruct (cls c); [|contradiction].
    destruct (IH _ H) as (pre & ->). now exists (c :: pre).
Qed.

(** Every match leaves a suffix of the text. *)
Lemma run_suffix r : forall s caps rest,
  In (caps, rest) (run r s) -> exists pre, s = pre ++ rest.
Proof.
  induction r as [cls|cls|cls|cls|r1 IH1 r2 IH2|r1 IH1 r2 IH2|r IH|r IH| | ];
    intros s caps rest H; simpl in H.
  - destruct s as [|c s]; [contradiction|]. destruct (cls c); [|contradiction].
    destruct H as [H | []]. injection H as _ <-. now exists [c].
  - apply in_map_iff in H. destruct H as (x & Hx & Hin). injection Hx as _ ->.
    destruct (plus_rests_spec _ _ _ Hin) as (pre & _ & _ & ->). now exists pre.
  - apply in_map_iff in H. destruct H as (x & Hx & Hin). injection Hx as _ ->.
    apply in_app_or in Hin. destruct Hin as [Hin | [<- | []]]; [|now exists []].
    destruct (plus_rests_spec _ _ _ Hin) as (pre & _ & _ & ->). now exists pre.
  - apply in_map_iff in H. destruct H as (x & Hx & Hin). injection Hx as _ ->.
    eapply lazy_rests_spec; eauto.
  - apply in_flat_map in H. destruct H as ([c1 mid] & H1 & H2).
    apply in_map_iff in H2. destruct H2 as ([c2 rest'] & Hx & H2). simpl in *.
    injection Hx as _ ->.
    destruct (IH1 _ _ _ H1) as (p1 & ->). destruct (IH2 _ _ _ H2) as (p2 & ->).
    exists (p1 ++ p2). now rewrite app_assoc.
  - apply in_app_or in H. destruct H as [H | H]; eauto.
  - apply in_map_iff in H. destruct H as ([c rest'] & Hx & H). simpl in *.
    injection Hx as _ ->. eauto.
  - destruct (run r s); [contradiction|]. destruct H as [H | []].
    injection H as _ <-. now exists [].
  - destruct s as [|c [|c' s]]; try contradiction.
    + destruct H as [H | []]. injection H as _ <-. now exists [].
    + destruct (c =? 10)%N; [|contradiction].
      destruct H as [H | []]. injection H as _ <-. now exists [].
  - destruct H as [H | []]. injection H as _ <-. now exists [].
Qed.

(** The matches of a sequence, a group, a class and a repetition. *)
Lemma run_seq r1 r2 s caps rest :
  In (caps, rest) (run (Seq r1 r2) s) ->
  exists c1 mid c2, In (c1, mid) (run r1 s) /\ In (c2, rest) (run r2 mid) /\ caps = c1 ++ c2.
Proof.
  simpl. intros H. apply in_flat_map in H. destruct H as ([c1 mid] & H1 & H2).
  apply in_map_iff in H2. destruct H2 as ([c2 rest'] & Hx & H2). simpl in *.
  injection Hx as <- ->. eauto 6.
Qed.

Lemma run_group r s caps rest :
  In (caps, rest) (run (Group r) s) ->
  exists c pre, In (c, rest) (run r s) /\ s = pre ++ rest /\ caps = pre :: c.
Proof.
  simpl. intros H. apply in_map_iff in H. destruct H as ([c rest'] & Hx & H). simpl in *.
  injection Hx as <- ->. destruct (run_suffix _ _ _ _ H) as (pre & Hs).
  exists c, pre. repeat split; auto. subst s. now rewrite consumed_app.
Qed.

Lemma run_chr cls s caps rest :
  In (caps, rest) (run (Chr cls) s) -> exists c, s = c :: rest /\ cls c = true /\ caps = [].
Proof.
  simpl. destruct s as [|c s]; [contradiction|]. destruct (cls c) eqn:Hc; [|contradiction].
  intros [H | []]. injection H as <- <-. eauto.
Qed.

Lemma run_plus cls s caps rest :
  In (caps, rest) (run (Plus cls) s) ->
  caps = [] /\ exists pre, pre <> [] /\ forallb cls pre = true /\ s = pre ++ rest.
Proof.
  simpl. intros H. apply in_map_iff in H. destruct H as (x & Hx & Hin).
  injection Hx as <- ->. split; [reflexivity|]. now apply plus_rests_spec.
Qed.

Lemma run_star cls s caps rest :
  In (caps, rest) (run (Star cls) s) -> caps = [].
Proof.
  simpl. intros H. apply in_map_iff in H. destruct H as (x & Hx & Hin).
  now injection Hx as <- _.
Qed.

(** The second group of a score pattern is a score text. *)
Lemma run_score_number s caps rest :
  In (caps, rest) (run score_number s) -> exists g, score_text g /\ caps = [g].
Proof.
  unfold score_number. intros H.
  apply run_group in H. destruct H as (c & pre & H & Hs & ->).
  change (lit (u "0.")) with (Seq (Chr (only 48)) (Seq (Chr (only 46)) Eps)) in H.
  apply run_seq in H. destruct H as (c1 & mid & c2 & H1 & H2 & ->).
  apply run_plus in H2. destruct H2 as (-> & ds & Hne & Hds & ->).
  apply run_seq in H1. destruct H1 as (c3 & m1 & c4 & H3 & H4 & ->).
  apply run_chr in H3. destruct H3 as (a & -> & Ha & ->).
  apply run_seq in H4. destruct H4 as (c5 & m2 & c6 & H5 & H6 & ->).
  apply run_chr in H5. destruct H5 as (b & -> & Hb & ->).
  simpl in H6. destruct H6 as [H6 | []]. injection H6 as Hc6 Hm2. subst c6 m2.
  unfold only in Ha, Hb. apply N.eqb_eq in Ha, Hb. subst a b.
  exists pre. split; [|reflexivity].
  exists ds. split; [assumption | split; [assumption |]].
  change (48%N :: 46%N :: ds ++ rest) with (([48; 46]%N ++ ds) ++ rest) in Hs.
  now apply app_inv_tail in Hs.
Qed.

(** Each score pattern captures a label and a score text. *)
Lemma run_score_pattern pattern s caps rest :
  In pattern score_patterns -> In (caps, rest) (run pattern s) ->
  exists g1 g2, caps = [g1; g2] /\ score_text g2.
Proof.
  intros Hp H. destruct Hp as [<- | [<- | [<- | []]]].
  - apply run_seq in H. destruct H as (c1 & m1 & c2 & H1 & H2 & ->).
    apply run_group in H1. destruct H1 as (c & g1 & H1 & _ & ->).
    apply run_plus in H1. destruct H1 as (-> & _).
    apply run_seq in H2. destruct H2 as (c3 & m2 & c4 & H3 & H4 & ->).
    apply run_chr in H3. destruct H3 as (_ & _ & _ & ->).
    apply run_seq in H4. destruct H4 as (c5 & m3 & c6 & H5 & H6 & ->).
    apply run_star in H5. subst c5.
    apply run_score_number in H6. destruct H6 as (g2 & Hg & ->).
    exists g1, g2. split; [reflexivity | assumption].
  - apply run_seq in H. destruct H as (c1 & m1 & c2 & H1 & H2 & ->).
    apply run_group in H1. destruct H1 as (c & g1 & H1 & _ & ->).
    apply run_plus in H1. destruct H1 as (-> & _).
    apply run_seq in H2. destruct H2 as (c3 & m2 & c4 & H3 & H4 & ->).
    apply run_chr in H3. destruct H3 as (_ & _ & _ & ->).
    apply run_seq in H4. destruct H4 as (c5 & m3 & c6 & H5 & H6 & ->).
    apply run_star in H5. subst c5.
    apply run_score_number in H6. destruct H6 as (g2 & Hg & ->).
    exists g1, g2. split; [reflexivity | assumption].
  - apply run_seq in H. destruct H as (c1 & m1 & c2 & H1 & H2 & ->).
    apply run_group in H1. destruct H1 as (c & g1 & H1 & _ & ->).
    apply run_plus in H1. destruct H1 as (-> & _).
    apply run_seq in H2. destruct H2 as (c3 & m2 & c4 & H3 & H4 & ->).
    apply run_star in H3. subst c3.
    apply run_seq in H4. destruct H4 as (c5 & m3 & c6 & H5 & H6 & ->).
    apply run_chr in H5. destruct H5 as (_ & _ & _ & ->).
    apply run_seq in H6. destruct H6 as (c7 & m4 & c8 & H7 & H8 & ->).
    apply run_star in H7. subst c7.
    apply run_score_number in H8. destruct H8 as (g2 & Hg & ->).
    exists g1, g2. split; [reflexivity | assumption].
Qed.

(** Every match reported by [finditer] is a match of the pattern at some
    position. *)
Lemma match_here_in r s m : match_here r s = Some m -> In m (run r s).
Proof.
  unfold match_here. destruct (run r s) as [|m' l]; [discriminate|].
  intros H; injection H as ->. now left.
Qed.

Lemma finditer_aux_in r : forall s skip caps,
  In caps (finditer_aux r skip s) -> exists s' rest, In (caps, rest) (run r s').
Proof.
  induction s as [|c s IH]; intros skip caps H; simpl in H; [contradiction|].
  destruct skip as [|k]; [|eauto].
  destruct (match_here r (c :: s)) as [[caps' rest]|] eqn:Hm; [|eauto].
  destruct H as [<- | H]; [|eauto].
  apply match_here_in in Hm. eauto.
Qed.

Lemma finditer_score_pattern pattern text caps :
  In pattern score_patterns -> In caps (finditer pattern text) ->
  exists g1 g2, caps = [g1; g2] /\ score_text g2.
Proof.
  intros Hp H. apply finditer_aux_in in H. destruct H as (s' & rest & H).
  eapply run_score_pattern; eauto.
Qed.

End RegexFacts.

(** *** Score bounds *)

(** The value of [k] digits is below [10 ^ k]. *)
Lemma isdigit_range c : Py.isdigit c = true -> (48 <= c <= 57)%N.
Proof.
  unfold Py.isdigit. rewrite andb_true_iff, !N.leb_le. tauto.
Qed.

Lemma digits_value_bound ds : forall acc,
  forallb Py.isdigit ds = true ->
  exists f, digits_value acc ds = Some f
            /\ (acc * Npos (pow10 (length ds)) <= f < (acc + 1) * Npos (pow10 (length ds)))%N.
Proof.
  induction ds as [|d ds IH]; intros acc H; simpl in *.
  - exists acc. split; [reflexivity | lia].
  - apply andb_true_iff in H. destruct H as [Hd Hds]. rewrite Hd.
    destruct (IH (acc * 10 + (d - 48))%N Hds) as (f & -> & Hlo & Hhi).
    exists f. split; [reflexivity|].
    apply isdigit_range in Hd.
    change (N.pos (10 * pow10 (length ds))) with (10 * N.pos (pow10 (length ds)))%N.
    nia.
Qed.

(** [float] of a score text lies in the unit interval. *)
Lemma py_float_score_text g :
  score_text g -> exists q, py_float g = Some q /\ (0 <= q)%Q /\ (q <= 1)%Q.
Proof.
  intros (ds & Hne & Hds & ->). unfold py_float.
  change (split_at_dot ([48; 46]%N ++ ds)) with ([48%N], Some ds).
  cbv beta iota. change (digits_value 0 [48%N]) with (Some 0%N).
  destruct (digits_value_bound ds 0%N Hds) as (f & -> & Hlo & Hhi).
  destruct ds as [|d ds']; [congruence|].
  eexists. split; [reflexivity|].
  set (P := pow10 (length (d :: ds'))) in *.
  rewrite !Qred_correct. unfold Qle. simpl. lia.
Qed.

(** The scores collected by the scan stay in the unit interval. *)
Lemma dict_set_unit k v (scores : dict) :
  unit_number v -> unit_scores scores -> unit_scores (dict_set k v scores).
Proof.
  intros Hv. induction 1 as [|[k' v'] l Hk Hl IH]; simpl.
  - constructor; [assumption | constructor].
  - destruct (Py.eqb k k'); constructor; auto.
Qed.

Lemma record_score_unit scores groups :
  (exists g1 g2, groups = [g1; g2] /\ score_text g2) ->
  unit_scores scores -> unit_scores (record_score scores groups).
Proof.
  intros (g1 & g2 & -> & Hg) Hs. unfold record_score.
  destruct (py_float_score_text g2 Hg) as (q & -> & Hq).
  assert (Hn : unit_number (JNum q)) by (exists q; auto).
  repeat match goal with
         | |- context [if ?b then _ else _] => destruct b
         end; auto using dict_set_unit.
Qed.

Lemma fold_record_score_unit matches : forall scores,
  Forall (fun groups => exists g1 g2, groups = [g1; g2] /\ score_text g2) matches ->
  unit_scores scores -> unit_scores (fold_left record_score matches scores).
Proof.
  induction matches as [|m ms IH]; intros scores Hm Hs; simpl; [assumption|].
  inversion Hm; subst. apply IH; [assumption|]. now apply record_score_unit.
Qed.

Lemma scan_scores_unit text : unit_scores (scan_scores text).
Proof.
  unfold scan_scores.
  assert (G : forall ps scores,
             (forall p, In p ps -> In p score_patterns) -> unit_scores scores ->
             unit_scores (fold_left (fun scores pattern =>
                                       fold_left record_score (Re.finditer pattern text) scores)
                                    ps scores)).
  { induction ps as [|p ps IH]; intros scores Hps Hs; simpl; [assumption|].
    apply IH; [intros; apply Hps; now right|].
    apply fold_record_score_unit; [|assumption].
    apply Forall_forall. intros caps Hc.
    eapply finditer_score_pattern; [apply Hps; now left | eassumption]. }
  apply G; [auto | constructor].
Qed.

(** The sum of [n] scores lies between 0 and [n], their mean in the unit
    interval. *)
Lemma sum_values_bounds (scores : dict) : forall acc,
  unit_scores scores ->
  let total := fold_left (fun acc kv => match as_number (snd kv) with
                                        | Some q => Qplus acc q
                                        | None => acc
                                        end) scores acc in
  (acc <= total)%Q /\ (total <= acc + inject_Z (Z.of_nat (length scores)))%Q.
Proof.
  induction scores as [|[k v] l IH]; intros acc H; simpl.
  - split; [apply Qle_refl|]. unfold inject_Z. simpl. lra.
  - inversion H as [|? ? (q & Hv & Hq0 & Hq1) Hl]; subst. simpl in *. subst v. simpl.
    destruct (IH (acc + q)%Q Hl) as [Hlo Hhi]. split; [lra|].
    rewrite Zpos_P_of_succ_nat, <- Z.add_1_r, inject_Z_plus.
    change (inject_Z 1) with 1%Q. lra.
Qed.

Lemma mean_values_unit (scores : dict) :
  scores <> [] -> unit_scores scores ->
  (0 <= mean_values scores)%Q /\ (mean_values scores <= 1)%Q.
Proof.
  intros Hne H. unfold mean_values. rewrite Qred_correct.
  destruct (sum_values_bounds scores 0%Q H) as [Hlo Hhi].
  fold (sum_values scores) in Hlo, Hhi.
  assert (Hn : (0 < inject_Z (Z.of_nat (length scores)))%Q).
  { destruct scores; [congruence|]. simpl length. rewrite Nat2Z.inj_succ.
    unfold Qlt, inject_Z. simpl. lia. }
  split.
  - apply Qle_shift_div_l; [assumption | lra].
  - apply Qle_shift_div_r; [assumption | lra].
Qed.

Lemma unit_number_in_unit_interval v :
  unit_number v -> in_unit_interval v = Some true.
Proof.
  intros (q & -> & H0 & H1). simpl.
  apply Qle_bool_iff in H0, H1. now rewrite H0, H1.
Qed.

(** *** Reports returned by the evaluator (C3) *)

(** The three sources of a report: the validated reply, the default, the
    text fallback. *)
Lemma validated_within_bounds ev :
  _validate_evaluation_format ev = true -> within_bounds ev /\ has_all_dimensions ev.
Proof.
  unfold _validate_evaluation_format, within_bounds, has_all_dimensions, score_entries,
    total_score_of.
  destruct ev as [| | | | | | |d]; try discriminate.
  destruct (negb (forallb _ required_keys)); [discriminate|].
  destruct (dict_get (u "scores") d) as [[| | | | | | |scores]|]; try discriminate.
  destruct (forallb (fun key => dict_has key scores) required_scores) eqn:Hkeys;
    [|discriminate].
  destruct (all_in_unit_interval scores) eqn:Hall; [|discriminate]. simpl.
  destruct (dict_get (u "total_score") d) as [total|]; [|discriminate].
  destruct (in_unit_interval total) as [[|]|] eqn:Htot; try discriminate.
  intros _. split.
  - exists scores, total. repeat split; auto.
    apply Forall_forall. intros kv Hin.
    unfold all_in_unit_interval in Hall. rewrite forallb_forall in Hall.
    specialize (Hall kv Hin). destruct (in_unit_interval (snd kv)) as [[|]|]; congruence.
  - exists scores. split; [reflexivity|]. intros key Hin.
    rewrite forallb_forall in Hkeys. specialize (Hkeys key Hin).
    unfold dict_has in Hkeys. destruct (dict_get key scores); [eauto | discriminate].
Qed.

Lemma default_within_bounds : within_bounds _get_default_evaluation.
Proof.
  eexists _, _. repeat split; try reflexivity.
  repeat constructor.
Qed.

Lemma extracted_within_bounds text : within_bounds (_extract_scores_from_text text).
Proof.
  unfold _extract_scores_from_text.
  pose proof (scan_scores_unit text) as Hs.
  destruct (scan_scores text) as [|kv l] eqn:Hscan; [apply default_within_bounds|].
  exists (kv :: l), (JNum (mean_values (kv :: l))). repeat split.
  - eapply Forall_impl; [|exact Hs]. intros a. apply unit_number_in_unit_interval.
  - apply unit_number_in_unit_interval. eexists. split; [reflexivity|].
    apply mean_values_unit; [discriminate | assumption].
Qed.

(** C3, as the code has it.  Every report returned by [_evaluate_code]
    keeps each score it carries, and its [total_score], within [0,1].  When
    the structured path succeeds, the report is the decoded reply itself:
    the five canonical dimensions are present, and [total_score] is the
    value the reply states. *)
Theorem evaluation_report_bounds (E : Env) (w w' : world) (ev : json) :
  _evaluate_code E w = (Ok (Some ev), w') ->
  within_bounds ev
  /\ (forall chunks json_str decoded,
        client_create E (requests_sent w) = ApiStream chunks None ->
        json_part (Py.join (reply_texts chunks)) = Some json_str ->
        json_loads E json_str = Some decoded ->
        ev = decoded /\ has_all_dimensions ev
        /\ total_score_of ev = total_score_of decoded).
Proof.
  rewrite _evaluate_code_spec. intros H. injection H as H _.
  unfold evaluation_of in H. split.
  - destruct (client_create E (requests_sent w)) as [e | chunks [e|]].
    + injection H as <-. apply default_within_bounds.
    + injection H as <-. apply default_within_bounds.
    + destruct (json_part _) as [js|]; [|discriminate].
      destruct (json_loads E js) as [d|].
      * destruct (_validate_evaluation_format d) eqn:Hv; [|discriminate].
        injection H as <-. now apply validated_within_bounds.
      * injection H as <-. apply extracted_within_bounds.
  - intros chunks js decoded Hc Hj Hd. rewrite Hc, Hj, Hd in H.
    destruct (_validate_evaluation_format decoded) eqn:Hv; [|discriminate].
    injection H as <-. repeat split; auto. now apply validated_within_bounds.
Qed.

(** The reply of the prompt's format is returned as decoded. *)
Lemma evaluation_report_bounds_witness :
  let E := script_env [ApiStream [Some solid_reply] None] [] in
  _evaluate_code E ready_developer
  = (Ok (Some solid_report), set_requests_sent 1 ready_developer)
  /\ within_bounds solid_report.
Proof.
  intros E.
  assert (H : _evaluate_code E ready_developer
              = (Ok (Some solid_report), set_requests_sent 1 ready_developer))
    by (vm_compute; reflexivity).
  split; [exact H|].
  exact (proj1 (evaluation_report_bounds E ready_developer _ solid_report H)).
Defined.

(** The claim C3 as stated fails: the reply with five scores 0 and
    [total_score] 1 passes the validity predicate and is returned as it
    is; its total is not the mean of its dimensions. *)
Lemma returned_total_differs_from_mean :
  let E := script_env [ApiStream [Some skewed_reply] None] [] in
  json_loads E skewed_reply = Some skewed_report
  /\ fst (_evaluate_code E ready_developer) = Ok (Some skewed_report)
  /\ total_score_of skewed_report = Some (JNum 1%Q)
  /\ mean_of_dimensions skewed_report = Some 0%Q
  /\ ~ (1 == 0)%Q.
Proof.
  repeat split; try (vm_compute; reflexivity).
  intros H. discriminate H.
Qed.

(** ** The retry policy at the model-call boundary (C6) *)

Section RetryPolicy.

Variable E : Env.
Variable prompt : str.

(** [_stream_output] leaves the world as it is. *)
Lemma _stream_output_world response w :
  snd (_stream_output response w) = w.
Proof.
  unfold _stream_output. destruct (snd response); [reflexivity|].
  match goal with |- context [if ?b then raise _ else _] => destruct b end; reflexivity.
Qed.

(** One attempt sends one request and does not wait. *)
Lemma attempt_effect w :
  requests_sent (snd (call_ai_api_attempt E prompt w)) = S (requests_sent w)
  /\ slept (snd (call_ai_api_attempt E prompt w)) = slept w.
Proof.
  unfold call_ai_api_attempt, bind, create, modify.
  destruct (client_create E (requests_sent w)) as [e | chunks broken]; simpl; [auto|].
  match goal with
  | |- context [_stream_output ?r ?w0] =>
    pose proof (_stream_output_world r w0) as Hw; destruct (_stream_output r w0) as [[c|e] w1]
  end; simpl in *; subst; auto.
Qed.

(** The decorator, unrolled: up to three attempts, four seconds apart. *)
Lemma call_ai_api_unrolled w :
  call_ai_api E prompt w =
  match call_ai_api_attempt E prompt w with
  | (Ok c, w1) => (Ok c, w1)
  | (Raise e1, w1) =>
    if retry_if_exception_type e1 then
      match call_ai_api_attempt E prompt (wait_then w1) with
      | (Ok c, w2) => (Ok c, w2)
      | (Raise e2, w2) =>
        if retry_if_exception_type e2 then call_ai_api_attempt E prompt (wait_then w2)
        else (Raise e2, w2)
      end
    else (Raise e1, w1)
  end.
Proof.
  unfold call_ai_api. simpl. unfold try_except at 1.
  destruct (call_ai_api_attempt E prompt w) as [[c|e1] w1]; [reflexivity|].
  destruct (retry_if_exception_type e1); simpl; [|reflexivity].
  unfold bind at 1. unfold sleep at 1. unfold modify.
  change (wait_exponential 2 4 60 1) with 4%Z. fold (wait_then w1).
  unfold try_except at 1.
  destruct (call_ai_api_attempt E prompt (wait_then w1)) as [[c|e2] w2]; [reflexivity|].
  destruct (retry_if_exception_type e2); simpl; [|reflexivity].
  unfold bind at 1. unfold sleep at 1. unfold modify.
  change (wait_exponential 2 4 60 2) with 4%Z. fold (wait_then w2).
  unfold try_except.
  destruct (call_ai_api_attempt E prompt (wait_then w2)) as [[c|e3] w3]; [reflexivity|].
  destruct (retry_if_exception_type e3); reflexivity.
Qed.

End RetryPolicy.

(** C6, as the code has it.  [call_ai_api] makes one, two or three
    attempts, each sending one request; between attempts it waits
    [wait_exponential(2, 4, 60)], four seconds each time, within the floor
    of 4 and the ceiling of 60.  An attempt is retried exactly when it
    raises a [RequestException] (a [Timeout] included), a
    [JSONDecodeError] or a [ValueError]; the [ValueError] of
    [_stream_output] for a reply without fenced block is among them.  The
    first attempt that returns ends the call with its result; the first
    attempt that raises any other exception ends the call with that
    exception, at once; after two retried failures the third attempt is
    made and its outcome, whatever it is, is the outcome of the call. *)
Theorem call_ai_api_retry_policy (E : Env) (prompt : str) (w : world) :
  let r := call_ai_api E prompt w in
  let attempts := requests_sent (snd r) - requests_sent w in
  (1 <= attempts <= 3)
  /\ slept (snd r) = slept w ++ repeat 4%Z (attempts - 1)
  /\ (forall n, (4 <= wait_exponential 2 4 60 n <= 60)%Z)
  /\ (forall e, retry_if_exception_type e = true
                <-> e = Timeout \/ e = RequestException \/ e = JSONDecodeError
                    \/ exists msg, e = ValueError msg)
  /\ retry_if_exception_type no_code_block = true
  /\ match call_ai_api_attempt E prompt w with
     | (Ok c, w1) => attempts = 1 /\ r = (Ok c, w1)
     | (Raise e1, w1) =>
       if retry_if_exception_type e1 then
         match call_ai_api_attempt E prompt (wait_then w1) with
         | (Ok c, w2) => attempts = 2 /\ r = (Ok c, w2)
         | (Raise e2, w2) =>
           if retry_if_exception_type e2 then
             attempts = 3 /\ r = call_ai_api_attempt E prompt (wait_then w2)
           else attempts = 2 /\ r = (Raise e2, w2)
         end
       else attempts = 1 /\ r = (Raise e1, w1)
     end.
Proof.
  cbv zeta.
  assert (W : forall n, (4 <= wait_exponential 2 4 60 n <= 60)%Z)
    by (intros n; unfold wait_exponential; lia).
  assert (T : forall e, retry_if_exception_type e = true
                        <-> e = Timeout \/ e = RequestException \/ e = JSONDecodeError
                            \/ exists msg, e = ValueError msg).
  { intros e. split.
    - destruct e; cbn; intros H; try discriminate; eauto.
    - intros [-> | [-> | [-> | (msg & ->)]]]; reflexivity. }
  rewrite call_ai_api_unrolled.
  pose proof (attempt_effect E prompt w) as [R1 S1].
  destruct (call_ai_api_attempt E prompt w) as [[c|e1] w1] eqn:A1; cbn [fst snd] in R1, S1.
  { cbn [fst snd]. rewrite R1, S1.
    replace (S (requests_sent w) - requests_sent w) with 1 by lia.
    cbn [repeat Nat.sub]. rewrite app_nil_r. split; [lia|]. split; [reflexivity|]. split; [exact W|]. split; [exact T|].
    split; [reflexivity|]. split; reflexivity. }
  destruct (retry_if_exception_type e1) eqn:T1.
  2:{ cbn [fst snd]. rewrite R1, S1.
      replace (S (requests_sent w) - requests_sent w) with 1 by lia.
      cbn [repeat Nat.sub]. rewrite app_nil_r.
      split; [lia|]. split; [reflexivity|]. split; [exact W|]. split; [exact T|].
    split; [reflexivity|]. split; reflexivity. }
  pose proof (attempt_effect E prompt (wait_then w1)) as [R2 S2].
  destruct (call_ai_api_attempt E prompt (wait_then w1)) as [[c|e2] w2] eqn:A2;
    simpl in R2, S2.
  { cbn [fst snd]. rewrite R2, S2, R1, S1.
    replace (S (S (requests_sent w)) - requests_sent w) with 2 by lia.
    split; [lia|]. split; [reflexivity|]. split; [exact W|]. split; [exact T|].
    split; [reflexivity|]. split; reflexivity. }
  destruct (retry_if_exception_type e2) eqn:T2.
  2:{ cbn [fst snd]. rewrite R2, S2, R1, S1.
      replace (S (S (requests_sent w)) - requests_sent w) with 2 by lia.
      split; [lia|]. split; [reflexivity|]. split; [exact W|]. split; [exact T|].
    split; [reflexivity|]. split; reflexivity. }
  pose proof (attempt_effect E prompt (wait_then w2)) as [R3 S3].
  rewrite R3, S3. unfold wait_then. cbn [requests_sent slept set_slept].
  rewrite R2, S2, R1, S1.
  replace (S (S (S (requests_sent w))) - requests_sent w) with 3 by lia.
  rewrite <- app_assoc. cbn [repeat Nat.sub app].
  split; [lia|]. split; [reflexivity|]. split; [exact W|]. split; [exact T|].
    split; [reflexivity|]. split; reflexivity.
Qed.

(** Two replies without fenced block, then one with a block: the third
    attempt is made and its block is returned. *)
Lemma call_ai_api_retry_policy_witness :
  let E := script_env [reply_without_block; reply_without_block; reply_with_block] [] in
  let r := call_ai_api E (u "todo app") ready_developer in
  requests_sent (snd r) - requests_sent ready_developer = 3
  /\ fst r = Ok (u "print(1)")
  /\ slept (snd r) = [4%Z; 4%Z].
Proof.
  intros E r.
  pose proof (call_ai_api_retry_policy E (u "todo app") ready_developer) as H.
  cbv zeta in H. destruct H as (_ & Hs & _ & _ & _ & H).
  assert (A1 : exists w1, call_ai_api_attempt E (u "todo app") ready_developer
                          = (Raise no_code_block, w1)) by (vm_compute; eauto).
  destruct A1 as (w1 & A1). rewrite A1 in H.
  change (retry_if_exception_type no_code_block) with true in H. cbv iota in H.
  assert (A2 : exists w2, call_ai_api_attempt E (u "todo app") (wait_then w1)
                          = (Raise no_code_block, w2)).
  { revert A1. vm_compute. intros A1. injection A1 as <-. eauto. }
  destruct A2 as (w2 & A2). rewrite A2 in H.
  change (retry_if_exception_type no_code_block) with true in H. cbv iota in H.
  destruct H as [Hn Hr]. fold r in Hn, Hr, Hs.
  split; [exact Hn|]. split.
  - rewrite Hr. revert A1 A2. vm_compute. intros A1. injection A1 as <-.
    intros A2. injection A2 as <-. reflexivity.
  - rewrite Hs. fold r. rewrite Hn. reflexivity.
Defined.

(** The claim C6 as stated fails: the reply without fenced block is not
    surfaced to the controller; after a wait of four seconds the call is
    made again and its block is returned. *)
Lemma extraction_error_is_retried :
  let E := script_env [reply_without_block; reply_with_block] [] in
  fst (call_ai_api_attempt E (u "todo app") ready_developer) = Raise no_code_block
  /\ fst (call_ai_api E (u "todo app") ready_developer) = Ok (u "print(1)")
  /\ requests_sent (snd (call_ai_api E (u "todo app") ready_developer)) = 2
  /\ slept (snd (call_ai_api E (u "todo app") ready_developer)) = [4%Z].
Proof. repeat split; vm_compute; reflexivity. Qed.

(** ** The structural validator (C7, C8) *)

(** Splitting at line breaks yields one line more than there are line
    breaks. *)
Lemma split_lines_length s : length (Py.split (u "\n") s) = S (line_breaks s).
Proof.
  unfold Py.split, line_breaks. change (u "\n") with [10%N].
  induction s as [|c s IH]; [reflexivity|].
  cbn [Py.split_aux Py.startswith length Nat.sub]. rewrite andb_true_r.
  cbn [count_occ].
  destruct (N.eq_dec c 10) as [-> | Hne].
  - rewrite N.eqb_refl. cbn [length]. now rewrite IH.
  - destruct (10 =? c)%N eqn:Heq; [apply N.eqb_eq in Heq; congruence|].
    destruct (Py.split_aux [10%N] 0 s) as [|l ls]; [discriminate IH|].
    exact IH.
Qed.

(** C7, as the code has it.  [validate_code] returns false whenever the
    content left by its removal of the markers and of the surrounding white
    space has fewer than 10 lines, that is fewer than 9 line breaks: blank
    lines inside the content count as lines.  For input that does not
    start with the opening marker, the content left is the input stripped,
    without a closing marker at its end, stripped again. *)
Theorem validate_rejects_short_code (E : Env) (code : str) :
  (line_breaks (Py.strip (strip_markers code)) < 9 -> validate_code E code = false)
  /\ (Py.startswith fence_open (Py.strip code) = false ->
      strip_markers code = Py.strip (cut_closing_marker (Py.strip code))).
Proof.
  split.
  - intros H. unfold validate_code.
    destruct (negb (Py.truthy code)); [reflexivity|].
    rewrite split_lines_length.
    destruct (Nat.ltb_spec (S (line_breaks (Py.strip (strip_markers code)))) 10)
      as [_ | Hge]; [reflexivity | lia].
  - intros H. unfold strip_markers, cut_closing_marker. cbv zeta. now rewrite H.
Qed.

(** Two lines are too few. *)
Lemma validate_rejects_short_code_witness :
  line_breaks (Py.strip (strip_markers (u "import os\nprint(os.getcwd())\n"))) < 9
  /\ validate_code (script_env [] [u "import os\nprint(os.getcwd())"])
                   (u "import os\nprint(os.getcwd())\n") = false.
Proof.
  assert (H : line_breaks (Py.strip (strip_markers (u "import os\nprint(os.getcwd())\n"))) < 9)
    by (vm_compute; lia).
  split; [exact H|].
  exact (proj1 (validate_rejects_short_code _ _) H).
Defined.

(** The claim C7 as stated fails: a program without markers and with
    eight non-empty lines is accepted. *)
Lemma sparse_program_is_accepted :
  let E := script_env [] [sparse_program] in
  Py.startswith fence_open sparse_program = false
  /\ Py.endswith fence_close sparse_program = false
  /\ length (nonempty_lines sparse_program) = 8
  /\ validate_code E sparse_program = true.
Proof. repeat split; vm_compute; reflexivity. Qed.

(** *** Occurrences of a text inside another *)

Section Occurrences.

(** [startswith], [in] and [endswith] in terms of concatenation. *)
Lemma startswith_spec p s :
  Py.startswith p s = true <-> exists r, s = p ++ r.
Proof.
  revert s; induction p as [|x p IH]; intros s; simpl.
  - split; [intros _; now exists s | reflexivity].
  - destruct s as [|y s].
    + split; [discriminate | intros (r & H); discriminate H].
    + rewrite andb_true_iff, N.eqb_eq, IH. split.
      * intros (-> & r & ->). now exists r.
      * intros (r & H). injection H as -> ->. split; [reflexivity | now exists r].
Qed.

Lemma contains_spec needle s :
  Py.contains needle s = true <-> exists pre post, s = pre ++ needle ++ post.
Proof.
  induction s as [|c s IH]; simpl.
  - rewrite orb_false_r, startswith_spec. split.
    + intros (r & H). now exists (@nil N), r.
    + intros (pre & post & H). destruct pre; [|discriminate H].
      simpl in H. now exists post.
  - rewrite orb_true_iff, startswith_spec, IH. split.
    + intros [(r & H) | (pre & post & H)].
      * now exists (@nil N), r.
      * exists (c :: pre), post. now rewrite H.
    + intros (pre & post & H). destruct pre as [|x pre].
      * left. now exists post.
      * right. injection H as _ H. now exists pre, post.
Qed.

(** Dropping a prefix that shares no character with the needle keeps its
    occurrences. *)
Lemma occurrence_after_prefix (needle a : str) : forall t pre post : str,
  needle <> [] -> (forall c, In c needle -> ~ In c a) ->
  a ++ t = pre ++ needle ++ post ->
  exists pre', t = pre' ++ needle ++ post.
Proof.
  induction a as [|x a IH]; intros t pre post Hne Hdisj H.
  - now exists pre.
  - destruct pre as [|y pre].
    + destruct needle as [|n needle]; [congruence|].
      simpl in H. injection H as -> _.
      exfalso. apply (Hdisj n); now left.
    + simpl in H. injection H as _ H.
      apply (IH t pre post Hne); [|assumption].
      intros c Hc Hin. apply (Hdisj c Hc). now right.
Qed.

Lemma occurrence_before_suffix (needle b t pre post : str) :
  needle <> [] -> (forall c, In c needle -> ~ In c b) ->
  t ++ b = pre ++ needle ++ post ->
  exists post', t = pre ++ needle ++ post'.
Proof.
  intros Hne Hdisj H.
  apply (f_equal (@rev N)) in H. rewrite !rev_app_distr in H. rewrite <- app_assoc in H.
  destruct (occurrence_after_prefix (rev needle) (rev b) (rev t) (rev post) (rev pre))
    as (p' & Hp); auto.
  - intros Hr. apply Hne. apply (f_equal (@rev N)) in Hr. now rewrite rev_involutive in Hr.
  - intros c Hc Hin. apply in_rev in Hc, Hin. now apply (Hdisj c).
  - exists (rev p'). apply (f_equal (@rev N)) in Hp.
    rewrite !rev_app_distr, !rev_involutive in Hp. now rewrite <- app_assoc in Hp.
Qed.

(** [strip] removes white space only. *)
Lemma lstrip_spec s : exists ws, s = ws ++ Py.lstrip s /\ forallb Py.isspace ws = true.
Proof.
  induction s as [|c s (ws & Hs & Hws)]; simpl.
  - now exists (@nil N).
  - destruct (Py.isspace c) eqn:Hc.
    + exists (c :: ws). split; [simpl; f_equal; exact Hs | simpl; now rewrite Hc].
    + now exists (@nil N).
Qed.

Lemma rstrip_spec s : exists ws, s = Py.rstrip s ++ ws /\ forallb Py.isspace ws = true.
Proof.
  unfold Py.rstrip. destruct (lstrip_spec (rev s)) as (ws & Hs & Hws).
  exists (rev ws). split.
  - apply (f_equal (@rev N)) in Hs. rewrite rev_involutive, rev_app_distr in Hs. exact Hs.
  - rewrite forallb_forall in *. intros c Hc. apply Hws. now apply in_rev.
Qed.

(** A needle without white space survives [strip]. *)
Lemma contains_strip needle s :
  needle <> [] -> forallb (fun c => negb (Py.isspace c)) needle = true ->
  Py.contains needle s = true -> Py.contains needle (Py.strip s) = true.
Proof.
  intros Hne Hns. rewrite !contains_spec. intros (pre & post & H).
  assert (Hdisj : forall ws, forallb Py.isspace ws = true ->
                             forall c, In c needle -> ~ In c ws).
  { intros ws Hws c Hc Hin. rewrite forallb_forall in Hns, Hws.
    specialize (Hns c Hc). specialize (Hws c Hin). rewrite Hws in Hns. discriminate. }
  unfold Py.strip.
  destruct (lstrip_spec s) as (ws1 & Hs1 & Hws1).
  destruct (rstrip_spec (Py.lstrip s)) as (ws2 & Hs2 & Hws2).
  rewrite Hs1 in H.
  destruct (occurrence_after_prefix needle ws1 _ pre post Hne (Hdisj ws1 Hws1) H) as (pre' & H').
  rewrite Hs2 in H'.
  destruct (occurrence_before_suffix needle ws2 _ pre' post Hne (Hdisj ws2 Hws2) H')
    as (post' & H'').
  now exists pre', post'.
Qed.

Lemma endswith_spec p s :
  Py.endswith p s = true -> exists t, s = t ++ p /\ firstn (length s - length p) s = t.
Proof.
  unfold Py.endswith. rewrite andb_true_iff, Nat.leb_le, Py_eqb_eq. intros [Hlen Heq].
  exists (firstn (length s - length p) s). split; [|reflexivity].
  remember (length s - length p) as n. rewrite <- Heq. symmetry. apply firstn_skipn.
Qed.

End Occurrences.

(** *** Deny-listed words survive the removal of the markers *)

(** Texts with a common extension agree. *)
Lemma agree_app (x y p q : str) : x ++ p = y ++ q -> agree x y = true.
Proof.
  revert y; induction x as [|a x IH]; intros [|b y] H; simpl; try reflexivity.
  simpl in H. injection H as -> H. rewrite N.eqb_refl. simpl. now apply IH.
Qed.

(** Cutting [n] characters off a text that starts with [mark] keeps every
    occurrence of [needle], provided [needle] cannot begin inside the part
    cut off. *)
Lemma occurrence_after_cut (mark needle : str) (n : nat) (r pre post : str) :
  n <= length mark ->
  forallb (fun k => negb (agree needle (skipn k mark))) (seq 0 n) = true ->
  mark ++ r = pre ++ needle ++ post ->
  exists pre', skipn n (mark ++ r) = pre' ++ needle ++ post.
Proof.
  intros Hn Hno H.
  destruct (Nat.lt_ge_cases (length pre) n) as [Hlt | Hge].
  - exfalso. rewrite forallb_forall in Hno.
    specialize (Hno (length pre)). rewrite in_seq in Hno.
    assert (Ha : agree needle (skipn (length pre) mark) = true).
    { apply (agree_app _ _ post r).
      transitivity (skipn (length pre) (mark ++ r)).
      - rewrite H, skipn_app, skipn_all, Nat.sub_diag. reflexivity.
      - rewrite skipn_app. replace (length pre - length mark) with 0 by lia. reflexivity. }
    rewrite Ha in Hno. specialize (Hno ltac:(lia)). discriminate.
  - exists (skipn n pre). rewrite H, skipn_app.
    replace (n - length pre) with 0 by lia. reflexivity.
Qed.

(** None of the four words can begin inside the eight characters cut
    from the opening marker, none contains a back quote or white space. *)
Lemma contains_strip_markers imp code :
  In imp dangerous_imports ->
  Py.contains imp code = true -> Py.contains imp (strip_markers code) = true.
Proof.
  intros Hin H. unfold strip_markers. cbv zeta.
  assert (Hne : imp <> []) by (destruct Hin as [<- | [<- | [<- | [<- | []]]]]; discriminate).
  assert (Hns : forallb (fun c => negb (Py.isspace c)) imp = true)
    by (destruct Hin as [<- | [<- | [<- | [<- | []]]]]; vm_compute; reflexivity).
  assert (Hcut : forallb (fun k => negb (agree imp (skipn k fence_open))) (seq 0 8) = true)
    by (destruct Hin as [<- | [<- | [<- | [<- | []]]]]; vm_compute; reflexivity).
  assert (Htick : forall c, In c imp -> ~ In c fence_close).
  { assert (Hb : forallb (fun c => negb (existsb (N.eqb c) fence_close)) imp = true)
      by (destruct Hin as [<- | [<- | [<- | [<- | []]]]]; vm_compute; reflexivity).
    intros c Hc Hcl. rewrite forallb_forall in Hb. specialize (Hb c Hc).
    apply negb_true_iff in Hb.
    assert (Hex : existsb (N.eqb c) fence_close = true)
      by (apply existsb_exists; exists c; split; [assumption | apply N.eqb_refl]).
    congruence. }
  apply contains_strip; try assumption.
  apply (contains_strip imp code Hne Hns) in H.
  revert H. generalize (Py.strip code). intros s0 H.
  match goal with
  | |- context [Py.endswith fence_close ?X] => assert (H1 : Py.contains imp X = true)
  end.
  { destruct (Py.startswith fence_open s0) eqn:Hst; [|assumption].
    apply startswith_spec in Hst. destruct Hst as (r & Hr). rewrite Hr in *.
    apply contains_spec in H. destruct H as (pre & post & H).
    apply contains_spec.
    destruct (occurrence_after_cut fence_open imp 8 r pre post) as (pre' & Hp); auto.
    - vm_compute. lia.
    - now exists pre', post. }
  revert H1.
  match goal with
  | |- context [Py.endswith fence_close ?X] => generalize X
  end.
  intros s1 H1.
  destruct (Py.endswith fence_close s1) eqn:Hen; [|assumption].
  apply endswith_spec in Hen. destruct Hen as (t & Ht & Hf).
  change (length fence_close) with 3 in Hf. rewrite Hf.
  rewrite Ht in H1. apply contains_spec in H1. destruct H1 as (pre & post & H1).
  apply contains_spec.
  destruct (occurrence_before_suffix imp fence_close t pre post Hne Htick H1) as (post' & Hp).
  now exists pre, post'.
Qed.

Section Validator.

Variable E : Env.

(** Whatever [compile] says, content with a deny-listed word is rejected. *)
Lemma validate_code_rejects_dangerous imp code :
  In imp dangerous_imports -> Py.contains imp code = true -> validate_code E code = false.
Proof.
  intros Hin H. unfold validate_code.
  destruct (negb (Py.truthy code)); [reflexivity|].
  destruct (length _ <? 10); [reflexivity|].
  destruct (negb (forallb _ required_components)); [reflexivity|].
  destruct (negb (py_compile E _)); [reflexivity|].
  assert (Hex : existsb (fun imp => Py.contains imp (strip_markers code)) dangerous_imports = true).
  { apply existsb_exists. exists imp. split; [assumption|].
    now apply contains_strip_markers. }
  now rewrite Hex.
Qed.

End Validator.

(** ** The improvement step of the controller (C8) *)

(** [_get_improvement_suggestions] sends one request and never raises. *)
Lemma _get_improvement_suggestions_spec (E : Env) (w : world) :
  _get_improvement_suggestions E w =
  (Ok (suggestion_of (client_create E (requests_sent w))),
   set_requests_sent (S (requests_sent w)) w).
Proof.
  unfold _get_improvement_suggestions, try_except, bind, create, suggestion_of.
  destruct (client_create E (requests_sent w)) as [e | chunks [e | ]]; reflexivity.
Qed.

(** C8. Content that contains a deny-listed word anywhere is never
    validated.  When the improvement step of an iteration yields such a
    candidate, the pass ends with the iteration counter advanced by one and
    with the state as it was: only the two requests made are counted. *)
Theorem deny_listed_candidate_is_discarded (E : Env) (imp cand : str) :
  In imp dangerous_imports -> Py.contains imp cand = true ->
  validate_code E cand = false
  /\ forall goals max_iter min_score iteration_count w ev q,
       iteration_count <> 0%Z ->
       evaluation_of E (client_create E (requests_sent w)) = Some ev ->
       json_truthy ev = true ->
       score_entry ev = Some (JNum q) ->
       Qle_bool min_score q = false ->
       suggestion_of (client_create E (S (requests_sent w))) = Some cand ->
       iteration E goals max_iter min_score iteration_count w
       = (Ok (Next (iteration_count + 1)), set_requests_sent (S (S (requests_sent w))) w).
Proof.
  intros Hin Hc.
  assert (Hv : validate_code E cand = false)
    by (eapply validate_code_rejects_dangerous; eassumption).
  split; [exact Hv|].
  intros goals max_iter min_score ic w ev q Hic Hev Htr Hsc Hq Hsg.
  unfold iteration, try_except, iteration_try.
  apply Z.eqb_neq in Hic. rewrite Hic.
  unfold bind at 1. rewrite _evaluate_code_spec, Hev, Htr.
  destruct ev as [| | | | | | |d]; try discriminate Hsc. simpl in Hsc.
  unfold bind at 1. unfold subscript_score. rewrite Hsc.
  unfold ret at 1. unfold bind at 1. unfold format_2f, ret at 1.
  unfold bind at 1. unfold score_ge. cbn [as_number]. unfold ret at 1. rewrite Hq.
  unfold bind at 1. rewrite _get_improvement_suggestions_spec.
  cbn [requests_sent set_requests_sent]. rewrite Hsg.
  unfold _apply_improvements. rewrite Hv.
  destruct (negb (Py.truthy cand)); reflexivity.
Qed.

(** The candidate has ten lines and every required component, and it
    compiles; it uses [subprocess] and is discarded at iteration 1. *)
Lemma deny_listed_candidate_is_discarded_witness :
  length (Py.split (u "\n") candidate_with_subprocess) = 10
  /\ forallb (fun comp => Py.contains comp candidate_with_subprocess) required_components = true
  /\ py_compile unsafe_env (strip_markers candidate_with_subprocess) = true
  /\ Py.contains (u "subprocess") candidate_with_subprocess = true
  /\ suggestion_of (client_create unsafe_env (S (requests_sent ready_developer)))
     = Some candidate_with_subprocess
  /\ validate_code unsafe_env candidate_with_subprocess = false
  /\ iteration unsafe_env (u "todo app") 5 (7 # 10)%Q 1 ready_developer
     = (Ok (Next (1 + 1)), set_requests_sent (S (S (requests_sent ready_developer))) ready_developer).
Proof.
  assert (Hc : Py.contains (u "subprocess") candidate_with_subprocess = true)
    by (vm_compute; reflexivity).
  assert (Hsg : suggestion_of (client_create unsafe_env (S (requests_sent ready_developer)))
                = Some candidate_with_subprocess)
    by (vm_compute; reflexivity).
  assert (Hev : evaluation_of unsafe_env (client_create unsafe_env (requests_sent ready_developer))
                = Some scored_report)
    by (vm_compute; reflexivity).
  pose proof (deny_listed_candidate_is_discarded unsafe_env (u "subprocess")
                candidate_with_subprocess (or_introl eq_refl) Hc) as [Hv Hit].
  split; [vm_compute; reflexivity|].
  split; [vm_compute; reflexivity|].
  split; [vm_compute; reflexivity|].
  split; [exact Hc | split; [exact Hsg | split; [exact Hv|]]].
  apply (Hit (u "todo app") 5%Z (7 # 10)%Q 1%Z ready_developer scored_report (1 # 2)%Q).
  - discriminate.
  - exact Hev.
  - reflexivity.
  - reflexivity.
  - reflexivity.
  - exact Hsg.
Defined.

(** ** The versioned store (C4) *)

Section Store.

(** Reading the project root after a write. *)
Lemma fs_lookup_store_eq name e fs : fs_lookup name (fs_store name e fs) = Some e.
Proof.
  induction fs as [|[n e'] fs IH]; simpl.
  - now rewrite Py_eqb_refl.
  - destruct (Py.eqb name n) eqn:Hn; simpl; rewrite Hn; [reflexivity | exact IH].
Qed.

Lemma fs_lookup_store_ne name name' e fs :
  name' <> name -> fs_lookup name' (fs_store name e fs) = fs_lookup name' fs.
Proof.
  intros Hne. induction fs as [|[n e'] fs IH]; simpl.
  - destruct (Py.eqb name' name) eqn:Hn; [apply Py_eqb_eq in Hn; congruence | reflexivity].
  - destruct (Py.eqb name n) eqn:Hn; simpl.
    + apply Py_eqb_eq in Hn. subst n.
      destruct (Py.eqb name' name) eqn:Hn'; [apply Py_eqb_eq in Hn'; congruence | reflexivity].
    + destruct (Py.eqb name' n); [reflexivity | exact IH].
Qed.

(** Different versions have different directory names. *)
Lemma bytes_of_string_inj s t : Py.bytes_of_string s = Py.bytes_of_string t -> s = t.
Proof.
  revert t; induction s as [|a s IH]; intros [|b t] H; simpl in H; try discriminate.
  - reflexivity.
  - injection H as Ha Hs. f_equal; [|now apply IH].
    rewrite <- (ascii_N_embedding a), <- (ascii_N_embedding b). now rewrite Ha.
Qed.

Lemma to_int_proper z : Z.to_int z <> Decimal.Pos Decimal.Nil /\ Z.to_int z <> Decimal.Neg Decimal.Nil.
Proof.
  destruct z; simpl; split; try discriminate; intros H; injection H as H;
    now apply (DecimalPos.Unsigned.to_uint_nonnil p).
Qed.

Lemma of_Z_inj a b : Py.of_Z a = Py.of_Z b -> a = b.
Proof.
  unfold Py.of_Z. intros H. apply bytes_of_string_inj in H.
  destruct (to_int_proper a) as [Ha1 Ha2]. destruct (to_int_proper b) as [Hb1 Hb2].
  pose proof (NilZero.isi _ Ha1 Ha2) as Ia. pose proof (NilZero.isi _ Hb1 Hb2) as Ib.
  rewrite H in Ia. rewrite Ia in Ib. injection Ib as Hab.
  rewrite <- (DecimalZ.of_to a), <- (DecimalZ.of_to b). now rewrite Hab.
Qed.

Lemma version_name_inj a b : version_name a = version_name b -> a = b.
Proof.
  unfold version_name. intros H. apply app_inv_head in H. now apply of_Z_inj.
Qed.

(** Reading back what was written: line ends are all [\n]; a text
    without [\r] is read as written, and a text is read as empty only
    when it is. *)
Lemma universal_newlines_nonempty s : s <> [] -> universal_newlines s <> [].
Proof.
  destruct s as [|c r]; [congruence|]. intros _. cbn [universal_newlines].
  destruct (c =? 13)%N; [|discriminate].
  destruct r as [|d r']; [discriminate|]. destruct (d =? 10)%N; discriminate.
Qed.

Lemma universal_newlines_id s : ~ In 13%N s -> universal_newlines s = s.
Proof.
  induction s as [|c r IH]; intros H; cbn [universal_newlines]; [reflexivity|].
  destruct (N.eqb_spec c 13) as [-> | _]; [exfalso; apply H; now left|].
  rewrite IH; [reflexivity|]. intros Hin. apply H. now right.
Qed.

Variable E : Env.

(** What one save does on a developer set up for saving: it never
    raises, touches no other name than the directory of the current
    version, and moves the counter exactly when no fault is met. *)
Lemma save_effect (w : world) :
  ready w -> slot_free_or_dir w ->
  let name := version_name (version (project_state w)) in
  let w' := snd (_save_current_version E w) in
  fst (_save_current_version E w) = Ok tt
  /\ (forall n, n <> name -> fs_lookup n (disk w') = fs_lookup n (disk w))
  /\ saves_tried w' = S (saves_tried w)
  /\ ready w'
  /\ current_code (project_state w') = current_code (project_state w)
  /\ match io_fault E (saves_tried w) with
     | None =>
       version (project_state w') = (version (project_state w) + 1)%Z
       /\ exists d, fs_lookup name (disk w') = Some (EDir d)
                    /\ main_py d = Some (universal_newlines (current_code (project_state w)))
     | Some _ =>
       version (project_state w') = version (project_state w)
       /\ (fs_lookup name (disk w') = fs_lookup name (disk w)
           \/ exists d, fs_lookup name (disk w') = Some (EDir d))
     end.
Proof.
  intros (Hs & Hfm & Hout) Hslot. cbv zeta.
  unfold _save_current_version, bind, get. cbv beta iota.
  rewrite Hs. destruct (file_manager w) as [fm|] eqn:Efm; [|congruence].
  cbn [negb is_some orb]. unfold try_except, save_body, bind, get, modify.
  cbv beta iota. cbn [saves_tried set_saves_tried OUTPUT_DIR project_state disk].
  destruct (OUTPUT_DIR w) as [out|] eqn:Eout; [|congruence].
  unfold mkdir_version, write_main, write_checkpoint, put_dir, bind, get, modify, ret, raise.
  destruct (io_fault E (saves_tried w)) as [[]|];
    destruct Hslot as [Hl | (d & Hl)];
    cbn [fails fst snd disk set_disk set_saves_tried set_project_state project_state
         saves_tried config file_manager OUTPUT_DIR version set_version set_code
         current_code main_py checkpoint_json];
    rewrite ?Hl;
    cbn [fails fst snd disk set_disk set_saves_tried set_project_state project_state
         saves_tried config file_manager OUTPUT_DIR version set_version set_code
         current_code main_py checkpoint_json];
    (split; [reflexivity|]);
    (split; [intros n Hn; rewrite ?fs_lookup_store_ne by assumption; reflexivity|]);
    (split; [reflexivity|]);
    (split; [unfold ready; cbn; rewrite ?Hs, ?Efm, ?Eout; repeat split; congruence|]);
    (split; [reflexivity|]);
    (split; [reflexivity|]);
    rewrite ?fs_lookup_store_eq; eauto.
Qed.

(** A save that meets a fault leaves the version counter as it is. *)
Lemma failed_save_keeps_version (w : world) :
  io_fault E (saves_tried w) <> None ->
  version (project_state (snd (_save_current_version E w))) = version (project_state w).
Proof.
  intros Hf. unfold _save_current_version, bind, get. cbv beta iota.
  destruct (negb (auto_save (config w)) || negb (is_some (file_manager w)));
    [reflexivity|].
  unfold try_except, save_body, bind, get, modify.
  cbv beta iota. cbn [saves_tried set_saves_tried OUTPUT_DIR project_state disk].
  destruct (OUTPUT_DIR w) as [out|]; [|reflexivity].
  unfold mkdir_version, write_main, write_checkpoint, put_dir, bind, get, modify, ret, raise.
  destruct (io_fault E (saves_tried w)) as [[]|]; [..|congruence];
    cbn [fails fst snd disk set_disk set_saves_tried];
    try match goal with
        | |- context [fs_lookup ?n (disk w)] => destruct (fs_lookup n (disk w)) as [[|]|]
        end; reflexivity.
Qed.

(** One accepted content: the invariant [saved] moves from [N] to [N + 1]
    when the save meets no fault, and stays at [N] otherwise. *)
Lemma adopt_and_save_step (N : nat) (c : str) (w : world) :
  saved N w -> c <> [] ->
  let w' := snd (adopt_and_save E c w) in
  saves_tried w' = S (saves_tried w)
  /\ match io_fault E (saves_tried w) with
     | None => saved (S N) w'
               /\ fs_lookup (version_name (Z.of_nat (S N))) (disk w') = None
     | Some _ => saved N w'
     end.
Proof.
  intros (Hr & Hv & Hlow & Hhigh & Hslot) Hc. cbv zeta.
  unfold adopt_and_save, bind, adopt, modify. cbv beta iota.
  set (w1 := set_project_state (set_current_code c (project_state w)) w).
  assert (Hr1 : ready w1) by exact Hr.
  assert (Hs1 : slot_free_or_dir w1) by exact Hslot.
  destruct (save_effect w1 Hr1 Hs1) as (_ & Hframe & Htried & Hr' & _ & Hcase).
  change (saves_tried w1) with (saves_tried w) in *.
  change (version (project_state w1)) with (version (project_state w)) in *.
  change (disk w1) with (disk w) in *.
  change (current_code (project_state w1)) with c in *.
  split; [exact Htried|].
  assert (Hother : forall z, z <> Z.of_nat N ->
            fs_lookup (version_name z) (disk (snd (_save_current_version E w1)))
            = fs_lookup (version_name z) (disk w)).
  { intros z Hz. apply Hframe. rewrite Hv. intros Heq. apply version_name_inj in Heq.
    contradiction. }
  destruct (io_fault E (saves_tried w)) as [f|].
  - destruct Hcase as (Hv' & Hname).
    repeat split; try apply Hr'.
    + now rewrite Hv'.
    + intros z Hz. unfold has_main. rewrite Hother by lia. now apply Hlow.
    + intros z Hz. rewrite Hother by lia. now apply Hhigh.
    + unfold slot_free_or_dir. rewrite Hv', Hv.
      rewrite Hv in Hname. destruct Hname as [Hname | Hname]; [|now right].
      rewrite Hname. rewrite <- Hv. exact Hslot.
  - destruct Hcase as (Hv' & d & Hname & Hmain). rewrite Hv in Hname.
    assert (Hnext : fs_lookup (version_name (Z.of_nat (S N)))
                              (disk (snd (_save_current_version E w1))) = None).
    { rewrite Hother by lia. apply Hhigh. lia. }
    split; [|exact Hnext].
    repeat split; try apply Hr'.
    + rewrite Hv', Hv. lia.
    + intros z Hz. destruct (Z.eq_dec z (Z.of_nat N)) as [-> | Hne].
      * exists d, (universal_newlines c).
        split; [exact Hname|]. split; [exact Hmain|]. now apply universal_newlines_nonempty.
      * unfold has_main. rewrite Hother by assumption. apply Hlow. lia.
    + intros z Hz. rewrite Hother by lia. apply Hhigh. lia.
    + left. rewrite Hv', Hv. replace (Z.of_nat N + 1)%Z with (Z.of_nat (S N)) by lia.
      exact Hnext.
Qed.

(** The invariant along a run of saves. *)
Lemma save_all_saved (contents : list str) : forall (N : nat) (w : world),
  saved N w -> Forall (fun c => c <> []) contents ->
  saved (N + successful_saves E (saves_tried w) (length contents)) (save_all E contents w).
Proof.
  induction contents as [|c cs IH]; intros N w Hs Hc; simpl.
  - now rewrite Nat.add_0_r.
  - inversion Hc as [|? ? Hc1 Hc2]; subst.
    destruct (adopt_and_save_step N c w Hs Hc1) as (Htried & Hcase).
    destruct (io_fault E (saves_tried w)) as [f|].
    + specialize (IH N _ Hcase Hc2). rewrite Htried in IH. exact IH.
    + destruct Hcase as [Hcase _].
      specialize (IH (S N) _ Hcase Hc2). rewrite Htried in IH.
      replace (N + (1 + successful_saves E (S (saves_tried w)) (length cs)))
        with (S N + successful_saves E (S (saves_tried w)) (length cs)) by lia.
      exact IH.
Qed.

(** When the last save of the run meets no fault, the slot of the next
    version is free. *)
Lemma save_all_last_ok (contents : list str) : forall (N : nat) (w : world),
  saved N w -> Forall (fun c => c <> []) contents -> contents <> [] ->
  io_fault E (saves_tried w + (length contents - 1)) = None ->
  fs_lookup (version_name (Z.of_nat (N + successful_saves E (saves_tried w) (length contents))))
            (disk (save_all E contents w)) = None.
Proof.
  induction contents as [|c cs IH]; intros N w Hs Hc Hne Hlast; [congruence|].
  inversion Hc as [|? ? Hc1 Hc2]; subst.
  destruct (adopt_and_save_step N c w Hs Hc1) as (Htried & Hcase).
  destruct cs as [|c' cs'].
  - simpl in *. rewrite Nat.add_0_r in Hlast. rewrite Hlast in *.
    destruct Hcase as [_ Hnext]. replace (N + (1 + 0)) with (S N) by lia. exact Hnext.
  - assert (Hlast' : io_fault E (saves_tried (snd (adopt_and_save E c w))
                                 + (length (c' :: cs') - 1)) = None).
    { rewrite Htried. simpl length in *.
      replace (S (saves_tried w) + (S (length cs') - 1))
        with (saves_tried w + (S (S (length cs')) - 1)) by lia. exact Hlast. }
    change (save_all E (c :: c' :: cs') w)
      with (save_all E (c' :: cs') (snd (adopt_and_save E c w))).
    change (successful_saves E (saves_tried w) (length (c :: c' :: cs')))
      with ((match io_fault E (saves_tried w) with None => 1 | Some _ => 0 end)
            + successful_saves E (S (saves_tried w)) (length (c' :: cs'))).
    destruct (io_fault E (saves_tried w)) as [f|].
    + specialize (IH N _ Hcase Hc2 ltac:(discriminate) Hlast').
      rewrite Htried in IH. exact IH.
    + destruct Hcase as [Hcase _].
      specialize (IH (S N) _ Hcase Hc2 ltac:(discriminate) Hlast').
      rewrite Htried in IH.
      replace (N + (1 + successful_saves E (S (saves_tried w)) (length (c' :: cs'))))
        with (S N + successful_saves E (S (saves_tried w)) (length (c' :: cs'))) by lia.
      exact IH.
Qed.

(** Without faults every save counts. *)
Lemma successful_saves_all (k : nat) : forall n0,
  (forall i, i < k -> io_fault E (n0 + i) = None) -> successful_saves E n0 k = k.
Proof.
  induction k as [|k IH]; intros n0 H; simpl; [reflexivity|].
  pose proof (H 0 ltac:(lia)) as H0. rewrite Nat.add_0_r in H0. rewrite H0.
  rewrite IH; [reflexivity|]. intros i Hi. specialize (H (S i) ltac:(lia)).
  now rewrite Nat.add_succ_r in H.
Qed.

End Store.

(** ** The iteration loop (C1) *)

Section LoopEnds.
Variable E : Env.
Variable goals : str.

(** A pass that does not raise ends the loop or advances the counter. *)
Lemma iteration_try_flow min_score iteration_count w f w' :
  iteration_try E goals min_score iteration_count w = (Ok f, w') ->
  f = Next (iteration_count + 1) \/ f = Break \/ f = Return false.
Proof.
  unfold iteration_try, bind, ret, adopt, modify.
  repeat match goal with
         | |- context [match ?x with _ => _ end] => destruct x
         | |- context [if ?x then _ else _] => destruct x
         end;
    intros H; inversion H; auto.
Qed.

End LoopEnds.

Section Loop.

Variable E : Env.
Variable goals : str.

(** Every request fails. *)
Hypothesis no_answer : forall n, exists e, client_create E n = ApiRaise e.

(** An attempt, and the whole decorated call, raise. *)
Lemma attempt_without_answer w :
  exists e, call_ai_api_attempt E goals w = (Raise e, set_requests_sent (S (requests_sent w)) w).
Proof.
  unfold call_ai_api_attempt, bind, create.
  destruct (no_answer (requests_sent w)) as (e & ->). now exists e.
Qed.

Lemma call_without_answer w : exists e w', call_ai_api E goals w = (Raise e, w').
Proof.
  rewrite call_ai_api_unrolled.
  destruct (attempt_without_answer w) as (e1 & ->).
  destruct (retry_if_exception_type e1); [|eauto].
  destruct (attempt_without_answer (wait_then (set_requests_sent (S (requests_sent w)) w)))
    as (e2 & ->).
  destruct (retry_if_exception_type e2); [|eauto].
  match goal with
  | |- context [call_ai_api_attempt E goals ?w0] =>
    destruct (attempt_without_answer w0) as (e3 & ->)
  end.
  eauto.
Qed.

(** The first pass fails and leaves the counter at 0. *)
Lemma first_pass_without_answer max_iter min_score w :
  (1 < max_iter)%Z ->
  exists w', iteration E goals max_iter min_score 0 w = (Ok (Next 0), w').
Proof.
  intros Hmax.
  assert (Htry : exists e w', iteration_try E goals min_score 0 w = (Raise e, w')).
  { unfold iteration_try. change (0 =? 0)%Z with true. cbv iota. unfold bind.
    destruct (call_without_answer w) as (e & w' & ->). eauto. }
  destruct Htry as (e & w' & Htry).
  unfold iteration, try_except. rewrite Htry.
  destruct (Z.ltb_spec 0 (max_iter - 1)) as [_ | Hge]; [|lia].
  now exists w'.
Qed.

(** Whatever the bound on the number of passes, the loop is still running
    when it is reached. *)
Lemma while_loop_without_answer max_iter min_score :
  (1 < max_iter)%Z ->
  forall fuel w, while_loop E fuel goals max_iter min_score 0 w = None.
Proof.
  intros Hmax. induction fuel as [|fuel IH]; intros w; simpl.
  - destruct (Z.ltb_spec 0 max_iter) as [_ | Hge]; [reflexivity | lia].
  - destruct (Z.ltb_spec 0 max_iter) as [_ | Hge]; [|lia].
    destruct (first_pass_without_answer max_iter min_score w Hmax) as (w' & ->).
    apply IH.
Qed.

End Loop.

(** C1. With the default limit of 5 iterations and an endpoint whose
    every request raises, whatever the exception, [auto_iterative_development]
    does not finish within any number of passes through the loop body: each
    pass catches the exception and continues with the iteration counter
    still at 0, and the final evaluation is never reached. *)
Theorem loop_does_not_end_when_requests_fail :
  max_iterations (config ready_developer) = 5%Z
  /\ (forall e w, exists w',
        iteration (failing_env e) (u "todo app") 5 (7 # 10)%Q 0 w = (Ok (Next 0%Z), w'))
  /\ (forall e fuel,
        auto_iterative_development (failing_env e) fuel (u "todo app") ready_developer = None).
Proof.
  assert (Hno : forall e n, exists e', client_create (failing_env e) n = ApiRaise e')
    by (intros e n; now exists e).
  split; [reflexivity|]. split.
  { intros e w. apply first_pass_without_answer; [apply Hno | lia]. }
  intros e fuel. unfold auto_iterative_development.
  change (file_manager ready_developer) with (Some {| root_dir := u "/proj" |}).
  cbv iota beta zeta.
  change (max_iterations (config _)) with 5%Z.
  rewrite (while_loop_without_answer (failing_env e) (u "todo app") (Hno e) 5 _ ltac:(lia)).
  reflexivity.
Qed.

(** *** The same loop after a successful generation

    The reports of the evaluator carry [total_score], the loop reads
    [score]: unless the reply adds such a key, each later pass ends in a
    [KeyError] and is repeated with the counter unchanged. *)

Section LoopAfterGeneration.

Variable E : Env.
Variable goals : str.
Variable first_evaluation : nat.

(** From the request [first_evaluation] on, every evaluation yields a
    report without the key [score]. *)
Hypothesis no_score : forall n, first_evaluation <= n -> report_without_score E (client_create E n).

(** Such a pass ends in the [except] branch with the counter unchanged. *)
Lemma pass_without_score max_iter min_score iteration_count w :
  iteration_count <> 0%Z -> (iteration_count < max_iter - 1)%Z ->
  first_evaluation <= requests_sent w ->
  iteration E goals max_iter min_score iteration_count w
  = (Ok (Next iteration_count), set_requests_sent (S (requests_sent w)) w).
Proof.
  intros Hne Hlt Hn. destruct (no_score _ Hn) as (d & Hev & Hd & Hsc).
  unfold iteration, try_except, iteration_try.
  apply Z.eqb_neq in Hne. rewrite Hne.
  unfold bind at 1. rewrite _evaluate_code_spec, Hev.
  destruct d as [|kv d]; [congruence|]. cbn [json_truthy].
  unfold bind at 1. unfold subscript_score. rewrite Hsc. unfold raise.
  apply Z.ltb_lt in Hlt. now rewrite Hlt.
Qed.

Lemma while_loop_without_score max_iter min_score iteration_count :
  iteration_count <> 0%Z -> (iteration_count < max_iter - 1)%Z ->
  forall fuel w, first_evaluation <= requests_sent w ->
                 while_loop E fuel goals max_iter min_score iteration_count w = None.
Proof.
  intros Hne Hlt. induction fuel as [|fuel IH]; intros w Hn; simpl.
  - destruct (Z.ltb_spec iteration_count max_iter) as [_ | Hge]; [reflexivity | lia].
  - destruct (Z.ltb_spec iteration_count max_iter) as [_ | Hge]; [|lia].
    rewrite pass_without_score by assumption.
    apply IH. simpl. lia.
Qed.

End LoopAfterGeneration.

Example loop_does_not_end_after_generation :
  fst (iteration answering_env (u "todo app") 5 (7 # 10)%Q 0 ready_developer) = Ok (Next 1%Z)
  /\ forall fuel,
       auto_iterative_development answering_env fuel (u "todo app") ready_developer = None.
Proof.
  split; [vm_compute; reflexivity|].
  intros fuel. unfold auto_iterative_development.
  change (file_manager ready_developer) with (Some {| root_dir := u "/proj" |}).
  cbv iota beta zeta. change (max_iterations (config _)) with 5%Z.
  destruct fuel as [|fuel]; [reflexivity|].
  cbn [while_loop]. change (0 <? 5)%Z with true. cbv iota.
  match goal with
  | |- context [iteration ?E ?g ?m ?s ?c ?w] =>
    let r := eval vm_compute in (fst (iteration E g m s c w)) in
    assert (Hfst : fst (iteration E g m s c w) = r) by (vm_compute; reflexivity);
    assert (Hreq : requests_sent (snd (iteration E g m s c w)) = 1) by (vm_compute; reflexivity);
    destruct (iteration E g m s c w) as [r0 w1]
  end.
  simpl in Hfst, Hreq. subst r0.
  rewrite (while_loop_without_score answering_env (u "todo app") 1); try lia.
  - reflexivity.
  - intros n Hn. destruct n as [|n]; [lia|].
    exists [ (u "scores",
              JObj [ (u "structure", JNum (9 # 10)%Q); (u "style", JNum (4 # 5)%Q);
                     (u "error_handling", JNum (7 # 10)%Q); (u "readability", JNum (9 # 10)%Q);
                     (u "performance", JNum (3 # 5)%Q) ]);
             (u "total_score", JNum (39 # 50)%Q);
             (u "analysis", JStr (u "solid overall")) ].
    split; [vm_compute; reflexivity | split; [discriminate | reflexivity]].
Qed.

(** ** Text: [strip] twice, occurrences in a concatenation *)

Section StripFacts.

Lemma lstrip_head s :
  match Py.lstrip s with c :: _ => Py.isspace c = false | [] => True end.
Proof.
  induction s as [|c s IH]; simpl; [exact I|].
  destruct (Py.isspace c) eqn:Hc; [exact IH | exact Hc].
Qed.

Lemma lstrip_fixed s :
  match s with c :: _ => Py.isspace c = false | [] => True end -> Py.lstrip s = s.
Proof. destruct s as [|c s]; simpl; [reflexivity | intros ->; reflexivity]. Qed.

Lemma lstrip_lstrip s : Py.lstrip (Py.lstrip s) = Py.lstrip s.
Proof. apply lstrip_fixed, lstrip_head. Qed.

Lemma rstrip_rstrip s : Py.rstrip (Py.rstrip s) = Py.rstrip s.
Proof. unfold Py.rstrip. now rewrite rev_involutive, lstrip_lstrip. Qed.

Lemma rstrip_keeps_head s :
  match s with c :: _ => Py.isspace c = false | [] => True end ->
  match Py.rstrip s with c :: _ => Py.isspace c = false | [] => True end.
Proof.
  intros H. destruct (rstrip_spec s) as (ws & Hs & _).
  destruct (Py.rstrip s) as [|c r]; [exact I|].
  rewrite Hs in H. exact H.
Qed.

(** [s.strip().strip() == s.strip()] *)
Lemma strip_strip s : Py.strip (Py.strip s) = Py.strip s.
Proof.
  unfold Py.strip.
  rewrite (lstrip_fixed (Py.rstrip (Py.lstrip s))).
  - apply rstrip_rstrip.
  - apply rstrip_keeps_head, lstrip_head.
Qed.

Lemma contains_app_r needle pre s :
  Py.contains needle s = true -> Py.contains needle (pre ++ s) = true.
Proof.
  rewrite !contains_spec. intros (p & q & ->). exists (pre ++ p), q.
  now rewrite app_assoc.
Qed.

Lemma contains_app_l needle s post :
  Py.contains needle s = true -> Py.contains needle (s ++ post) = true.
Proof.
  rewrite !contains_spec. intros (p & q & ->). exists p, (q ++ post).
  now rewrite <- !app_assoc.
Qed.

End StripFacts.

(** ** [_stream_output] *)

Section StreamFacts.

(** The whole text of a reply. *)
Lemma join_snoc (l : list str) (x : str) : Py.join (l ++ [x]) = Py.join l ++ x.
Proof. unfold Py.join. rewrite concat_app. simpl. now rewrite app_nil_r. Qed.

Lemma join_reply_texts chunks : forall st,
  Py.join (full_response (fold_left stream_step chunks st))
  = Py.join (full_response st) ++ Py.join (reply_texts chunks).
Proof.
  induction chunks as [|[content|] chunks IH]; intros st; cbn [fold_left].
  - simpl. now rewrite app_nil_r.
  - rewrite IH.
    assert (Hf : Py.join (full_response (stream_step st (Some content)))
                 = Py.join (full_response st) ++ content).
    { unfold stream_step.
      repeat match goal with |- context [if ?b then _ else _] => destruct b end;
        simpl; apply join_snoc. }
    rewrite Hf, <- app_assoc. f_equal.
    destruct content as [|c content]; reflexivity.
  - apply IH.
Qed.

Lemma contains_prefix_false needle s post :
  Py.contains needle (s ++ post) = false -> Py.contains needle s = false.
Proof.
  intros H. destruct (Py.contains needle s) eqn:Hs; [|reflexivity].
  now rewrite (contains_app_l _ _ post Hs) in H.
Qed.

Lemma stream_step_quiet st chunk : quiet st -> quiet (stream_step st chunk).
Proof.
  intros [(pre & Hpre) Hq]. destruct chunk as [content|]; [|split; eauto].
  assert (Hfull : Py.join (full_response st ++ [content]) = pre ++ (buffer st ++ content))
    by (rewrite join_snoc, Hpre, app_assoc; reflexivity).
  unfold stream_step.
  destruct (Py.contains (u "\n") (buffer st ++ content) || (80 <? length (buffer st ++ content))).
  - destruct (Py.contains fence_open (buffer st ++ content)) eqn:Hopen.
    + split; cbn [full_response buffer in_code_block code_content].
      * exists (Py.join (full_response st ++ [content])). now rewrite app_nil_r.
      * intros Hno. rewrite Hfull in Hno.
        now rewrite (contains_app_r _ pre _ Hopen) in Hno.
    + assert (Hkeep : Py.contains fence_open (Py.join (full_response st ++ [content])) = false ->
                      in_code_block st = false /\ code_content st = []).
      { intros Hno. rewrite join_snoc in Hno. apply contains_prefix_false in Hno. auto. }
      destruct (Py.contains fence_close (buffer st ++ content) && in_code_block st) eqn:Hclose.
      * split; cbn [full_response buffer in_code_block code_content].
        -- exists (Py.join (full_response st ++ [content])). now rewrite app_nil_r.
        -- intros Hno. destruct (Hkeep Hno) as [Hin _]. rewrite Hin, andb_false_r in Hclose.
           discriminate.
      * split; cbn [full_response buffer in_code_block code_content].
        -- exists (Py.join (full_response st ++ [content])). now rewrite app_nil_r.
        -- intros Hno. destruct (Hkeep Hno) as [Hin Hcc]. now rewrite Hin.
  - split; cbn [full_response buffer in_code_block code_content].
    + exists pre. apply Hfull.
    + intros Hno. rewrite join_snoc in Hno. apply contains_prefix_false in Hno. auto.
Qed.

Lemma fold_stream_step_quiet chunks : forall st, quiet st -> quiet (fold_left stream_step chunks st).
Proof.
  induction chunks as [|c chunks IH]; intros st H; simpl; [assumption|].
  apply IH. now apply stream_step_quiet.
Qed.

Lemma stream_start_quiet : quiet stream_start.
Proof. split; [now exists (@nil N) | auto]. Qed.

(** A reply without opening marker has no code block. *)
Lemma _stream_output_without_marker chunks w :
  Py.contains fence_open (Py.join (reply_texts chunks)) = false ->
  _stream_output (chunks, None) w = (Raise no_code_block, w).
Proof.
  intros Hno. unfold _stream_output. cbn [fst snd].
  pose proof (fold_stream_step_quiet chunks _ stream_start_quiet) as [_ Hq].
  pose proof (join_reply_texts chunks stream_start) as Hj. simpl in Hj.
  rewrite Hj in Hq. destruct (Hq Hno) as [Hin Hcc].
  rewrite Hin, Hcc, andb_false_r. cbv zeta.
  change (Py.strip (Py.join [])) with (@nil N). cbn [Py.truthy negb].
  rewrite Hj, Hno. reflexivity.
Qed.

(** What [_stream_output] returns is not empty and carries no white space
    at either end. *)
Lemma first_fenced_block_stripped t b : first_fenced_block t = Some b -> Py.strip b = b.
Proof.
  unfold first_fenced_block. destruct (Py.split fence_open t) as [|x [|block l]]; try discriminate.
  intros H. injection H as <-. apply strip_strip.
Qed.

Lemma _stream_output_result response w c w' :
  _stream_output response w = (Ok c, w') -> c <> [] /\ Py.strip c = c /\ w' = w.
Proof.
  unfold _stream_output. destruct (snd response); [discriminate|]. cbv zeta.
  set (st := fold_left stream_step (fst response) stream_start).
  set (cc := if Py.truthy (buffer st) && in_code_block st
             then code_content st ++ [buffer st] else code_content st).
  set (code0 := Py.strip (Py.join cc)).
  assert (H0 : Py.strip code0 = code0) by apply strip_strip.
  set (code1 := if negb (Py.truthy code0)
                then if Py.contains fence_open (Py.join (full_response st))
                     then match first_fenced_block (Py.join (full_response st)) with
                          | Some block => block
                          | None => code0
                          end
                     else code0
                else code0).
  assert (H1 : Py.strip code1 = code1).
  { unfold code1. destruct (negb (Py.truthy code0)); [|exact H0].
    destruct (Py.contains fence_open _); [|exact H0].
    destruct (first_fenced_block _) eqn:Hb; [|exact H0].
    eapply first_fenced_block_stripped; eassumption. }
  destruct (negb (Py.truthy code1)) eqn:Ht; [discriminate|].
  unfold ret. intros H. injection H as <- <-.
  split; [|split; [exact H1 | reflexivity]].
  destruct code1; [discriminate | discriminate].
Qed.

End StreamFacts.

(** X1. [_stream_output] leaves the state alone.  A stream that breaks off
    raises its own exception, whatever was received before; a complete
    stream yields either the [ValueError] for a missing code block or a
    text that is not empty and has no white space at either end. *)
Theorem stream_output_outcomes (chunks : list (option str)) (broken : option exn) (w : world) :
  snd (_stream_output (chunks, broken) w) = w
  /\ match broken with
     | Some e => fst (_stream_output (chunks, broken) w) = Raise e
     | None =>
       fst (_stream_output (chunks, broken) w) = Raise no_code_block
       \/ exists c, fst (_stream_output (chunks, broken) w) = Ok c
                    /\ c <> [] /\ Py.strip c = c
     end.
Proof.
  split; [apply _stream_output_world|].
  destruct broken as [e|]; [reflexivity|].
  destruct (_stream_output (chunks, None) w) as [[c|e] w'] eqn:H.
  - right. exists c. split; [reflexivity|].
    destruct (_stream_output_result _ _ _ _ H) as (Hc & Hs & _). auto.
  - left. unfold _stream_output in H. cbn [snd] in H. cbv zeta in H.
    match type of H with
    | context [if ?b then raise _ else ret _] => destruct b; [|discriminate]
    end.
    unfold raise in H. now injection H as <- _.
Qed.



(** ** [should_continue_iteration] *)

Lemma should_continue_iteration_never_raises (E : Env) (w : world) :
  exists b w', should_continue_iteration E w = (Ok b, w').
Proof.
  unfold should_continue_iteration, try_except.
  match goal with |- context [match ?m w with _ => _ end] => destruct (m w) as [[b|e] w'] end;
    unfold ret; eauto.
Qed.

(** X3. [should_continue_iteration] never raises, and unless the reply
    holds the opening marker [```python] it answers [False]: a reply in
    plain text, [DONE] or a critique alike, ends the iteration; the request
    is sent, but neither the user feedback nor the count of API calls
    changes. *)
Theorem plain_reply_ends_iteration (E : Env) (w : world) :
  (exists b w', should_continue_iteration E w = (Ok b, w'))
  /\ (Py.contains fence_open (reply_text (client_create E (requests_sent w))) = false ->
      should_continue_iteration E w = (Ok false, set_requests_sent (S (requests_sent w)) w)).
Proof.
  split; [apply should_continue_iteration_never_raises|].
  intros Hno. unfold should_continue_iteration, try_except, bind, create.
  destruct (client_create E (requests_sent w)) as [e | chunks [e|]]; try reflexivity.
  simpl in Hno. now rewrite _stream_output_without_marker.
Qed.

(** A critique in plain text. *)
Lemma plain_reply_ends_iteration_witness :
  let E := script_env [ApiStream [Some (u "The error handling is thin.")] None] [] in
  Py.contains fence_open (reply_text (client_create E (requests_sent ready_developer))) = false
  /\ should_continue_iteration E ready_developer
     = (Ok false, set_requests_sent (S (requests_sent ready_developer)) ready_developer).
Proof.
  intros E.
  assert (H : Py.contains fence_open (reply_text (client_create E (requests_sent ready_developer)))
              = false) by reflexivity.
  split; [exact H|].
  exact (proj2 (plain_reply_ends_iteration E ready_developer) H).
Defined.

(** ** [_get_improvement_suggestions] *)

Lemma suggestion_code_result chunks c :
  suggestion_code chunks = Some c -> c <> [] /\ Py.strip c = c.
Proof.
  unfold suggestion_code. cbv zeta.
  set (st := fold_left suggestion_step chunks _).
  set (code0 := Py.strip (Py.join (sg_code_content st))).
  assert (H0 : Py.strip code0 = code0) by apply strip_strip.
  set (code1 := if negb (Py.truthy code0)
                then match first_fenced_block (Py.join (sg_full_response st)) with
                     | Some block => block
                     | None => code0
                     end
                else code0).
  assert (H1 : Py.strip code1 = code1).
  { unfold code1. destruct (negb (Py.truthy code0)); [|exact H0].
    destruct (first_fenced_block _) eqn:Hb; [|exact H0].
    eapply first_fenced_block_stripped; eassumption. }
  destruct (negb (Py.truthy code1)) eqn:Ht; [discriminate|].
  intros H. injection H as <-. split; [|exact H1].
  destruct code1; discriminate.
Qed.

(** X4. [_get_improvement_suggestions] never raises; it sends one request
    and changes nothing else.  The code it returns, if any, is not empty
    and has no white space at either end. *)
Theorem improvement_suggestion_is_stripped_code (E : Env) (w : world) :
  exists r, _get_improvement_suggestions E w
            = (Ok r, set_requests_sent (S (requests_sent w)) w)
            /\ match r with
               | Some c => c <> [] /\ Py.strip c = c
               | None => True
               end.
Proof.
  rewrite _get_improvement_suggestions_spec. eexists. split; [reflexivity|].
  unfold suggestion_of.
  destruct (client_create E (requests_sent w)) as [e | chunks [e|]]; try exact I.
  destruct (suggestion_code chunks) as [c|] eqn:Hc; [|exact I].
  exact (suggestion_code_result chunks c Hc).
Qed.

(** ** [_process_evaluation_stream] *)

Lemma reply_texts_app a b : reply_texts (a ++ b) = reply_texts a ++ reply_texts b.
Proof. unfold reply_texts. apply flat_map_app. Qed.

Lemma join_app (a b : list str) : Py.join (a ++ b) = Py.join a ++ Py.join b.
Proof. unfold Py.join. apply concat_app. Qed.

(** A report returned from inside the loop is valid, and it is what the
    text received so far decodes to. *)
Lemma evaluation_stream_loop_result (E : Env) chunks : forall buffer ev,
  evaluation_stream_loop E chunks buffer = Some ev ->
  _validate_evaluation_format ev = true
  /\ exists n, json_loads E (buffer ++ received n chunks) = Some ev.
Proof.
  unfold received.
  induction chunks as [|[content|] chunks IH]; intros buffer ev H; cbn [evaluation_stream_loop] in H.
  - discriminate.
  - assert (Hrest : forall b, b = buffer ++ (if Py.truthy content then content else []) ->
                              evaluation_stream_loop E chunks b = Some ev ->
              _validate_evaluation_format ev = true
              /\ exists n, json_loads E (buffer ++ Py.join (reply_texts (firstn n (Some content :: chunks))))
                           = Some ev).
    { intros b Hb Hl. destruct (IH _ _ Hl) as (Hv & n & Hn). split; [exact Hv|].
      exists (S n). cbn [firstn].
      change (Some content :: firstn n chunks) with ([Some content] ++ firstn n chunks).
      rewrite reply_texts_app, join_app, app_assoc.
      replace (buffer ++ Py.join (reply_texts [Some content])) with b; [exact Hn|].
      rewrite Hb. f_equal. destruct content; simpl; rewrite ?app_nil_r; reflexivity. }
    destruct (Py.truthy content) eqn:Ht.
    + cbv zeta in H.
      destruct ((count 123 (buffer ++ content) =? count 125 (buffer ++ content))
                && Py.contains (u "{") (buffer ++ content)); [|eapply Hrest; eauto].
      destruct (json_loads E (buffer ++ content)) as [evaluation|] eqn:Hl; [|eapply Hrest; eauto].
      destruct (_validate_evaluation_format evaluation) eqn:Hv; [|eapply Hrest; eauto].
      injection H as <-. split; [exact Hv|]. exists 1. cbn [firstn].
      replace (Py.join (reply_texts [Some content])) with content; [exact Hl|].
      destruct content; [discriminate|]. simpl. now rewrite app_nil_r.
    + eapply Hrest; eauto. now rewrite app_nil_r.
  - destruct (IH _ _ H) as (Hv & n & Hn). split; [exact Hv|]. exists (S n). exact Hn.
Qed.

Lemma _process_evaluation_stream_cases (E : Env) response w :
  _process_evaluation_stream E response w
  = (Ok (match evaluation_stream_loop E (fst response) [] with
         | Some evaluation => evaluation
         | None => _get_default_evaluation
         end), w).
Proof.
  unfold _process_evaluation_stream, try_except. cbv zeta.
  destruct (evaluation_stream_loop E (fst response) []) as [ev|]; [reflexivity|].
  destruct (snd response) as [e|]; reflexivity.
Qed.

(** X5. [_process_evaluation_stream] never raises and leaves the state
    alone; whatever the stream, broken or not, the report it returns
    passes [_validate_evaluation_format]. *)
Theorem evaluation_stream_yields_valid_report (E : Env)
        (response : list (option str) * option exn) (w : world) :
  exists ev, _process_evaluation_stream E response w = (Ok ev, w)
             /\ _validate_evaluation_format ev = true.
Proof.
  rewrite _process_evaluation_stream_cases. eexists. split; [reflexivity|].
  destruct (evaluation_stream_loop E (fst response) []) as [ev|] eqn:H.
  - now destruct (evaluation_stream_loop_result E _ _ _ H).
  - reflexivity.
Qed.

(** X6. The report of [_process_evaluation_stream] is what the text
    received up to some chunk decodes to, or else the default report:
    [full_response] stays empty, so neither the search for braces nor the
    text fallback ever sees the reply. *)
Theorem evaluation_stream_default_unless_prefix_decodes (E : Env)
        (response : list (option str) * option exn) (w : world) :
  fst (_process_evaluation_stream E response w) = Ok _get_default_evaluation
  \/ exists n ev, fst (_process_evaluation_stream E response w) = Ok ev
                  /\ json_loads E (received n (fst response)) = Some ev
                  /\ _validate_evaluation_format ev = true.
Proof.
  rewrite _process_evaluation_stream_cases. cbn [fst].
  destruct (evaluation_stream_loop E (fst response) []) as [ev|] eqn:H; [|now left].
  right. destruct (evaluation_stream_loop_result E _ _ _ H) as (Hv & n & Hn).
  exists n, ev. auto.
Qed.

(** ** The text fallback *)

Section FallbackFacts.

(** Every match of a score pattern holds the text [0.]. *)
Lemma run_score_number_text s caps rest :
  In (caps, rest) (run score_number s) -> Py.contains (u "0.") s = true.
Proof.
  intros H. pose proof (run_score_number _ _ _ H) as (g & (ds & _ & _ & Hg) & Hc).
  unfold score_number in H. apply run_group in H. destruct H as (c & pre & _ & Hs & Hp).
  rewrite Hp in Hc. injection Hc as -> _. subst g s.
  apply contains_spec. exists (@nil N), (ds ++ rest). now rewrite <- app_assoc.
Qed.

Lemma run_seq_holds needle r1 r2 s caps rest :
  (forall mid c2, In (c2, rest) (run r2 mid) -> Py.contains needle mid = true) ->
  In (caps, rest) (run (Seq r1 r2) s) -> Py.contains needle s = true.
Proof.
  intros Hr2 H. apply run_seq in H. destruct H as (c1 & mid & c2 & H1 & H2 & _).
  destruct (run_suffix _ _ _ _ H1) as (pre & ->).
  apply contains_app_r. eapply Hr2; eassumption.
Qed.

Lemma run_score_pattern_text pattern s caps rest :
  In pattern score_patterns -> In (caps, rest) (run pattern s) ->
  Py.contains (u "0.") s = true.
Proof.
  intros Hp H. destruct Hp as [<- | [<- | [<- | []]]];
    repeat (eapply run_seq_holds; [|eassumption]; clear; intros);
    eapply run_score_number_text; eassumption.
Qed.

Lemma finditer_aux_suffix r : forall s skip caps,
  In caps (finditer_aux r skip s) ->
  exists pre s' rest, s = pre ++ s' /\ In (caps, rest) (run r s').
Proof.
  induction s as [|c s IH]; intros skip caps H; simpl in H; [contradiction|].
  assert (Hnext : forall k, In caps (finditer_aux r k s) ->
                            exists pre s' rest, c :: s = pre ++ s' /\ In (caps, rest) (run r s')).
  { intros k Hk. destruct (IH _ _ Hk) as (pre & s' & rest & -> & Hin).
    now exists (c :: pre), s', rest. }
  destruct skip as [|k]; [|eauto].
  destruct (match_here r (c :: s)) as [[caps' rest]|] eqn:Hm; [|eauto].
  destruct H as [<- | H]; [|eauto].
  apply match_here_in in Hm. now exists (@nil N), (c :: s), rest.
Qed.

Lemma finditer_without_score pattern text :
  In pattern score_patterns -> Py.contains (u "0.") text = false ->
  finditer pattern text = [].
Proof.
  intros Hp Hno. destruct (finditer pattern text) as [|caps l] eqn:Hf; [reflexivity|].
  assert (Hin : In caps (finditer pattern text)) by (rewrite Hf; now left).
  apply finditer_aux_suffix in Hin. destruct Hin as (pre & s' & rest & -> & Hin).
  apply (run_score_pattern_text _ _ _ _ Hp) in Hin.
  now rewrite (contains_app_r _ pre _ Hin) in Hno.
Qed.

Lemma scan_scores_without_score text :
  Py.contains (u "0.") text = false -> scan_scores text = [].
Proof.
  intros Hno. unfold scan_scores, score_patterns. cbn [fold_left].
  rewrite !finditer_without_score; simpl; auto.
Qed.

Lemma dict_set_keys {V} k (v : V) m :
  forall k', In k' (map fst (dict_set k v m)) -> k' = k \/ In k' (map fst m).
Proof.
  induction m as [|[k0 v0] m IH]; simpl; intros k' H.
  - destruct H as [<- | []]. now left.
  - destruct (Py.eqb k k0) eqn:Hk; simpl in H.
    + destruct H as [<- | H]; auto.
    + destruct H as [<- | H]; auto. destruct (IH _ H); auto.
Qed.

Lemma dict_set_NoDup {V} k (v : V) m :
  NoDup (map fst m) -> NoDup (map fst (dict_set k v m)).
Proof.
  induction m as [|[k0 v0] m IH]; simpl; intros H.
  - constructor; [intros [] | constructor].
  - inversion H as [|? ? Hnotin Hnd]; subst.
    destruct (Py.eqb k k0) eqn:Hk; simpl.
    + apply Py_eqb_eq in Hk. subst k0. now constructor.
    + constructor; [|now apply IH].
      intros Hin. apply dict_set_keys in Hin. destruct Hin as [-> | Hin]; [|contradiction].
      now rewrite Py_eqb_refl in Hk.
Qed.

Lemma dict_set_canonical k v scores :
  In k required_scores -> canonical scores -> canonical (dict_set k v scores).
Proof.
  intros Hk [Hnd Hsub]. split; [now apply dict_set_NoDup|].
  intros k' H. apply dict_set_keys in H. destruct H as [-> | H]; auto.
Qed.

Lemma record_score_canonical scores groups :
  canonical scores -> canonical (record_score scores groups).
Proof.
  intros H. unfold record_score.
  destruct groups as [|g1 [|g2 [|g3 l]]]; try assumption.
  destruct (py_float g2); [|assumption].
  repeat match goal with
         | |- context [if ?b then _ else _] => destruct b
         end; try assumption;
    apply dict_set_canonical; try assumption; unfold required_scores; simpl; tauto.
Qed.

Lemma scan_scores_canonical text : canonical (scan_scores text).
Proof.
  unfold scan_scores.
  assert (G : forall (ms : list (list str)) scores,
             canonical scores -> canonical (fold_left record_score ms scores)).
  { induction ms as [|m ms IH]; intros scores H; simpl; [assumption|].
    apply IH. now apply record_score_canonical. }
  assert (F : forall ps scores, canonical scores ->
             canonical (fold_left (fun scores pattern =>
                                     fold_left record_score (finditer pattern text) scores)
                                  ps scores)).
  { induction ps as [|p ps IH]; intros scores H; simpl; [assumption|]. apply IH, G, H. }
  apply F. split; [constructor | intros k []].
Qed.

Lemma all_in_unit_interval_scan text : all_in_unit_interval (scan_scores text) = true.
Proof.
  unfold all_in_unit_interval. apply forallb_forall. intros kv Hin.
  pose proof (scan_scores_unit text) as H. unfold unit_scores in H.
  rewrite Forall_forall in H. now rewrite (unit_number_in_unit_interval _ (H kv Hin)).
Qed.

End FallbackFacts.

(** X7. A text without the characters [0.] holds no score for the text
    fallback: scores written as [1], [1.0], [.5] or [85%] are not read, and
    the default report is returned. *)
Theorem fallback_reads_only_zero_point (text : str) :
  Py.contains (u "0.") text = false ->
  _extract_scores_from_text text = _get_default_evaluation.
Proof.
  intros H. unfold _extract_scores_from_text. now rewrite scan_scores_without_score.
Qed.

(** Three scores, none written with [0.]. *)
Lemma fallback_reads_only_zero_point_witness :
  Py.contains (u "0.") (u "structure: 1.0\nstyle: .5\nperformance: 85%\n") = false
  /\ _extract_scores_from_text (u "structure: 1.0\nstyle: .5\nperformance: 85%\n")
     = _get_default_evaluation.
Proof.
  split; [reflexivity|].
  apply (fallback_reads_only_zero_point (u "structure: 1.0\nstyle: .5\nperformance: 85%\n")).
  reflexivity.
Defined.

(** X8. The scores collected by the text fallback are filed under the
    five canonical dimension names and no other, each name at most once:
    a report of the fallback carries at most five scores. *)
Theorem fallback_scores_are_canonical (text : str) :
  NoDup (map fst (scan_scores text))
  /\ incl (map fst (scan_scores text)) required_scores
  /\ length (scan_scores text) <= 5.
Proof.
  destruct (scan_scores_canonical text) as [Hnd Hsub].
  split; [exact Hnd|]. split; [exact Hsub|].
  rewrite <- (length_map fst).
  change 5 with (length required_scores).
  apply NoDup_incl_length; assumption.
Qed.

(** X9. A report built by the text fallback from scores it found passes
    [_validate_evaluation_format] exactly when all five dimensions were
    found and the analysis text has at least ten characters.  With the
    placeholder analysis it never passes. *)
Theorem fallback_report_validity (text : str) :
  scan_scores text <> [] ->
  _validate_evaluation_format (_extract_scores_from_text text)
  = forallb (fun key => dict_has key (scan_scores text)) required_scores
    && (10 <=? length (first_analysis analysis_patterns text))
  /\ (first_analysis analysis_patterns text = u "无详细分析" ->
      _validate_evaluation_format (_extract_scores_from_text text) = false).
Proof.
  intros Hne.
  assert (Heq : _validate_evaluation_format (_extract_scores_from_text text)
                = forallb (fun key => dict_has key (scan_scores text)) required_scores
                  && (10 <=? length (first_analysis analysis_patterns text))).
  { unfold _extract_scores_from_text.
    pose proof (all_in_unit_interval_scan text) as Hall.
    pose proof (mean_values_unit (scan_scores text) Hne (scan_scores_unit text)) as [H0 H1].
    destruct (scan_scores text) as [|kv l] eqn:Hscan; [congruence|]. cbv zeta.
    unfold _validate_evaluation_format.
    change (negb (forallb (fun key => dict_has key _) required_keys)) with false. cbv iota.
    change (dict_get (u "scores") _) with (Some (JObj (kv :: l))) at 1. cbv iota.
    rewrite Hall.
    destruct (forallb (fun key => dict_has key (kv :: l)) required_scores); [|reflexivity].
    cbn [negb andb].
    match goal with
    | |- context [dict_get (u "total_score") ?d] =>
      change (dict_get (u "total_score") d) with (Some (JNum (mean_values (kv :: l))))
    end.
    cbv iota. cbn [in_unit_interval as_number].
    apply Qle_bool_iff in H0, H1. rewrite H0, H1. cbn [andb].
    match goal with
    | |- context [dict_get (u "analysis") ?d] =>
      change (dict_get (u "analysis") d)
        with (Some (JStr (first_analysis analysis_patterns text)))
    end.
    cbv iota.
    destruct (Nat.ltb_spec (length (first_analysis analysis_patterns text)) 10);
      destruct (Nat.leb_spec 10 (length (first_analysis analysis_patterns text)));
      try reflexivity; lia. }
  split; [exact Heq|].
  intros Hp. rewrite Heq, Hp. apply andb_false_r.
Qed.

(** Two scores and no analysis line. *)
Lemma fallback_report_validity_witness :
  scan_scores (u "结构: 0.6\n风格: 0.7\n") <> []
  /\ _validate_evaluation_format (_extract_scores_from_text (u "结构: 0.6\n风格: 0.7\n")) = false.
Proof.
  assert (H : scan_scores (u "结构: 0.6\n风格: 0.7\n") <> []) by (vm_compute; discriminate).
  split; [exact H|].
  apply (proj2 (fallback_report_validity (u "结构: 0.6\n风格: 0.7\n") H)).
  vm_compute. reflexivity.
Defined.

(** ** Dictionaries *)

Section DictFacts.

Context {V : Type}.

Lemma Py_eqb_sym a b : Py.eqb a b = Py.eqb b a.
Proof.
  destruct (Py.eqb a b) eqn:H1, (Py.eqb b a) eqn:H2; try reflexivity.
  - apply Py_eqb_eq in H1. subst. now rewrite Py_eqb_refl in H2.
  - apply Py_eqb_eq in H2. subst. now rewrite Py_eqb_refl in H1.
Qed.

Lemma dict_get_set k (v : V) m p :
  dict_get p (dict_set k v m) = if Py.eqb p k then Some v else dict_get p m.
Proof.
  induction m as [|[k0 v0] m IH]; simpl.
  - reflexivity.
  - destruct (Py.eqb k k0) eqn:Hk; simpl.
    + apply Py_eqb_eq in Hk. subst k0. destruct (Py.eqb p k); reflexivity.
    + rewrite IH. destruct (Py.eqb p k0) eqn:Hp; [|reflexivity].
      apply Py_eqb_eq in Hp. subst k0. now rewrite Py_eqb_sym, Hk.
Qed.

Lemma dict_get_del k (m : list (str * V)) p :
  dict_get p (dict_del k m) = if Py.eqb p k then None else dict_get p m.
Proof.
  unfold dict_del. induction m as [|[k0 v0] m IH]; simpl.
  - now destruct (Py.eqb p k).
  - destruct (Py.eqb k k0) eqn:Hk; simpl.
    + apply Py_eqb_eq in Hk. subst k0. rewrite IH. now destruct (Py.eqb p k).
    + rewrite IH. destruct (Py.eqb p k0) eqn:Hp; [|reflexivity].
      apply Py_eqb_eq in Hp. subst k0. now rewrite Py_eqb_sym, Hk.
Qed.

Lemma dict_get_In k (v : V) m :
  NoDup (map fst m) -> In (k, v) m -> dict_get k m = Some v.
Proof.
  induction m as [|[k0 v0] m IH]; simpl; intros Hnd Hin; [contradiction|].
  inversion Hnd as [|? ? Hnotin Hnd']; subst.
  destruct Hin as [Heq | Hin].
  - injection Heq as -> ->. now rewrite Py_eqb_refl.
  - destruct (Py.eqb k k0) eqn:Hk; [|auto].
    apply Py_eqb_eq in Hk. subst k0. exfalso. apply Hnotin.
    apply in_map_iff. now exists (k, v).
Qed.

Lemma dict_get_Some_In k (v : V) m : dict_get k m = Some v -> In (k, v) m.
Proof.
  induction m as [|[k0 v0] m IH]; simpl; [discriminate|].
  destruct (Py.eqb k k0) eqn:Hk; [|auto].
  apply Py_eqb_eq in Hk. subst k0. intros H. injection H as ->. now left.
Qed.

Lemma dict_has_In k (m : list (str * V)) : dict_has k m = true <-> In k (map fst m).
Proof.
  unfold dict_has. induction m as [|[k0 v0] m IH]; simpl.
  - split; [discriminate | contradiction].
  - destruct (Py.eqb k k0) eqn:Hk.
    + apply Py_eqb_eq in Hk. subst k0. tauto.
    + rewrite IH. split; [auto|]. intros [-> | H]; [|exact H].
      now rewrite Py_eqb_refl in Hk.
Qed.

(** A dictionary in which no key is found is empty. *)
Lemma dict_without_keys (m : list (str * V)) : (forall p, dict_get p m = None) -> m = [].
Proof.
  destruct m as [|[k v] m]; [reflexivity|]. intros H. specialize (H k). simpl in H.
  now rewrite Py_eqb_refl in H.
Qed.

End DictFacts.

(** Folds that set entries. *)
Lemma fold_dict_set_const {A V} (key : A -> str) (c : A -> bool) (v : V) (l : list A) :
  forall acc p,
    dict_get p (fold_left (fun acc x => if c x then dict_set (key x) v acc else acc) l acc)
    = if existsb (fun x => c x && Py.eqb p (key x)) l then Some v else dict_get p acc.
Proof.
  induction l as [|x l IH]; intros acc p; simpl; [reflexivity|].
  rewrite IH. destruct (existsb _ l); [now rewrite orb_true_r|]. rewrite orb_false_r.
  destruct (c x); simpl; [|reflexivity]. apply dict_get_set.
Qed.

Lemma fold_dict_set_by_key {V} (f : str -> option V) (l : list str) :
  forall acc p,
    dict_get p (fold_left (fun acc x => match f x with
                                        | Some v => dict_set x v acc
                                        | None => acc
                                        end) l acc)
    = if existsb (Py.eqb p) l
      then match f p with Some v => Some v | None => dict_get p acc end
      else dict_get p acc.
Proof.
  induction l as [|x l IH]; intros acc p; simpl; [reflexivity|].
  rewrite IH. destruct (Py.eqb p x) eqn:Hx; simpl.
  - apply Py_eqb_eq in Hx. subst x.
    destruct (f p) as [v|]; [|now destruct (existsb _ l)].
    rewrite dict_get_set, Py_eqb_refl. now destruct (existsb _ l).
  - destruct (f x) as [v|]; [|reflexivity].
    rewrite dict_get_set, Hx. reflexivity.
Qed.

Lemma fold_left_pointwise {A B} (f g : A -> B -> A) (l : list B) :
  (forall a b, f a b = g a b) -> forall a, fold_left f l a = fold_left g l a.
Proof.
  intros H. induction l as [|b l IH]; intros a; simpl; [reflexivity|]. now rewrite H, IH.
Qed.

Lemma fold_dict_set_NoDup {A V} (step : list (str * V) -> A -> list (str * V)) (l : list A) :
  (forall acc x, NoDup (map fst acc) -> NoDup (map fst (step acc x))) ->
  forall acc, NoDup (map fst acc) -> NoDup (map fst (fold_left step l acc)).
Proof.
  intros Hstep. induction l as [|x l IH]; intros acc H; simpl; auto.
Qed.

(** ** The file manager *)

Section FileManagerFacts.

Variable E : Env.
Variable T : Tree.

Lemma scan_files_get self p :
  dict_get p (scan_files E T self)
  = if existsb (Py.eqb p) (_find_code_files T self) then _calculate_file_hash E T p else None.
Proof.
  unfold scan_files. rewrite (fold_dict_set_by_key (_calculate_file_hash E T)).
  simpl. destruct (existsb _ _); [|reflexivity]. now destruct (_calculate_file_hash E T p).
Qed.

Lemma scan_files_NoDup self : NoDup (map fst (scan_files E T self)).
Proof.
  unfold scan_files. apply fold_dict_set_NoDup; [|constructor].
  intros acc x H. destruct (_calculate_file_hash E T x); [now apply dict_set_NoDup | exact H].
Qed.

(** What [get_modified_files] says of a path. *)
Lemma get_modified_files_get self p :
  dict_get p (fst (get_modified_files E T self))
  = match dict_get p (scan_files E T self) with
    | Some new_hash =>
      match dict_get p (file_cache self) with
      | Some old_hash => if Py.eqb old_hash new_hash then None else Some (u "modified")
      | None => Some (u "modified")
      end
    | None => if dict_has p (file_cache self) then Some (u "deleted") else None
    end.
Proof.
  unfold get_modified_files. cbv zeta. cbn [fst].
  set (new_cache := scan_files E T self).
  pose proof (scan_files_NoDup self) as Hnd. fold new_cache in Hnd.
  rewrite (fold_dict_set_const (@fst str str)
             (fun kv => negb (dict_has (fst kv) new_cache)) (u "deleted")).
  match goal with
  | |- context [fold_left ?f new_cache []] =>
    replace (fold_left f new_cache [])
      with (fold_left (fun acc (kv : str * str) =>
                         if negb (dict_has (fst kv) (file_cache self))
                            || match dict_get (fst kv) (file_cache self) with
                               | Some old_hash => negb (Py.eqb old_hash (snd kv))
                               | None => true
                               end
                         then dict_set (fst kv) (u "modified") acc else acc) new_cache [])
  end.
  2:{ apply fold_left_pointwise. intros a [k v]. reflexivity. }
  rewrite (fold_dict_set_const (@fst str str)
             (fun kv => negb (dict_has (fst kv) (file_cache self))
                        || match dict_get (fst kv) (file_cache self) with
                           | Some old_hash => negb (Py.eqb old_hash (snd kv))
                           | None => true
                           end) (u "modified")).
  cbn [dict_get].
  destruct (dict_get p new_cache) as [new_hash|] eqn:Hnew.
  - (* found by the scan: not deleted *)
    assert (Hdel : existsb (fun x : str * str =>
                              negb (dict_has (fst x) new_cache) && Py.eqb p (fst x))
                           (file_cache self) = false).
    { apply not_true_is_false. intros H. apply existsb_exists in H.
      destruct H as ([k v] & _ & H). apply andb_true_iff in H. destruct H as [Hno Hk].
      apply Py_eqb_eq in Hk. simpl in *. subst k.
      unfold dict_has in Hno. now rewrite Hnew in Hno. }
    rewrite Hdel.
    assert (Hmod : existsb (fun x : str * str =>
                      (negb (dict_has (fst x) (file_cache self))
                       || match dict_get (fst x) (file_cache self) with
                          | Some old_hash => negb (Py.eqb old_hash (snd x))
                          | None => true
                          end) && Py.eqb p (fst x)) new_cache
                   = (negb (dict_has p (file_cache self))
                      || match dict_get p (file_cache self) with
                         | Some old_hash => negb (Py.eqb old_hash new_hash)
                         | None => true
                         end)).
    { apply eq_true_iff_eq. rewrite existsb_exists. split.
      - intros ([k v] & Hin & H). apply andb_true_iff in H. destruct H as [Hc Hk].
        apply Py_eqb_eq in Hk. simpl in *. subst k.
        rewrite (dict_get_In _ _ _ Hnd Hin) in Hnew. injection Hnew as ->. exact Hc.
      - intros Hc. exists (p, new_hash). split; [now apply dict_get_Some_In|].
        simpl. now rewrite Hc, Py_eqb_refl. }
    rewrite Hmod. unfold dict_has.
    destruct (dict_get p (file_cache self)) as [old_hash|]; simpl; [|reflexivity].
    now destruct (Py.eqb old_hash new_hash).
  - (* not found by the scan: not modified *)
    assert (Hmod : forall c, existsb (fun x : str * str => c x && Py.eqb p (fst x)) new_cache = false).
    { intros c. apply not_true_is_false. intros H. apply existsb_exists in H.
      destruct H as ([k v] & Hin & H). apply andb_true_iff in H. destruct H as [_ Hk].
      apply Py_eqb_eq in Hk. simpl in *. subst k.
      rewrite (dict_get_In _ _ _ Hnd Hin) in Hnew. discriminate. }
    rewrite Hmod.
    assert (Hdel : existsb (fun x : str * str =>
                              negb (dict_has (fst x) new_cache) && Py.eqb p (fst x))
                           (file_cache self) = dict_has p (file_cache self)).
    { apply eq_true_iff_eq. rewrite existsb_exists, dict_has_In, in_map_iff. split.
      - intros ([k v] & Hin & H). apply andb_true_iff in H. destruct H as [_ Hk].
        apply Py_eqb_eq in Hk. simpl in *. subst k. now exists (p, v).
      - intros ([k v] & Hk & Hin). simpl in Hk. subst k. exists (p, v). split; [exact Hin|].
        simpl. unfold dict_has. now rewrite Hnew, Py_eqb_refl. }
    rewrite Hdel. now destruct (dict_has p (file_cache self)).
Qed.

Lemma get_modified_files_cache self :
  file_cache (snd (get_modified_files E T self)) = scan_files E T self
  /\ scan_files E T (snd (get_modified_files E T self)) = scan_files E T self.
Proof. split; reflexivity. Qed.

Lemma dict_get_not_In {V} k (m : list (str * V)) : ~ In k (map fst m) -> dict_get k m = None.
Proof.
  intros H. destruct (dict_get k m) as [v|] eqn:Hg; [|reflexivity].
  exfalso. apply H. apply dict_has_In. unfold dict_has. now rewrite Hg.
Qed.

(** What [_update_project_state] leaves in the code map. *)
Lemma update_fold_get (modified_files : list (str * str)) :
  NoDup (map fst modified_files) ->
  forall code p,
    dict_get p
      (fold_left (fun code kv =>
                    let '(file_path, status) := kv in
                    if Py.eqb status (u "deleted") then
                      if dict_has file_path code then dict_del file_path code else code
                    else
                      match read_text T file_path with
                      | Some content => dict_set file_path content code
                      | None => code
                      end) modified_files code)
    = match dict_get p modified_files with
      | None => dict_get p code
      | Some status =>
        if Py.eqb status (u "deleted") then None
        else match read_text T p with
             | Some content => Some content
             | None => dict_get p code
             end
      end.
Proof.
  induction modified_files as [|[k st] l IH]; intros Hnd code p; [reflexivity|].
  inversion Hnd as [|? ? Hnotin Hnd']; subst.
  cbn [fold_left]. rewrite (IH Hnd'). cbn [dict_get].
  destruct (Py.eqb p k) eqn:Hk.
  - apply Py_eqb_eq in Hk. subst k. rewrite (dict_get_not_In _ _ Hnotin).
    destruct (Py.eqb st (u "deleted")).
    + unfold dict_has. destruct (dict_get p code) eqn:Hc.
      * now rewrite dict_get_del, Py_eqb_refl.
      * exact Hc.
    + destruct (read_text T p); [|reflexivity]. now rewrite dict_get_set, Py_eqb_refl.
  - assert (Hstep : dict_get p (if Py.eqb st (u "deleted")
                                then if dict_has k code then dict_del k code else code
                                else match read_text T k with
                                     | Some content => dict_set k content code
                                     | None => code
                                     end) = dict_get p code).
    { destruct (Py.eqb st (u "deleted")).
      - destruct (dict_has k code); [|reflexivity]. now rewrite dict_get_del, Hk.
      - destruct (read_text T k); [|reflexivity]. now rewrite dict_get_set, Hk. }
    rewrite Hstep. reflexivity.
Qed.

Lemma get_modified_files_NoDup self : NoDup (map fst (fst (get_modified_files E T self))).
Proof.
  unfold get_modified_files. cbv zeta. cbn [fst].
  apply fold_dict_set_NoDup.
  - intros acc x H. destruct (negb _); [now apply dict_set_NoDup | exact H].
  - apply fold_dict_set_NoDup; [|constructor].
    intros acc [k v] H. destruct (_ || _); [now apply dict_set_NoDup | exact H].
Qed.

End FileManagerFacts.

(** X10. What [get_modified_files] reports for a path is decided by the
    digests alone: [modified] when the scan finds the file and the cache
    has no or another digest for it, [deleted] when the cache has the path
    and the scan does not yield it, nothing otherwise.  The cache becomes
    the result of the scan. *)
Theorem modified_files_report (E : Env) (T : Tree) (self : ManagedFiles) (p : str) :
  dict_get p (fst (get_modified_files E T self))
  = match dict_get p (scan_files E T self) with
    | Some new_hash =>
      match dict_get p (file_cache self) with
      | Some old_hash => if Py.eqb old_hash new_hash then None else Some (u "modified")
      | None => Some (u "modified")
      end
    | None => if dict_has p (file_cache self) then Some (u "deleted") else None
    end
  /\ file_cache (snd (get_modified_files E T self)) = scan_files E T self.
Proof. split; [apply get_modified_files_get | reflexivity]. Qed.

(** X11. Asked twice about a tree that did not change in between,
    [get_modified_files] reports nothing the second time. *)
Theorem unchanged_tree_reports_nothing (E : Env) (T : Tree) (self : ManagedFiles) :
  fst (get_modified_files E T (snd (get_modified_files E T self))) = [].
Proof.
  apply dict_without_keys. intros p. rewrite get_modified_files_get.
  destruct (get_modified_files_cache E T self) as [-> ->].
  unfold dict_has. destruct (dict_get p (scan_files E T self)) as [h|]; [|reflexivity].
  now rewrite Py_eqb_refl.
Qed.

(** X12. [CodeFileManager.__init__] drops the result of its scan and starts
    with an empty cache: the first call of [get_modified_files] reports
    as [modified] every file the scan yields, changed or not, and no file
    as [deleted]. *)
Theorem new_manager_reports_every_file (E : Env) (T : Tree) (root : str)
        (patterns : option (list str)) (p : str) :
  let self := new_manager E T root patterns in
  file_cache self = []
  /\ dict_get p (fst (get_modified_files E T self))
     = if dict_has p (scan_files E T self) then Some (u "modified") else None.
Proof.
  cbv zeta. split; [reflexivity|].
  rewrite get_modified_files_get. unfold dict_has.
  now destruct (dict_get p (scan_files E T (new_manager E T root patterns))).
Qed.

(** X13. [_update_project_state] changes the code map and nothing else.
    For a path reported [deleted] the entry is removed; for a path with
    another status the file is read again, and an unreadable file keeps the
    entry it had; the entries of all other paths stay as they were. *)
Theorem update_project_state_effect (T : Tree) (modified_files : list (str * str))
        (w : world) (p : str) :
  NoDup (map fst modified_files) ->
  let w' := snd (_update_project_state T modified_files w) in
  fst (_update_project_state T modified_files w) = Ok tt
  /\ w' = set_project_state (set_code (code (project_state w')) (project_state w)) w
  /\ dict_get p (code (project_state w'))
     = match dict_get p modified_files with
       | None => dict_get p (code (project_state w))
       | Some status =>
         if Py.eqb status (u "deleted") then None
         else match read_text T p with
              | Some content => Some content
              | None => dict_get p (code (project_state w))
              end
       end.
Proof.
  intros Hnd. cbv zeta. unfold _update_project_state, modify. cbn [fst snd].
  split; [reflexivity|]. split; [reflexivity|].
  cbn [project_state set_project_state code set_code].
  now apply update_fold_get.
Qed.

(** One file modified, one deleted. *)
Lemma update_project_state_effect_witness :
  let T := {| rglob := fun _ _ => []; read_bytes := fun _ => None;
              read_text := fun p => if Py.eqb p (u "/proj/a.py") then Some (u "print(2)") else None |} in
  let w := set_project_state
             (set_code [(u "/proj/a.py", u "print(1)"); (u "/proj/b.py", u "print(0)")]
                       (project_state ready_developer)) ready_developer in
  let mods := [(u "/proj/a.py", u "modified"); (u "/proj/b.py", u "deleted")] in
  NoDup (map fst mods)
  /\ dict_get (u "/proj/a.py") (code (project_state (snd (_update_project_state T mods w))))
     = Some (u "print(2)")
  /\ dict_get (u "/proj/b.py") (code (project_state (snd (_update_project_state T mods w))))
     = None.
Proof.
  intros T w mods.
  assert (Hnd : NoDup (map fst mods)).
  { repeat constructor; simpl; intuition discriminate. }
  split; [exact Hnd|]. split.
  - exact (proj2 (proj2 (update_project_state_effect T mods w (u "/proj/a.py") Hnd))).
  - exact (proj2 (proj2 (update_project_state_effect T mods w (u "/proj/b.py") Hnd))).
Defined.

(** X14. A file of the cache that can no longer be read is reported as
    [deleted], even while it is still there, and [_update_project_state]
    then removes its code from the project state. *)
Theorem unreadable_file_is_dropped (E : Env) (T : Tree) (self : ManagedFiles)
        (w : world) (p : str) :
  dict_has p (file_cache self) = true -> read_bytes T p = None ->
  let modified_files := fst (get_modified_files E T self) in
  dict_get p modified_files = Some (u "deleted")
  /\ dict_get p (code (project_state (snd (_update_project_state T modified_files w)))) = None.
Proof.
  intros Hc Hr. cbv zeta.
  assert (Hd : dict_get p (fst (get_modified_files E T self)) = Some (u "deleted")).
  { rewrite get_modified_files_get, scan_files_get. unfold _calculate_file_hash.
    rewrite Hr. simpl. rewrite Hc. now destruct (existsb _ _). }
  split; [exact Hd|].
  unfold _update_project_state, modify. cbn [snd project_state set_project_state code set_code].
  rewrite update_fold_get by apply get_modified_files_NoDup.
  now rewrite Hd.
Qed.

(** The scan still finds the file, but it cannot be read. *)
Lemma unreadable_file_is_dropped_witness :
  let E := script_env [] [] in
  let T := {| rglob := fun _ _ => [u "/proj/a.py"]; read_bytes := fun _ => None;
              read_text := fun _ => None |} in
  let self := {| manager := {| root_dir := u "/proj" |}; file_patterns := default_patterns;
                 file_cache := [(u "/proj/a.py", u "0cc175b9c0f1b6a831c399e269772661")] |} in
  let w := set_project_state
             (set_code [(u "/proj/a.py", u "print(1)")] (project_state ready_developer))
             ready_developer in
  dict_has (u "/proj/a.py") (file_cache self) = true
  /\ existsb (Py.eqb (u "/proj/a.py")) (_find_code_files T self) = true
  /\ dict_get (u "/proj/a.py") (fst (get_modified_files E T self)) = Some (u "deleted")
  /\ dict_get (u "/proj/a.py")
       (code (project_state (snd (_update_project_state T (fst (get_modified_files E T self)) w))))
     = None.
Proof.
  intros E T self w.
  assert (Hc : dict_has (u "/proj/a.py") (file_cache self) = true) by reflexivity.
  split; [exact Hc|]. split; [reflexivity|].
  exact (unreadable_file_is_dropped E T self w (u "/proj/a.py") Hc eq_refl).
Defined.

(** ** Version names are read back *)

Section VersionNames.

Lemma strip_without_space s :
  forallb (fun c => negb (Py.isspace c)) s = true -> Py.strip s = s.
Proof.
  intros H. unfold Py.strip, Py.rstrip.
  assert (L : forall t, forallb (fun c => negb (Py.isspace c)) t = true -> Py.lstrip t = t).
  { intros [|c t] Ht; [reflexivity|]. simpl in *. apply andb_true_iff in Ht.
    destruct Ht as [Hc _]. apply negb_true_iff in Hc. now rewrite Hc. }
  rewrite (L s H), L, rev_involutive; [reflexivity|].
  rewrite forallb_forall in *. intros c Hc. apply H. now apply in_rev.
Qed.

(** The branches of [int]: a sign, then digits. *)
Lemma py_int_cases s :
  py_int s = match Py.strip s with
             | h :: r =>
               if (h =? 45)%N then option_map (fun n => (- Z.of_N n)%Z) (int_digits 0 false r)
               else if (h =? 43)%N then option_map Z.of_N (int_digits 0 false r)
               else option_map Z.of_N (int_digits 0 false (h :: r))
             | [] => option_map Z.of_N (int_digits 0 false [])
             end.
Proof.
  unfold py_int. destruct (Py.strip s) as [|h r]; [reflexivity|].
  destruct h as [|p]; [reflexivity|].
  do 7 (try (destruct p as [p|p|]; try reflexivity)).
Qed.

Lemma int_digits_uint_acc d : forall p,
  int_digits (Npos p) true (Py.bytes_of_string (NilEmpty.string_of_uint d))
  = Some (Npos (Pos.of_uint_acc d p)).
Proof.
  induction d; intros p; cbn [NilEmpty.string_of_uint Py.bytes_of_string Pos.of_uint_acc];
    [reflexivity|..];
    (cbn [int_digits];
     match goal with
     | |- context [Py.isdigit (N_of_ascii ?a)] =>
       change (Py.isdigit (N_of_ascii a)) with true;
       let v := eval vm_compute in (N_of_ascii a - 48)%N in
       change (N_of_ascii a - 48)%N with v
     end; cbv iota;
     match goal with
     | |- int_digits ?n true _ = Some (Npos (Pos.of_uint_acc _ ?q)) =>
       replace n with (Npos q) by lia
     end; apply IHd).
Qed.

Lemma int_digits_uint d : forall b,
  b = true \/ d <> Decimal.Nil ->
  int_digits 0 b (Py.bytes_of_string (NilEmpty.string_of_uint d)) = Some (Pos.of_uint d).
Proof.
  induction d; intros b Hb; cbn [NilEmpty.string_of_uint Py.bytes_of_string Pos.of_uint].
  - destruct Hb as [-> | Hb]; [reflexivity | congruence].
  - cbn [int_digits]. change (Py.isdigit (N_of_ascii "0")) with true. cbv iota.
    apply IHd. now left.
  - cbn [int_digits]. change (Py.isdigit (N_of_ascii "1")) with true. cbv iota.
    apply (int_digits_uint_acc d 1).
  - cbn [int_digits]. change (Py.isdigit (N_of_ascii "2")) with true. cbv iota.
    apply (int_digits_uint_acc d 2).
  - cbn [int_digits]. change (Py.isdigit (N_of_ascii "3")) with true. cbv iota.
    apply (int_digits_uint_acc d 3).
  - cbn [int_digits]. change (Py.isdigit (N_of_ascii "4")) with true. cbv iota.
    apply (int_digits_uint_acc d 4).
  - cbn [int_digits]. change (Py.isdigit (N_of_ascii "5")) with true. cbv iota.
    apply (int_digits_uint_acc d 5).
  - cbn [int_digits]. change (Py.isdigit (N_of_ascii "6")) with true. cbv iota.
    apply (int_digits_uint_acc d 6).
  - cbn [int_digits]. change (Py.isdigit (N_of_ascii "7")) with true. cbv iota.
    apply (int_digits_uint_acc d 7).
  - cbn [int_digits]. change (Py.isdigit (N_of_ascii "8")) with true. cbv iota.
    apply (int_digits_uint_acc d 8).
  - cbn [int_digits]. change (Py.isdigit (N_of_ascii "9")) with true. cbv iota.
    apply (int_digits_uint_acc d 9).
Qed.

Lemma uint_digits d :
  forallb Py.isdigit (Py.bytes_of_string (NilEmpty.string_of_uint d)) = true.
Proof. induction d; simpl; auto. Qed.

(** The printable characters of ASCII are no white space. *)
Lemma between_33_and_126_is_no_space c : (33 <= c <= 126)%N -> Py.isspace c = false.
Proof.
  intros Hc. unfold Py.isspace.
  replace (c <=? 13)%N with false by (symmetry; apply N.leb_gt; lia).
  replace (c <=? 32)%N with false by (symmetry; apply N.leb_gt; lia).
  replace (8192 <=? c)%N with false by (symmetry; apply N.leb_gt; lia).
  replace (c =? 133)%N with false by (symmetry; apply N.eqb_neq; lia).
  replace (c =? 160)%N with false by (symmetry; apply N.eqb_neq; lia).
  replace (c =? 5760)%N with false by (symmetry; apply N.eqb_neq; lia).
  replace (c =? 8232)%N with false by (symmetry; apply N.eqb_neq; lia).
  replace (c =? 8233)%N with false by (symmetry; apply N.eqb_neq; lia).
  replace (c =? 8239)%N with false by (symmetry; apply N.eqb_neq; lia).
  replace (c =? 8287)%N with false by (symmetry; apply N.eqb_neq; lia).
  replace (c =? 12288)%N with false by (symmetry; apply N.eqb_neq; lia).
  now rewrite !andb_false_r.
Qed.

Lemma digit_is_no_space c : Py.isdigit c = true -> negb (Py.isspace c) = true.
Proof.
  intros H. apply isdigit_range in H. rewrite between_33_and_126_is_no_space; [reflexivity | lia].
Qed.

Lemma py_int_of_Z z : py_int (Py.of_Z z) = Some z.
Proof.
  assert (Hpos : forall p,
             py_int (Py.bytes_of_string (NilEmpty.string_of_uint (Pos.to_uint p))) = Some (Z.pos p)).
  { intros p. rewrite py_int_cases.
    rewrite strip_without_space.
    2:{ apply forallb_forall. intros c Hc. apply digit_is_no_space.
        pose proof (uint_digits (Pos.to_uint p)) as Hd. rewrite forallb_forall in Hd. auto. }
    pose proof (int_digits_uint (Pos.to_uint p) false
                  (or_intror (DecimalPos.Unsigned.to_uint_nonnil p))) as Hi.
    pose proof (uint_digits (Pos.to_uint p)) as Hd.
    destruct (Py.bytes_of_string (NilEmpty.string_of_uint (Pos.to_uint p))) as [|h r] eqn:Hb.
    - simpl in Hi. discriminate.
    - simpl in Hd. apply andb_true_iff in Hd. destruct Hd as [Hh _].
      apply isdigit_range in Hh.
      destruct (N.eqb_spec h 45); [lia|]. destruct (N.eqb_spec h 43); [lia|].
      rewrite Hi, DecimalPos.Unsigned.of_to. reflexivity. }
  unfold Py.of_Z. destruct z as [|p|p]; [reflexivity| |].
  - unfold Z.to_int, NilZero.string_of_int, NilZero.string_of_uint.
    pose proof (DecimalPos.Unsigned.to_uint_nonnil p) as Hn.
    destruct (Pos.to_uint p) eqn:Hu; try congruence; rewrite <- Hu; apply Hpos.
  - unfold Z.to_int, NilZero.string_of_int, NilZero.string_of_uint.
    pose proof (DecimalPos.Unsigned.to_uint_nonnil p) as Hn.
    assert (Hs : (match Pos.to_uint p with
                  | Decimal.Nil => "0"%string
                  | _ => NilEmpty.string_of_uint (Pos.to_uint p)
                  end) = NilEmpty.string_of_uint (Pos.to_uint p))
      by (destruct (Pos.to_uint p); congruence).
    rewrite Hs. cbn [Py.bytes_of_string]. change (N_of_ascii "-") with 45%N.
    rewrite py_int_cases, strip_without_space.
    2:{ cbn [forallb]. change (negb (Py.isspace 45)) with true. cbn [andb].
        apply forallb_forall. intros c Hc. apply digit_is_no_space.
        pose proof (uint_digits (Pos.to_uint p)) as Hd. rewrite forallb_forall in Hd. auto. }
    rewrite N.eqb_refl.
    rewrite (int_digits_uint (Pos.to_uint p) false (or_intror Hn)).
    rewrite DecimalPos.Unsigned.of_to. reflexivity.
Qed.

End VersionNames.

Lemma version_name_read_back_lemma (z : Z) : py_int (skipn 1 (version_name z)) = Some z.
Proof.
  unfold version_name. change (skipn 1 (u "v" ++ Py.of_Z z)) with (Py.of_Z z). apply py_int_of_Z.
Qed.

(** X15. The directory name written for a version is read back as that
    version: [int(f"v{n}"[1:]) == n]. *)
Theorem version_name_read_back (z : Z) : py_int (skipn 1 (version_name z)) = Some z.
Proof. unfold version_name. change (skipn 1 (u "v" ++ Py.of_Z z)) with (Py.of_Z z). apply py_int_of_Z. Qed.

(** ** Loading: the greatest number wins *)

Section GreatestKey.

Context {A : Type}.
Variable m : Z * A.

Lemma insert_by_key_In (x : Z * A) l y : In y (insert_by_key x l) <-> y = x \/ In y l.
Proof.
  induction l as [|z l IH]; simpl.
  - intuition.
  - destruct (fst x <? fst z)%Z; simpl; [intuition|]. rewrite IH. intuition.
Qed.

Lemma insert_below_last (x : Z * A) l :
  x = m \/ (fst x < fst m)%Z -> exists l', insert_by_key x (l ++ [m]) = l' ++ [m].
Proof.
  intros Hx. induction l as [|z l (l' & IH)]; simpl.
  - destruct (Z.ltb_spec (fst x) (fst m)).
    + now exists [x].
    + destruct Hx as [-> | Hx]; [now exists [m] | lia].
  - destruct (fst x <? fst z)%Z.
    + now exists (x :: z :: l).
    + rewrite IH. now exists (z :: l').
Qed.

Lemma insert_greatest l :
  (forall y, In y l -> y = m \/ (fst y < fst m)%Z) -> exists l', insert_by_key m l = l' ++ [m].
Proof.
  induction l as [|z l IH]; intros H; simpl.
  - now exists [].
  - destruct (Z.ltb_spec (fst m) (fst z)) as [Hlt | _].
    + destruct (H z (or_introl eq_refl)) as [-> | Hz]; lia.
    + destruct IH as (l' & ->); [intros y Hy; apply H; now right|]. now exists (z :: l').
Qed.

Lemma fold_insert_last l : forall acc,
  (forall y, In y (l ++ acc) -> y = m \/ (fst y < fst m)%Z) ->
  In m l \/ (exists a, acc = a ++ [m]) ->
  exists a', fold_left (fun acc x => insert_by_key x acc) l acc = a' ++ [m].
Proof.
  induction l as [|x l IH]; intros acc Hall Hm; simpl.
  - destruct Hm as [[] | Hm]. exact Hm.
  - apply IH.
    + intros y Hy. apply in_app_or in Hy. destruct Hy as [Hy | Hy].
      * apply Hall. simpl. right. apply in_or_app. now left.
      * apply insert_by_key_In in Hy. destruct Hy as [-> | Hy].
        -- apply Hall. now left.
        -- apply Hall. simpl. right. apply in_or_app. now right.
    + destruct Hm as [[-> | Hm] | (a & ->)].
      * right. apply insert_greatest. intros y Hy. apply Hall. simpl. right.
        apply in_or_app. now right.
      * now left.
      * right. apply insert_below_last. apply Hall. now left.
Qed.

(** The last element of the sorted list is the one with the greatest
    key. *)
Lemma sorted_by_key_last l :
  In m l -> (forall y, In y l -> y = m \/ (fst y < fst m)%Z) ->
  exists a, rev (sorted_by_key l) = m :: a.
Proof.
  intros Hin Hall. unfold sorted_by_key.
  destruct (fold_insert_last l []) as (a & ->).
  - intros y Hy. rewrite app_nil_r in Hy. auto.
  - now left.
  - exists (rev a). now rewrite rev_app_distr.
Qed.

End GreatestKey.

Section LoadFacts.

Variable E : Env.

Lemma version_keys_ok ds w :
  (forall name d, In (name, d) ds -> py_int (skipn 1 name) <> None) ->
  exists keyed, version_keys ds w = (Ok keyed, w)
                /\ forall k nd, In (k, nd) keyed <->
                                In nd ds /\ py_int (skipn 1 (fst nd)) = Some k.
Proof.
  induction ds as [|[name d] ds IH]; intros H; cbn [version_keys].
  - exists []. split; [reflexivity|]. simpl. tauto.
  - destruct (py_int (skipn 1 name)) as [k0|] eqn:Hk.
    2:{ exfalso. apply (H name d); [now left | exact Hk]. }
    destruct IH as (keyed & Hrun & Hkeyed); [intros n' d' Hin; apply (H n' d'); now right|].
    unfold bind. rewrite Hrun. exists ((k0, (name, d)) :: keyed). split; [reflexivity|].
    intros k nd. cbn [In]. rewrite Hkeyed. split.
    + intros [Heq | [Hin Hp]]; [|auto]. injection Heq as <- <-. auto.
    + intros [[<- | Hin] Hp]; [|auto]. left. cbn [fst] in Hp. rewrite Hk in Hp.
      now injection Hp as ->.
Qed.

Lemma version_keys_bad ds w name d :
  In (name, d) ds -> py_int (skipn 1 name) = None ->
  exists e, version_keys ds w = (Raise e, w).
Proof.
  induction ds as [|[n0 d0] ds IH]; intros Hin Hbad; cbn [version_keys]; [contradiction|].
  destruct Hin as [Heq | Hin].
  - injection Heq as -> ->. rewrite Hbad. unfold raise. eauto.
  - destruct (py_int (skipn 1 n0)); [|unfold raise; eauto].
    unfold bind. destruct (IH Hin Hbad) as (e & ->). eauto.
Qed.

Lemma version_dirs_app a b : version_dirs (a ++ b) = version_dirs a ++ version_dirs b.
Proof. unfold version_dirs. apply flat_map_app. Qed.

(** [init_file_manager] touches neither the project state nor the version
    directories. *)
Lemma init_file_manager_frame project_dir w :
  project_state (snd (init_file_manager project_dir w)) = project_state w
  /\ version_dirs (disk (snd (init_file_manager project_dir w))) = version_dirs (disk w)
  /\ exists b, fst (init_file_manager project_dir w) = Ok b.
Proof.
  unfold init_file_manager, init_file_manager_at, try_except, bind, modify, get.
  cbn [disk set_file_manager mkdir_parents ret fst snd].
  destruct (fs_lookup (u "history") (disk w)) as [[c|d]|]; cbn; eauto.
  rewrite version_dirs_app, app_nil_r. eauto.
Qed.

Lemma init_file_manager_ok project_dir w :
  (forall c, fs_lookup (u "history") (disk w) <> Some (EFile c)) ->
  fst (init_file_manager project_dir w) = Ok true.
Proof.
  intros H. unfold init_file_manager, init_file_manager_at, try_except, bind, modify, get.
  cbn [disk set_file_manager mkdir_parents ret fst snd].
  destruct (fs_lookup (u "history") (disk w)) as [[c|d]|]; cbn; try reflexivity.
  now destruct (H c).
Qed.

Lemma load_latest project_dir w name d k :
  path_exists E project_dir = true ->
  (forall c, fs_lookup (u "history") (disk w) <> Some (EFile c)) ->
  In (name, d) (version_dirs (disk w)) -> py_int (skipn 1 name) = Some k ->
  (forall name' d', In (name', d') (version_dirs (disk w)) ->
                    (name', d') = (name, d)
                    \/ exists k', py_int (skipn 1 name') = Some k' /\ (k' < k)%Z) ->
  let w1 := snd (init_file_manager project_dir w) in
  load_existing_project E project_dir w
  = match main_py d with
    | None => (Ok false, w1)
    | Some code_read =>
      match checkpoint_json d with
      | Some CkUnreadable => (Ok false, w1)
      | Some (CkDoc c) =>
        (Ok true, loaded project_dir name code_read (or_default (ck_version c) k)
                         (or_default (ck_history c) []) (or_default (ck_user_feedback c) []) w1)
      | None =>
        (Ok true, loaded project_dir name code_read k (history (project_state w))
                         (user_feedback (project_state w)) w1)
      end
    end.
Proof.
  intros Hex Hhist Hin Hk Hmax. cbv zeta.
  destruct (init_file_manager_frame project_dir w) as (Hps & Hvd & _).
  pose proof (init_file_manager_ok project_dir w Hhist) as Hok.
  unfold load_existing_project, try_except. rewrite Hex. cbn [negb]. cbv iota.
  unfold bind at 1.
  destruct (init_file_manager project_dir w) as [r w1]. cbn [fst snd] in *. subst r.
  cbn [negb]. cbv iota. unfold bind at 1. unfold get at 1. cbv iota beta.
  rewrite Hvd.
  destruct (version_keys_ok (version_dirs (disk w)) w1) as (keyed & Hrun & Hkeyed).
  { intros n' d' Hin'. destruct (Hmax n' d' Hin') as [Heq | (k' & -> & _)]; [|discriminate].
    injection Heq as -> ->. rewrite Hk. discriminate. }
  unfold bind at 1. rewrite Hrun.
  destruct (sorted_by_key_last (k, (name, d)) keyed) as (a & ->).
  { apply Hkeyed. auto. }
  { intros [k' [n' d']] Hy. apply Hkeyed in Hy. destruct Hy as [Hin' Hk']. cbn [fst] in Hk'.
    destruct (Hmax n' d' Hin') as [Heq | (k'' & Hk'' & Hlt)].
    - injection Heq as -> ->. left. rewrite Hk in Hk'. now injection Hk' as ->.
    - right. cbn [fst]. rewrite Hk'' in Hk'. now injection Hk' as <-. }
  destruct (main_py d) as [code_read|]; [|reflexivity].
  destruct (checkpoint_json d) as [[c|]|].
  - unfold bind, modify, ret, loaded. cbn [project_state set_project_state history user_feedback
                                             set_user_feedback set_history].
    destruct w1; reflexivity.
  - reflexivity.
  - unfold bind, modify, ret, loaded. rewrite Hps. destruct w1; reflexivity.
Qed.

(** A directory whose name does not read as a version makes the load
    fail before the project state is touched. *)
Lemma load_with_bad_name project_dir w name d :
  In (name, d) (version_dirs (disk w)) -> py_int (skipn 1 name) = None ->
  exists w', load_existing_project E project_dir w = (Ok false, w')
             /\ project_state w' = project_state w.
Proof.
  intros Hin Hbad.
  destruct (init_file_manager_frame project_dir w) as (Hps & Hvd & b & Hb).
  unfold load_existing_project, try_except.
  destruct (path_exists E project_dir); cbn [negb]; cbv iota; [|now exists w].
  unfold bind at 1.
  destruct (init_file_manager project_dir w) as [r w1]. cbn [fst snd] in *. subst r.
  destruct b; cbn [negb]; cbv iota; [|now exists w1].
  unfold bind at 1. unfold get at 1. cbv iota beta. rewrite Hvd.
  unfold bind at 1.
  destruct (version_keys_bad _ w1 _ _ Hin Hbad) as (e & ->).
  now exists w1.
Qed.

End LoadFacts.

(** ** Names that are no version *)

Section BadNames.

Lemma ascii_letter_range c :
  ascii_letter c = true -> (65 <= c <= 90 \/ 97 <= c <= 122)%N.
Proof.
  unfold ascii_letter. rewrite orb_true_iff, !andb_true_iff, !N.leb_le. tauto.
Qed.

Lemma int_digits_letter c r : forall acc b,
  In c r -> ascii_letter c = true -> int_digits acc b r = None.
Proof.
  intros acc b Hin Hc.
  assert (Hnd : Py.isdigit c = false /\ (c =? 95)%N = false).
  { apply ascii_letter_range in Hc. unfold Py.isdigit. split.
    - destruct (N.leb_spec 48 c); destruct (N.leb_spec c 57); try reflexivity; lia.
    - apply N.eqb_neq. lia. }
  destruct Hnd as [Hd Hu].
  revert acc b. induction r as [|x r IH]; intros acc b; [contradiction|].
  cbn [int_digits]. destruct Hin as [-> | Hin].
  - now rewrite Hd, Hu.
  - destruct (Py.isdigit x); [now apply IH|].
    destruct ((x =? 95)%N && b); [|reflexivity].
    destruct r as [|y r']; [reflexivity|]. destruct (Py.isdigit y); [now apply IH | reflexivity].
Qed.

Lemma letter_is_no_space c : ascii_letter c = true -> Py.isspace c = false.
Proof.
  intros Hc. apply ascii_letter_range in Hc. apply between_33_and_126_is_no_space. lia.
Qed.

Lemma In_strip c s : In c s -> Py.isspace c = false -> In c (Py.strip s).
Proof.
  intros Hin Hc. unfold Py.strip.
  destruct (lstrip_spec s) as (ws1 & Hs1 & Hws1).
  destruct (rstrip_spec (Py.lstrip s)) as (ws2 & Hs2 & Hws2).
  rewrite forallb_forall in Hws1, Hws2.
  rewrite Hs1 in Hin. apply in_app_or in Hin. destruct Hin as [Hin | Hin].
  - rewrite (Hws1 c Hin) in Hc. discriminate.
  - rewrite Hs2 in Hin. apply in_app_or in Hin. destruct Hin as [Hin | Hin]; [exact Hin|].
    rewrite (Hws2 c Hin) in Hc. discriminate.
Qed.

Lemma py_int_letter c s : In c s -> ascii_letter c = true -> py_int s = None.
Proof.
  intros Hin Hc. pose proof (In_strip c s Hin (letter_is_no_space c Hc)) as Hs.
  rewrite py_int_cases. destruct (Py.strip s) as [|h r]; [contradiction|].
  assert (Hne : (c =? 45)%N = false /\ (c =? 43)%N = false).
  { apply ascii_letter_range in Hc. split; apply N.eqb_neq; lia. }
  destruct Hne as [H45 H43].
  destruct (N.eqb_spec h 45) as [-> | _].
  - destruct Hs as [<- | Hs]; [discriminate H45|]. now rewrite (int_digits_letter c r).
  - destruct (N.eqb_spec h 43) as [-> | _].
    + destruct Hs as [<- | Hs]; [discriminate H43|]. now rewrite (int_digits_letter c r).
    + now rewrite (int_digits_letter c (h :: r)).
Qed.

End BadNames.

(** ** What a save writes *)

Section SaveFacts.

Variable E : Env.

Lemma fs_store_absent name e fs :
  fs_lookup name fs = None -> fs_store name e fs = fs ++ [(name, e)].
Proof.
  induction fs as [|[n e'] fs IH]; simpl; intros H; [reflexivity|].
  destruct (Py.eqb name n); [discriminate|]. now rewrite IH.
Qed.

Lemma fs_store_last name e e' fs :
  fs_lookup name fs = None -> fs_store name e' (fs ++ [(name, e)]) = fs ++ [(name, e')].
Proof.
  induction fs as [|[n e0] fs IH]; simpl; intros H.
  - now rewrite Py_eqb_refl.
  - destruct (Py.eqb name n); [discriminate|]. now rewrite IH.
Qed.

Lemma fs_lookup_app name a b :
  fs_lookup name (a ++ b)
  = match fs_lookup name a with Some e => Some e | None => fs_lookup name b end.
Proof.
  induction a as [|[n e] a IH]; cbn [app fs_lookup]; [reflexivity|].
  now destruct (Py.eqb name n).
Qed.

Lemma fs_lookup_last name e fs :
  fs_lookup name fs = None -> fs_lookup name (fs ++ [(name, e)]) = Some e.
Proof.
  intros H. rewrite <- (fs_store_absent name e fs H). apply fs_lookup_store_eq.
Qed.

(** A save without fault into a free slot appends the directory of the
    version, with the content and its checkpoint. *)
Lemma save_on_free_slot w out :
  auto_save (config w) = true -> file_manager w <> None -> OUTPUT_DIR w = Some out ->
  io_fault E (saves_tried w) = None ->
  fs_lookup (version_name (version (project_state w))) (disk w) = None ->
  fst (_save_current_version E w) = Ok tt
  /\ disk (snd (_save_current_version E w))
     = disk w ++ [(version_name (version (project_state w)),
                   EDir {| main_py := Some (universal_newlines (current_code (project_state w)));
                           checkpoint_json := Some (CkDoc (checkpoint_of E out w)) |})]
  /\ version (project_state (snd (_save_current_version E w)))
     = (version (project_state w) + 1)%Z
  /\ code (project_state (snd (_save_current_version E w)))
     = dict_set (path_join (path_join out (version_name (version (project_state w))))
                           (u "main.py"))
                (current_code (project_state w)) (code (project_state w)).
Proof.
  intros Hs Hfm Hout Hf Hl.
  unfold _save_current_version, bind, get. cbv beta iota.
  rewrite Hs. destruct (file_manager w) as [fm|] eqn:Efm; [|congruence].
  cbn [negb is_some orb]. unfold try_except, save_body, bind, get, modify.
  cbv beta iota. cbn [saves_tried set_saves_tried OUTPUT_DIR project_state disk].
  rewrite Hout, Hf.
  unfold mkdir_version, write_main, write_checkpoint, put_dir, bind, get, modify, ret, raise.
  cbn [fails fst snd disk set_disk set_saves_tried set_project_state project_state
       saves_tried config file_manager OUTPUT_DIR version set_version set_code
       current_code main_py checkpoint_json].
  rewrite Hl.
  cbn [fails fst snd disk set_disk set_saves_tried set_project_state project_state
       saves_tried config file_manager OUTPUT_DIR version set_version set_code
       current_code main_py checkpoint_json empty_dir].
  rewrite (fs_store_absent _ _ _ Hl), !(fs_store_last _ _ _ _ Hl).
  split; [reflexivity|]. split; [reflexivity|]. split; reflexivity.
Qed.

End SaveFacts.

(** ** Loading an existing project (C9) *)




(** The latest version is the greatest number, not the greatest name. *)
Example load_orders_numerically :
  let E := script_env [] [] in
  let dir c := EDir {| main_py := Some c; checkpoint_json := None |} in
  let r := load_existing_project E (u "/proj")
             (new_developer (u "") [(u "v10", dir (u "ten")); (u "v9", dir (u "nine"));
                                    (u "v2", dir (u "two"))]) in
  fst r = Ok true
  /\ current_code (project_state (snd r)) = u "ten"
  /\ version (project_state (snd r)) = 11%Z.
Proof. repeat split; vm_compute; reflexivity. Qed.

(** What [pathlib] makes of the project directory in the key of the code
    map. *)
Example path_join_examples :
  path_join (path_join (u "/proj/") (u "v2")) (u "main.py") = u "/proj/v2/main.py"
  /\ path_join (path_join (u "./out//demo") (u "v0")) (u "main.py") = u "out/demo/v0/main.py"
  /\ path_join (path_join (u ".") (u "v0")) (u "main.py") = u "v0/main.py"
  /\ path_join (path_join (u "//srv/p") (u "v0")) (u "main.py") = u "//srv/p/v0/main.py"
  /\ path_join (path_join (u "///srv/../p") (u "v0")) (u "main.py") = u "/srv/../p/v0/main.py".
Proof. repeat split; vm_compute; reflexivity. Qed.



(** X17. One directory of the project root whose name starts with [v] and
    goes on with text that holds a letter ([venv], [vendor], [v1-old]) is
    enough to make [load_existing_project] answer [False], whatever else
    the root holds; the project state is left as it was. *)
Theorem stray_directory_blocks_load (E : Env) (project_dir name : str) (w : world)
        (d : vdir) (c : N) :
  In (name, EDir d) (disk w) -> Py.startswith (u "v") name = true ->
  In c (skipn 1 name) -> ascii_letter c = true ->
  fst (load_existing_project E project_dir w) = Ok false
  /\ project_state (snd (load_existing_project E project_dir w)) = project_state w.
Proof.
  intros Hin Hv Hc Hl.
  assert (Hvd : In (name, d) (version_dirs (disk w))).
  { unfold version_dirs. apply in_flat_map. exists (name, EDir d). split; [exact Hin|].
    cbn [fst snd]. rewrite Hv. now left. }
  destruct (load_with_bad_name E project_dir w name d Hvd (py_int_letter c _ Hc Hl))
    as (w' & -> & Hps).
  split; [reflexivity | exact Hps].
Qed.

(** A virtual environment beside [v0]. *)
Lemma stray_directory_blocks_load_witness :
  let E := script_env [] [] in
  let dir c := EDir {| main_py := Some c; checkpoint_json := None |} in
  let w := new_developer (u "") [(u "v0", dir (u "print(0)")); (u "venv", EDir empty_dir)] in
  In (u "venv", EDir empty_dir) (disk w)
  /\ fst (load_existing_project E (u "/proj") w) = Ok false.
Proof.
  intros E dir w.
  assert (Hin : In (u "venv", EDir empty_dir) (disk w)) by (right; left; reflexivity).
  split; [exact Hin|].
  refine (proj1 (stray_directory_blocks_load E (u "/proj") (u "venv") w empty_dir 101%N
                   Hin eq_refl _ eq_refl)).
  left. reflexivity.
Defined.

(** X18. What [_save_current_version] writes, [load_existing_project] reads
    back.  After a save without fault into a project root whose version
    directories all have smaller numbers, a new developer that loads the
    directory the save wrote to holds the content saved as a read in text
    mode gives it: every [\r\n] and every other [\r] has become [\n], and
    a content without [\r] comes back as it was.  Its code map has that
    content under the path of the file written.  It holds the history and
    the feedback of the moment of the save, and the version counter the
    saving developer has after the save. *)
Theorem saved_version_is_loaded_back (E : Env) (project_dir initial_prompt : str) (w : world) :
  ready w -> OUTPUT_DIR w = Some project_dir ->
  io_fault E (saves_tried w) = None ->
  fs_lookup (version_name (version (project_state w))) (disk w) = None ->
  (forall c, fs_lookup (u "history") (disk w) <> Some (EFile c)) ->
  (forall name d, In (name, d) (version_dirs (disk w)) ->
                  exists k, py_int (skipn 1 name) = Some k
                            /\ (k < version (project_state w))%Z) ->
  path_exists E project_dir = true ->
  let w' := snd (_save_current_version E w) in
  let r := load_existing_project E project_dir (new_developer initial_prompt (disk w')) in
  let ps := project_state (snd r) in
  let main_file :=
    path_join (path_join project_dir (version_name (version (project_state w))))
              (u "main.py") in
  fst r = Ok true
  /\ current_code ps = universal_newlines (current_code (project_state w))
  /\ (~ In 13%N (current_code (project_state w)) ->
      current_code ps = current_code (project_state w))
  /\ code ps = [(main_file, universal_newlines (current_code (project_state w)))]
  /\ dict_get main_file (code (project_state w')) = Some (current_code (project_state w))
  /\ version ps = version (project_state w')
  /\ history ps = history (project_state w)
  /\ user_feedback ps = user_feedback (project_state w).
Proof.
  intros (Hs & Hfm & _) Eout Hf Hl Hhist Hold Hex. cbv zeta.
  destruct (save_on_free_slot E w project_dir Hs Hfm Eout Hf Hl) as (_ & Hdisk & Hver & Hcode).
  rewrite Hver, Hdisk, Hcode.
  set (name := version_name (version (project_state w))) in *.
  set (d := {| main_py := Some (universal_newlines (current_code (project_state w)));
               checkpoint_json := Some (CkDoc (checkpoint_of E project_dir w)) |}).
  set (wB := new_developer initial_prompt (disk w ++ [(name, EDir d)])).
  assert (Hvd : version_dirs (disk wB) = version_dirs (disk w) ++ [(name, d)]).
  { unfold wB. cbn [disk new_developer]. rewrite version_dirs_app. reflexivity. }
  rewrite (load_latest E project_dir wB name d (version (project_state w))).
  - cbn [main_py checkpoint_json d]. unfold loaded.
    cbn [fst snd project_state set_project_state current_code version history user_feedback
         code checkpoint_of ck_version ck_history ck_user_feedback or_default].
    split; [reflexivity|]. split; [reflexivity|].
    split; [intros Hcr; now apply universal_newlines_id|].
    split; [reflexivity|]. split; [now rewrite dict_get_set, Py_eqb_refl|].
    repeat split; reflexivity.
  - exact Hex.
  - intros c Hc. unfold wB in Hc. cbn [disk new_developer] in Hc.
    rewrite fs_lookup_app in Hc.
    destruct (fs_lookup (u "history") (disk w)) as [e|] eqn:Hh; [exact (Hhist c Hc)|].
    cbn [fs_lookup] in Hc. destruct (Py.eqb (u "history") name); discriminate.
  - rewrite Hvd. apply in_or_app. right. now left.
  - apply version_name_read_back_lemma.
  - intros n' d' Hin. rewrite Hvd in Hin. apply in_app_or in Hin.
    destruct Hin as [Hin | [Hin | []]].
    + right. exact (Hold n' d' Hin).
    + left. symmetry. exact Hin.
Qed.

(** The first save of a new project, with a content that has a line ended
    the DOS way. *)
Lemma saved_version_is_loaded_back_witness :
  let E := script_env [] [] in
  let w := snd (adopt [112; 97; 115; 115; 13; 10]%N ready_developer) in
  let w' := snd (_save_current_version E w) in
  let r := load_existing_project E (u "/proj") (new_developer (u "") (disk w')) in
  ready w
  /\ fst r = Ok true
  /\ current_code (project_state (snd r)) = u "pass\n"
  /\ code (project_state (snd r)) = [(u "/proj/v0/main.py", u "pass\n")]
  /\ version (project_state (snd r)) = 1%Z.
Proof.
  intros E w w' r.
  assert (Hr : ready w) by (repeat split; discriminate).
  split; [exact Hr|].
  destruct (saved_version_is_loaded_back E (u "/proj") (u "") w Hr eq_refl eq_refl eq_refl)
    as (H1 & H2 & _ & H3 & _ & H4 & _).
  - intros c Hc. discriminate Hc.
  - intros n d [].
  - reflexivity.
  - split; [exact H1|]. split; [exact H2|]. split; [exact H3 | exact H4].
Defined.

(** ** What the iteration loop keeps *)

Section Keeping.

Variable R : world -> world -> Prop.
Hypothesis R_refl : forall w, R w w.
Hypothesis R_trans : forall a b c, R a b -> R b c -> R a c.

Lemma keeps_ret {A} (a : A) : keeps R (ret a).
Proof. intros w. apply R_refl. Qed.

Lemma keeps_raise {A} e : keeps R (@raise A e).
Proof. intros w. apply R_refl. Qed.

Lemma keeps_get : keeps R get.
Proof. intros w. apply R_refl. Qed.

Lemma keeps_modify f : (forall w, R w (f w)) -> keeps R (modify f).
Proof. intros H w. apply H. Qed.

Lemma keeps_bind {A B} (m : M A) (k : A -> M B) :
  keeps R m -> (forall a, keeps R (k a)) -> keeps R (bind m k).
Proof.
  intros Hm Hk w. unfold bind. specialize (Hm w).
  destruct (m w) as [[a|e] w1]; cbn [snd] in *; [|exact Hm].
  eapply R_trans; [exact Hm | apply Hk].
Qed.

Lemma keeps_try {A} (m : M A) (h : exn -> M A) :
  keeps R m -> (forall e, keeps R (h e)) -> keeps R (try_except m h).
Proof.
  intros Hm Hh w. unfold try_except. specialize (Hm w).
  destruct (m w) as [[a|e] w1]; cbn [snd] in *; [exact Hm|].
  eapply R_trans; [exact Hm | apply Hh].
Qed.

(** The relation does not look at the counters of requests, waits and
    API calls. *)
Hypothesis R_inert : forall w w', same_store w w' -> R w w'.

Variable E : Env.

Lemma keeps_create : keeps R (create E).
Proof.
  intros w. unfold create. destruct (client_create E (requests_sent w)); apply R_inert; now repeat split.
Qed.

Lemma keeps__stream_output response : keeps R (_stream_output response).
Proof. intros w. rewrite _stream_output_world. apply R_refl. Qed.

Lemma keeps_call_ai_api_attempt prompt : keeps R (call_ai_api_attempt E prompt).
Proof.
  unfold call_ai_api_attempt. apply keeps_bind; [apply keeps_create|]. intros response.
  apply keeps_bind; [|intros; apply keeps__stream_output].
  apply keeps_modify. intros w. apply R_inert; now repeat split.
Qed.

Lemma keeps_retrying {A} (body : M A) : keeps R body ->
  forall fuel attempt_number, keeps R (retrying fuel attempt_number body).
Proof.
  intros Hb. induction fuel as [|fuel IH]; intros n; cbn [retrying];
    (apply keeps_try; [exact Hb|]); intros e;
    destruct (negb (retry_if_exception_type e)); try apply keeps_raise;
    destruct (stop_after_attempt <=? n)%Z; try apply keeps_raise.
  apply keeps_bind; [|intros; apply IH].
  apply keeps_modify. intros w. apply R_inert; now repeat split.
Qed.

Lemma keeps_call_ai_api prompt : keeps R (call_ai_api E prompt).
Proof. apply keeps_retrying, keeps_call_ai_api_attempt. Qed.

Lemma keeps__evaluate_code : keeps R (_evaluate_code E).
Proof. intros w. rewrite _evaluate_code_spec. apply R_inert; now repeat split. Qed.

Lemma keeps__get_improvement_suggestions : keeps R (_get_improvement_suggestions E).
Proof. intros w. rewrite _get_improvement_suggestions_spec. apply R_inert; now repeat split. Qed.

Lemma keeps_subscript_score ev : keeps R (subscript_score ev).
Proof.
  unfold subscript_score. destruct ev; try apply keeps_raise.
  destruct (dict_get _ _); [apply keeps_ret | apply keeps_raise].
Qed.

Lemma keeps_format_2f v : keeps R (format_2f v).
Proof. unfold format_2f. destruct v; first [apply keeps_ret | apply keeps_raise]. Qed.

Lemma keeps_score_ge v q : keeps R (score_ge v q).
Proof.
  unfold score_ge. destruct v; cbn [as_number]; first [apply keeps_ret | apply keeps_raise].
Qed.

Lemma keeps_final_report : keeps R (final_report E).
Proof.
  unfold final_report. apply keeps_bind; [apply keeps__evaluate_code|].
  intros [ev|]; [|apply keeps_ret]. destruct (json_truthy ev); [|apply keeps_ret].
  apply keeps_bind; [apply keeps_subscript_score|]. intros score.
  apply keeps_bind; [apply keeps_format_2f|]. intros _. apply keeps_ret.
Qed.

(** The loop and the run, for a relation that every pass keeps. *)
Section Passes.

Variable goals : str.
Hypothesis R_pass : forall min_score iteration_count,
  keeps R (iteration_try E goals min_score iteration_count).

Lemma keeps_iteration max_iter min_score iteration_count :
  keeps R (iteration E goals max_iter min_score iteration_count).
Proof.
  unfold iteration. apply keeps_try; [apply R_pass|].
  intros e. destruct (_ <? _)%Z; apply keeps_ret.
Qed.

Lemma keeps_while_loop max_iter min_score : forall fuel iteration_count w r w',
  while_loop E fuel goals max_iter min_score iteration_count w = Some (r, w') -> R w w'.
Proof.
  induction fuel as [|fuel IH]; intros c w r w' H; cbn [while_loop] in H.
  - destruct (c <? max_iter)%Z; [discriminate|]. injection H as _ <-. apply R_refl.
  - destruct (c <? max_iter)%Z; [|injection H as _ <-; apply R_refl].
    pose proof (keeps_iteration max_iter min_score c w) as Hk.
    destruct (iteration E goals max_iter min_score c w) as [[[c'| |v]|e] w1];
      cbn [snd] in Hk; try (injection H as _ <-; exact Hk).
    eapply R_trans; [exact Hk | eapply IH; eassumption].
Qed.

(** From the state in which the loop is entered to the final state. *)
Lemma keeps_run fuel w r w' fm :
  file_manager w = Some fm ->
  auto_iterative_development E fuel goals w = Some (r, w') ->
  R (entered goals w) w'.
Proof.
  intros Hfm H. unfold auto_iterative_development in H. rewrite Hfm in H. cbv zeta in H.
  fold (entered goals w) in H.
  match type of H with
  | context [while_loop E fuel goals ?mx ?mn 0 ?w1] =>
    pose proof (keeps_while_loop mx mn fuel 0%Z w1) as Hl;
    destruct (while_loop E fuel goals mx mn 0 w1) as [[[[c|v]|e] w2]|]; try discriminate
  end.
  - specialize (Hl _ _ eq_refl). pose proof (keeps_final_report w2) as Hf.
    injection H as H. rewrite H in Hf. cbn [snd] in Hf. eapply R_trans; eassumption.
  - injection H as _ <-. exact (Hl _ _ eq_refl).
  - injection H as _ <-. exact (Hl _ _ eq_refl).
Qed.

End Passes.

Hypothesis R_adopt : forall c, keeps R (adopt c).
Hypothesis R_save : keeps R (_save_current_version E).

Lemma keeps_iteration_try goals min_score iteration_count :
  keeps R (iteration_try E goals min_score iteration_count).
Proof.
  unfold iteration_try. destruct (iteration_count =? 0)%Z.
  - apply keeps_bind; [apply keeps_call_ai_api|]. intros c.
    destruct (Py.truthy c); [|apply keeps_ret].
    apply keeps_bind; [apply R_adopt|]. intros _.
    apply keeps_bind; [apply R_save|]. intros _. apply keeps_ret.
  - apply keeps_bind; [apply keeps__evaluate_code|]. intros [ev|]; [|apply keeps_ret].
    destruct (json_truthy ev); [|apply keeps_ret].
    apply keeps_bind; [apply keeps_subscript_score|]. intros score.
    apply keeps_bind; [apply keeps_format_2f|]. intros _.
    apply keeps_bind; [apply keeps_score_ge|]. intros [|]; [apply keeps_ret|].
    apply keeps_bind; [apply keeps__get_improvement_suggestions|].
    intros [imp|]; [|apply keeps_ret].
    destruct (_apply_improvements E (Some imp)); [|apply keeps_ret].
    apply keeps_bind; [apply R_adopt|]. intros _.
    apply keeps_bind; [apply R_save|]. intros _. apply keeps_ret.
Qed.

(** The same, for a relation that accepting a content and saving keep. *)
Lemma keeps_auto_iterative_development fuel goals w r w' fm :
  file_manager w = Some fm ->
  auto_iterative_development E fuel goals w = Some (r, w') ->
  R (set_project_state
       (set_user_feedback (user_feedback (project_state w) ++ [goals]) (project_state w)) w) w'.
Proof.
  intros Hfm H.
  exact (keeps_run goals (keeps_iteration_try goals) fuel w r w' fm Hfm H).
Qed.

End Keeping.

Section Notes.

Lemma same_notes_refl w : same_notes w w.
Proof. split; reflexivity. Qed.

Lemma same_notes_trans a b c : same_notes a b -> same_notes b c -> same_notes a c.
Proof. intros [H1 H2] [H3 H4]. split; congruence. Qed.

Lemma same_notes_inert w w' : same_store w w' -> same_notes w w'.
Proof. intros (H & _). unfold same_notes. now rewrite H. Qed.

Lemma same_notes_adopt c : keeps same_notes (adopt c).
Proof. intros w. split; reflexivity. Qed.

Lemma same_notes_save E : keeps same_notes (_save_current_version E).
Proof.
  intros w. unfold _save_current_version, bind, get. cbv beta iota.
  destruct (negb (auto_save (config w)) || negb (is_some (file_manager w)));
    [apply same_notes_refl|].
  unfold try_except, save_body, bind, get, modify.
  cbv beta iota. cbn [saves_tried set_saves_tried OUTPUT_DIR project_state disk].
  destruct (OUTPUT_DIR w) as [out|]; [|split; reflexivity].
  unfold mkdir_version, write_main, write_checkpoint, put_dir, bind, get, modify, ret, raise.
  destruct (io_fault E (saves_tried w)) as [[]|];
    cbn [fails fst snd disk set_disk set_saves_tried];
    try match goal with
        | |- context [fs_lookup ?n (disk w)] => destruct (fs_lookup n (disk w)) as [[|]|]
        end; split; reflexivity.
Qed.

End Notes.

Section EarlierVersions.

Lemma earlier_versions_kept_refl w : earlier_versions_kept w w.
Proof. split; [lia | reflexivity]. Qed.

Lemma earlier_versions_kept_trans a b c :
  earlier_versions_kept a b -> earlier_versions_kept b c -> earlier_versions_kept a c.
Proof.
  intros [H1 H2] [H3 H4]. split; [lia|]. intros name Hn.
  rewrite H4, H2; auto. intros z Hz. apply Hn. lia.
Qed.

Lemma earlier_versions_kept_inert w w' : same_store w w' -> earlier_versions_kept w w'.
Proof.
  intros (H1 & H2 & _). unfold earlier_versions_kept. rewrite H1, H2. split; [lia | reflexivity].
Qed.

Lemma earlier_versions_kept_adopt c : keeps earlier_versions_kept (adopt c).
Proof. intros w. split; [cbn; lia | reflexivity]. Qed.

Lemma earlier_versions_kept_save E : keeps earlier_versions_kept (_save_current_version E).
Proof.
  intros w. unfold _save_current_version, bind, get. cbv beta iota.
  destruct (negb (auto_save (config w)) || negb (is_some (file_manager w)));
    [apply earlier_versions_kept_refl|].
  unfold try_except, save_body, bind, get, modify.
  cbv beta iota. cbn [saves_tried set_saves_tried OUTPUT_DIR project_state disk].
  destruct (OUTPUT_DIR w) as [out|]; [|split; [cbn; lia | reflexivity]].
  unfold mkdir_version, write_main, write_checkpoint, put_dir, bind, get, modify, ret, raise.
  assert (Hn : forall name,
             (forall z, (version (project_state w) <= z)%Z -> name <> version_name z) ->
             name <> version_name (version (project_state w)))
    by (intros name H; apply H; lia).
  destruct (io_fault E (saves_tried w)) as [[]|];
    cbn [fails fst snd disk set_disk set_saves_tried];
    try match goal with
        | |- context [fs_lookup ?n (disk w)] => destruct (fs_lookup n (disk w)) as [[|]|]
        end;
    (split;
     [cbn; lia
     | intros name H; cbn; rewrite ?fs_lookup_store_ne by (apply Hn; exact H); reflexivity]).
Qed.

End EarlierVersions.

(** ** How [auto_iterative_development] ends *)

Section LoopResults.

Variable E : Env.

(** [call_ai_api] returns text that is not empty: the branch for a failed
    generation is never taken. *)
Lemma call_ai_api_attempt_result prompt w c w' :
  call_ai_api_attempt E prompt w = (Ok c, w') -> Py.truthy c = true.
Proof.
  unfold call_ai_api_attempt, bind, create, modify.
  destruct (client_create E (requests_sent w)) as [e | chunks broken]; [discriminate|].
  intros H. apply _stream_output_result in H. destruct H as (Hc & _).
  destruct c; [congruence | reflexivity].
Qed.

Lemma call_ai_api_result prompt w c w' :
  call_ai_api E prompt w = (Ok c, w') -> Py.truthy c = true.
Proof.
  rewrite call_ai_api_unrolled.
  destruct (call_ai_api_attempt E prompt w) as [[c1|e1] w1] eqn:A1.
  { intros H. injection H as <- _. eapply call_ai_api_attempt_result; eassumption. }
  destruct (retry_if_exception_type e1); [|discriminate].
  destruct (call_ai_api_attempt E prompt (wait_then w1)) as [[c2|e2] w2] eqn:A2.
  { intros H. injection H as <- _. eapply call_ai_api_attempt_result; eassumption. }
  destruct (retry_if_exception_type e2); [|discriminate].
  apply call_ai_api_attempt_result.
Qed.

Lemma iteration_try_never_returns goals min_score iteration_count w f w' :
  iteration_try E goals min_score iteration_count w = (Ok f, w') ->
  f = Next (iteration_count + 1) \/ f = Break.
Proof.
  intros H. destruct (iteration_try_flow E goals _ _ _ _ _ H) as [-> | [-> | ->]]; auto.
  exfalso. unfold iteration_try in H.
  destruct (iteration_count =? 0)%Z.
  - unfold bind at 1 in H.
    destruct (call_ai_api E goals w) as [[c|e] w1] eqn:Hc; [|discriminate].
    rewrite (call_ai_api_result _ _ _ _ Hc) in H.
    unfold bind, adopt, modify, ret in H.
    destruct (_save_current_version E _) as [[[]|e] w2]; discriminate.
  - revert H. unfold bind, ret, adopt, modify.
    repeat match goal with
           | |- context [match ?x with _ => _ end] => destruct x
           | |- context [if ?x then _ else _] => destruct x
           end; discriminate.
Qed.

Lemma iteration_never_returns goals max_iter min_score iteration_count w f w' :
  iteration E goals max_iter min_score iteration_count w = (Ok f, w') ->
  f = Next (iteration_count + 1) \/ f = Next iteration_count \/ f = Break.
Proof.
  unfold iteration, try_except.
  destruct (iteration_try E goals min_score iteration_count w) as [[f0|e] w1] eqn:H.
  - intros H'. injection H' as <- _.
    destruct (iteration_try_never_returns _ _ _ _ _ _ H); auto.
  - destruct (_ <? _)%Z; intros H'; injection H' as <- _; auto.
Qed.

Lemma while_loop_never_returns goals max_iter min_score : forall fuel iteration_count w r w',
  while_loop E fuel goals max_iter min_score iteration_count w = Some (r, w') ->
  exists c, r = Ok (Left c).
Proof.
  induction fuel as [|fuel IH]; intros c w r w' H; cbn [while_loop] in H.
  - destruct (c <? max_iter)%Z; [discriminate|]. injection H as <- _. eauto.
  - destruct (c <? max_iter)%Z; [|injection H as <- _; eauto].
    destruct (iteration E goals max_iter min_score c w) as [[f|e] w1] eqn:Hi.
    + destruct (iteration_never_returns _ _ _ _ _ _ _ Hi) as [-> | [-> | ->]];
        try (eapply IH; eassumption).
      injection H as <- _. eauto.
    + exfalso. unfold iteration, try_except in Hi.
      destruct (iteration_try E goals min_score c w) as [[f0|e0] w0]; [discriminate|].
      destruct (_ <? _)%Z; discriminate.
Qed.

(** Every report of the evaluator is a non-empty dictionary. *)
Lemma evaluation_of_truthy r ev : evaluation_of E r = Some ev -> json_truthy ev = true.
Proof.
  unfold evaluation_of.
  destruct r as [e | chunks [e|]]; try (intros H; injection H as <-; reflexivity).
  destruct (json_part _) as [js|]; [|discriminate].
  destruct (json_loads E js) as [d|].
  - destruct (_validate_evaluation_format d) eqn:Hv; [|discriminate].
    intros H. injection H as <-.
    unfold _validate_evaluation_format in Hv.
    destruct d as [| | | | | | |m]; try discriminate. destruct m; [discriminate | reflexivity].
  - intros H. injection H as <-. unfold _extract_scores_from_text.
    destruct (scan_scores _); reflexivity.
Qed.

(** The statements after the loop, by cases on the last evaluation. *)
Lemma final_report_cases w :
  final_report E w
  = let w' := set_requests_sent (S (requests_sent w)) w in
    match evaluation_of E (client_create E (requests_sent w)) with
    | None => (Ok (Some true), w')
    | Some ev =>
      match score_entry ev with
      | None => (match ev with
                 | JObj _ => Raise (KeyError (u "score"))
                 | _ => Raise TypeError
                 end, w')
      | Some v => match format_2f v w' with
                  | (Ok _, _) => (Ok (Some true), w')
                  | (Raise e, _) => (Raise e, w')
                  end
      end
    end.
Proof.
  unfold final_report. unfold bind at 1. rewrite _evaluate_code_spec. cbv zeta.
  destruct (evaluation_of E (client_create E (requests_sent w))) as [ev|] eqn:Hev;
    [|reflexivity].
  rewrite (evaluation_of_truthy _ _ Hev).
  unfold bind, subscript_score, score_entry.
  destruct ev as [| | | | | | |d]; try reflexivity.
  destruct (dict_get (u "score") d) as [v|]; [|reflexivity].
  unfold ret. destruct v; reflexivity.
Qed.

End LoopResults.

Lemma _save_current_version_never_raises (E : Env) (w : world) :
  exists w', _save_current_version E w = (Ok tt, w').
Proof.
  unfold _save_current_version, bind, get. cbv beta iota.
  destruct (_ || _); [unfold ret; eauto|].
  unfold try_except. destruct (save_body E w) as [[[]|e] w1]; unfold ret; eauto.
Qed.

(** ** What the controller saves (C4) *)

Section ControllerSaves.

Variable E : Env.

Lemma same_store_refl w : same_store w w.
Proof. repeat split. Qed.

Lemma same_store_trans a b c : same_store a b -> same_store b c -> same_store a c.
Proof.
  intros (H1 & H2 & H3 & H4 & H5 & H6) (K1 & K2 & K3 & K4 & K5 & K6).
  repeat split; congruence.
Qed.

(** The two statements that accept a content, followed by the end of the
    pass. *)
Lemma adopt_save_next c (f : flow) w :
  snd ((adopt c ;;; _save_current_version E ;;; ret f) w) = snd (adopt_and_save E c w).
Proof.
  unfold adopt_and_save, bind, adopt, modify.
  match goal with
  | |- context [_save_current_version E ?w0] =>
    destruct (_save_current_version_never_raises E w0) as (w1 & ->)
  end.
  reflexivity.
Qed.

(** One pass of the loop leaves the store alone, or accepts one content,
    which is not empty, and saves it. *)
Lemma pass_saves_nonempty goals min_score iteration_count w :
  let w' := snd (iteration_try E goals min_score iteration_count w) in
  same_store w w'
  \/ exists c w1, c <> [] /\ same_store w w1 /\ w' = snd (adopt_and_save E c w1).
Proof.
  cbv zeta. remember (snd (iteration_try E goals min_score iteration_count w)) as w' eqn:Hw'.
  unfold iteration_try in Hw'. destruct (iteration_count =? 0)%Z.
  - assert (Hk : keeps same_store (call_ai_api E goals)).
    { apply keeps_call_ai_api; [exact same_store_refl | exact same_store_trans | auto]. }
    specialize (Hk w). unfold bind at 1 in Hw'.
    destruct (call_ai_api E goals w) as [[c|e] w1] eqn:Hc; cbn [snd] in Hk, Hw';
      [|subst w'; left; exact Hk].
    pose proof (call_ai_api_result E _ _ _ _ Hc) as Ht. rewrite Ht in Hw'.
    rewrite adopt_save_next in Hw'. right. exists c, w1.
    split; [destruct c; discriminate|]. split; [exact Hk | exact Hw'].
  - unfold bind at 1 in Hw'. rewrite _evaluate_code_spec in Hw'.
    set (wa := set_requests_sent (S (requests_sent w)) w) in *.
    assert (Ha : same_store w wa) by (repeat split).
    destruct (evaluation_of E _) as [ev|]; [|subst w'; left; exact Ha].
    destruct (json_truthy ev); [|subst w'; left; exact Ha].
    unfold bind at 1 in Hw'.
    pose proof (keeps_subscript_score (fun a b => b = a) (fun _ => eq_refl) ev wa) as H1.
    destruct (subscript_score ev wa) as [[score|e] wb]; cbn [snd] in H1; subst wb;
      [|subst w'; left; exact Ha].
    unfold bind at 1 in Hw'.
    pose proof (keeps_format_2f (fun a b => b = a) (fun _ => eq_refl) score wa) as H2.
    destruct (format_2f score wa) as [[[]|e] wb]; cbn [snd] in H2; subst wb;
      [|subst w'; left; exact Ha].
    unfold bind at 1 in Hw'.
    pose proof (keeps_score_ge (fun a b => b = a) (fun _ => eq_refl) score min_score wa) as H3.
    destruct (score_ge score min_score wa) as [[[|]|e] wb]; cbn [snd] in H3; subst wb;
      [subst w'; left; exact Ha | | subst w'; left; exact Ha].
    unfold bind at 1 in Hw'. rewrite _get_improvement_suggestions_spec in Hw'.
    set (wc := set_requests_sent (S (requests_sent wa)) wa) in *.
    assert (Hc : same_store w wc) by (repeat split).
    destruct (suggestion_of _) as [imp|]; [|subst w'; left; exact Hc].
    destruct (_apply_improvements E (Some imp)) as [improved|] eqn:Hi;
      [|subst w'; left; exact Hc].
    rewrite adopt_save_next in Hw'. right. exists improved, wc.
    split; [|split; [exact Hc | exact Hw']].
    unfold _apply_improvements in Hi.
    destruct (Py.truthy imp) eqn:Ht; cbn [negb] in Hi; [|discriminate].
    destruct (validate_code E imp); [|discriminate].
    injection Hi as <-. destruct imp; discriminate.
Qed.

(** Counting the saves that meet no fault, piece by piece. *)
Lemma successful_saves_app a : forall n0 b,
  successful_saves E n0 (a + b)
  = successful_saves E n0 a + successful_saves E (n0 + a) b.
Proof.
  induction a as [|a IH]; intros n0 b; cbn [Nat.add successful_saves].
  - now rewrite Nat.add_0_r.
  - rewrite IH. replace (S n0 + a) with (n0 + S a) by lia. lia.
Qed.

Lemma saved_same_store N w w' : same_store w w' -> saved N w -> saved N w'.
Proof.
  intros (H1 & H2 & H3 & H4 & H5 & H6).
  unfold saved, ready, slot_free_or_dir. now rewrite H1, H2, H4, H5, H6.
Qed.

Lemma counts_saves_refl w : counts_saves E w w.
Proof.
  intros N H. split; [lia|]. rewrite Nat.sub_diag. cbn [successful_saves].
  now rewrite Nat.add_0_r.
Qed.

Lemma counts_saves_trans a b c :
  counts_saves E a b -> counts_saves E b c -> counts_saves E a c.
Proof.
  intros H1 H2 N HN. destruct (H1 N HN) as [L1 S1]. destruct (H2 _ S1) as [L2 S2].
  split; [lia|].
  replace (saves_tried c - saves_tried a)
    with ((saves_tried b - saves_tried a) + (saves_tried c - saves_tried b)) by lia.
  rewrite successful_saves_app.
  replace (saves_tried a + (saves_tried b - saves_tried a)) with (saves_tried b) by lia.
  now rewrite Nat.add_assoc.
Qed.

Lemma counts_saves_inert w w' : same_store w w' -> counts_saves E w w'.
Proof.
  intros H N HN. pose proof H as (_ & _ & Ht & _). rewrite Ht. split; [lia|].
  rewrite Nat.sub_diag. cbn [successful_saves]. rewrite Nat.add_0_r.
  now apply (saved_same_store N w).
Qed.

Lemma counts_saves_adopt_and_save c w :
  c <> [] -> counts_saves E w (snd (adopt_and_save E c w)).
Proof.
  intros Hc N HN. destruct (adopt_and_save_step E N c w HN Hc) as (Ht & Hcase).
  rewrite Ht. split; [lia|].
  replace (S (saves_tried w) - saves_tried w) with 1 by lia. cbn [successful_saves].
  destruct (io_fault E (saves_tried w)) as [f|].
  - now rewrite !Nat.add_0_r.
  - replace (N + (1 + 0)) with (S N) by lia. apply Hcase.
Qed.

Lemma counts_saves_pass goals min_score iteration_count :
  keeps (counts_saves E) (iteration_try E goals min_score iteration_count).
Proof.
  intros w.
  destruct (pass_saves_nonempty goals min_score iteration_count w)
    as [H | (c & w1 & Hc & H1 & ->)].
  - now apply counts_saves_inert.
  - eapply counts_saves_trans; [apply counts_saves_inert; exact H1|].
    now apply counts_saves_adopt_and_save.
Qed.

(** A whole run of the controller, from a state with [N] saved versions. *)
Lemma counts_saves_run fuel goals w r w' :
  auto_iterative_development E fuel goals w = Some (r, w') -> counts_saves E w w'.
Proof.
  intros H. destruct (file_manager w) as [fm|] eqn:Efm.
  - pose proof (keeps_run (counts_saves E) counts_saves_refl counts_saves_trans
                  counts_saves_inert E goals (counts_saves_pass goals) fuel w r w' fm Efm H)
      as Hk.
    intros N HN. apply (Hk N). exact HN.
  - unfold auto_iterative_development in H. rewrite Efm in H. injection H as _ <-.
    apply counts_saves_refl.
Qed.

End ControllerSaves.

(** C4, as the code has it.  Starting from version 0 on a project root
    without version directories, a run of saves of non-empty content
    leaves the version counter equal to the number [N] of saves that met
    no fault; each of [v0], ..., [v(N-1)] holds a non-empty main file; no
    directory [vK] with [K] above [N] exists; [vN] is absent or a
    directory, and it is absent right after a save that met no fault:
    then [v0], ..., [v(N-1)] are exactly the version directories.  When no
    save met a fault, [N] is the number of saves.  A save that meets a
    fault never moves the counter.  The same holds of every run of the
    controller that ends, with [N] the number of its saves that met no
    fault: the controller saves no content that is empty. *)
Theorem version_counts_successful_saves (E : Env) (w0 : world) (contents : list str) :
  ready w0 -> version (project_state w0) = 0%Z ->
  (forall z, fs_lookup (version_name z) (disk w0) = None) ->
  Forall (fun c => c <> []) contents ->
  let w := save_all E contents w0 in
  let N := successful_saves E (saves_tried w0) (length contents) in
  version (project_state w) = Z.of_nat N
  /\ (forall z, (0 <= z < Z.of_nat N)%Z -> has_main (disk w) z)
  /\ (forall z, (z < 0 \/ Z.of_nat N < z)%Z -> fs_lookup (version_name z) (disk w) = None)
  /\ slot_free_or_dir w
  /\ (contents = [] \/ io_fault E (saves_tried w0 + (length contents - 1)) = None ->
      forall z, (exists d, fs_lookup (version_name z) (disk w) = Some (EDir d))
                <-> (0 <= z < Z.of_nat N)%Z)
  /\ ((forall i, i < length contents -> io_fault E (saves_tried w0 + i) = None) ->
      N = length contents)
  /\ (forall w1, io_fault E (saves_tried w1) <> None ->
      version (project_state (snd (_save_current_version E w1)))
      = version (project_state w1))
  /\ (forall fuel goals r w',
        auto_iterative_development E fuel goals w0 = Some (r, w') ->
        let N' := successful_saves E (saves_tried w0) (saves_tried w' - saves_tried w0) in
        version (project_state w') = Z.of_nat N'
        /\ (forall z, (0 <= z < Z.of_nat N')%Z -> has_main (disk w') z)
        /\ (forall z, (z < 0 \/ Z.of_nat N' < z)%Z ->
                      fs_lookup (version_name z) (disk w') = None)
        /\ slot_free_or_dir w').
Proof.
  intros Hr Hv Hfresh Hc. cbv zeta.
  assert (H0 : saved 0 w0).
  { repeat split; try apply Hr; auto.
    - intros z Hz. simpl in Hz. lia.
    - left. apply Hfresh. }
  pose proof (save_all_saved E contents 0 w0 H0 Hc) as Hs. simpl in Hs.
  destruct Hs as (Hr' & Hv' & Hlow & Hhigh & Hslot).
  split; [exact Hv'|]. split; [exact Hlow|]. split; [exact Hhigh|]. split; [exact Hslot|].
  split; [|split; [|split]].
  - intros Hlast.
    assert (Hfree : fs_lookup
                      (version_name
                         (Z.of_nat (successful_saves E (saves_tried w0) (length contents))))
                      (disk (save_all E contents w0)) = None).
    { destruct Hlast as [-> | Hlast]; [apply Hfresh|].
      destruct contents as [|c cs]; [apply Hfresh|].
      apply (save_all_last_ok E (c :: cs) 0 w0 H0 Hc ltac:(discriminate) Hlast). }
    intros z. split.
    + intros (d & Hd).
      destruct (Z_lt_ge_dec z 0) as [Hneg | Hpos];
        [rewrite Hhigh in Hd by lia; discriminate|].
      destruct (Z_lt_ge_dec z (Z.of_nat (successful_saves E (saves_tried w0) (length contents))))
        as [Hlt | Hge]; [lia|].
      destruct (Z.eq_dec z (Z.of_nat (successful_saves E (saves_tried w0) (length contents))))
        as [-> | Hne].
      * rewrite Hfree in Hd. discriminate.
      * rewrite Hhigh in Hd by lia. discriminate.
    + intros Hz. destruct (Hlow z Hz) as (d & c & Hd & _). now exists d.
  - apply successful_saves_all.
  - intros w1. apply failed_save_keeps_version.
  - intros fuel goals r w' Hrun.
    destruct (counts_saves_run E fuel goals w0 r w' Hrun 0 H0) as (_ & Hs).
    cbn [Nat.add] in Hs. destruct Hs as (_ & Hv2 & Hlow2 & Hhigh2 & Hslot2).
    repeat split; assumption.
Qed.

(** Two saves without fault on a fresh project. *)
Lemma version_counts_successful_saves_witness :
  let E := script_env [] [] in
  let w := save_all E [u "print(1)"; u "print(2)"] ready_developer in
  ready ready_developer
  /\ version (project_state w) = 2%Z
  /\ has_main (disk w) 0 /\ has_main (disk w) 1
  /\ fs_lookup (u "v2") (disk w) = None.
Proof.
  intros E w.
  assert (Hr : ready ready_developer) by (repeat split; discriminate).
  assert (Hfresh : forall z, fs_lookup (version_name z) (disk ready_developer) = None)
    by (intros z; reflexivity).
  assert (Hc : Forall (fun c : str => c <> []) [u "print(1)"; u "print(2)"])
    by (repeat constructor; discriminate).
  destruct (version_counts_successful_saves E ready_developer _ Hr eq_refl Hfresh Hc)
    as (Hv & Hmain & _).
  split; [exact Hr|]. split; [exact Hv|].
  split; [apply Hmain; simpl; lia|]. split; [apply Hmain; simpl; lia|].
  reflexivity.
Defined.

(** The claim C4 as stated fails: after one save without fault and one
    save that fails when the checkpoint is written, one save has
    succeeded and the counter is 1, but the directories are [v0] and
    [v1], and [v1] holds a main file that is not empty. *)
Lemma failed_save_leaves_its_directory :
  let E := faulty_env 1 FaultDumpCheckpoint in
  let w := save_all E [u "print(1)"; u "print(2)"] ready_developer in
  successful_saves E (saves_tried ready_developer) 2 = 1
  /\ version (project_state w) = 1%Z
  /\ fs_lookup (u "v0") (disk w)
     = Some (EDir {| main_py := Some (u "print(1)");
                     checkpoint_json :=
                       Some (CkDoc (checkpoint_of E (u "/proj")
                                      (snd (adopt (u "print(1)") ready_developer)))) |})
  /\ fs_lookup (u "v1") (disk w)
     = Some (EDir {| main_py := Some (u "print(2)"); checkpoint_json := Some CkUnreadable |}).
Proof. repeat split; vm_compute; reflexivity. Qed.

(** A fault at the first save: the retry writes version 0 again. *)
Example retried_save_reuses_version :
  let E := {| client_create := scripted [];
              json_loads := Json.loads;
              py_compile := fun _ => true;
              io_fault := fun n => match n with O => Some FaultDumpCheckpoint | _ => None end;
              time_time := fun n => inject_Z (Z.of_nat n);
              path_exists := fun _ => true;
              md5_hexdigest := fun _ => u "" |} in
  let w1 := snd (adopt_and_save E (u "print(1)") ready_developer) in
  let w2 := snd (adopt_and_save E (u "print(2)") w1) in
  version (project_state w1) = 0%Z
  /\ fs_lookup (u "v0") (disk w1)
     = Some (EDir {| main_py := Some (u "print(1)"); checkpoint_json := Some CkUnreadable |})
  /\ version (project_state w2) = 1%Z
  /\ option_map (fun e => match e with EDir d => main_py d | EFile _ => None end)
                (fs_lookup (u "v0") (disk w2)) = Some (Some (u "print(2)"))
  /\ fs_lookup (u "v1") (disk w2) = None.
Proof. repeat split; vm_compute; reflexivity. Qed.

Lemma evaluation_of_dict (E : Env) r ev :
  evaluation_of E r = Some ev -> exists d, ev = JObj d.
Proof.
  unfold evaluation_of.
  destruct r as [e | chunks [e|]]; try (intros H; injection H as <-; unfold _get_default_evaluation; eauto).
  destruct (json_part _) as [js|]; [|discriminate].
  destruct (json_loads E js) as [d|].
  - destruct (_validate_evaluation_format d) eqn:Hv; [|discriminate].
    intros H. injection H as <-.
    destruct d as [| | | | | | |m]; try discriminate. eauto.
  - intros H. injection H as <-. unfold _extract_scores_from_text.
    destruct (scan_scores _); unfold _get_default_evaluation; eauto.
Qed.

(** X19. What [call_ai_api] returns is code that is not empty and has no
    white space at either end.  The branch of the loop for a failed
    generation is therefore never taken: [auto_iterative_development]
    never returns [False]; it returns nothing exactly when the file manager
    is missing, and then changes nothing. *)
Theorem generation_never_fails_silently (E : Env) (fuel : nat) (goals : str) (w w' : world) :
  (forall c w1, call_ai_api E goals w = (Ok c, w1) -> c <> [] /\ Py.strip c = c)
  /\ (forall r, auto_iterative_development E fuel goals w = Some (Ok r, w') ->
                match file_manager w with
                | None => r = None /\ w' = w
                | Some _ => r = Some true
                end).
Proof.
  split.
  - intros c w1. rewrite call_ai_api_unrolled.
    assert (A : forall w0 c0 w2, call_ai_api_attempt E goals w0 = (Ok c0, w2) ->
                                 c0 <> [] /\ Py.strip c0 = c0).
    { intros w0 c0 w2. unfold call_ai_api_attempt, bind, create, modify.
      destruct (client_create E (requests_sent w0)); [discriminate|].
      intros H. apply _stream_output_result in H. tauto. }
    destruct (call_ai_api_attempt E goals w) as [[c1|e1] w2] eqn:A1.
    { intros H. injection H as <- _. eapply A; eassumption. }
    destruct (retry_if_exception_type e1); [|discriminate].
    destruct (call_ai_api_attempt E goals (wait_then w2)) as [[c2|e2] w3] eqn:A2.
    { intros H. injection H as <- _. eapply A; eassumption. }
    destruct (retry_if_exception_type e2); [|discriminate].
    apply A.
  - intros r H. unfold auto_iterative_development in H.
    destruct (file_manager w) as [fm|]; [|injection H as <- <-; auto].
    cbv zeta in H.
    match type of H with
    | context [while_loop E fuel goals ?mx ?mn 0 ?w1] =>
      pose proof (while_loop_never_returns E goals mx mn fuel 0%Z w1) as Hl;
      destruct (while_loop E fuel goals mx mn 0 w1) as [[r2 w2]|]; [|discriminate]
    end.
    destruct (Hl _ _ eq_refl) as (c & ->).
    injection H as H. rewrite final_report_cases in H. cbv zeta in H.
    destruct (evaluation_of E _) as [ev|]; [|now injection H as <- _].
    destruct (score_entry ev) as [v|].
    + destruct (format_2f v _) as [[[]|e] w3]; [now injection H as <- _ | discriminate].
    + destruct ev; discriminate.
Qed.

(** Five passes, then the last evaluation: the run returns [True]. *)
Lemma generation_never_fails_silently_witness :
  exists w', auto_iterative_development fenced_block_env 5 (u "todo app") ready_developer
             = Some (Ok (Some true), w').
Proof.
  assert (H : exists rw, auto_iterative_development fenced_block_env 5 (u "todo app")
                           ready_developer = Some rw)
    by (vm_compute; eauto).
  destruct H as ([[r|e] w'] & H).
  - exists w'. rewrite H. do 2 f_equal.
    pose proof (proj2 (generation_never_fails_silently fenced_block_env 5 (u "todo app")
                         ready_developer w') r H) as Hr.
    change (file_manager ready_developer) with (Some {| root_dir := u "/proj" |}) in Hr.
    now rewrite Hr.
  - exfalso. revert H. vm_compute. discriminate.
Defined.

(** X20. A run of [auto_iterative_development] that comes to its end is
    decided by the last evaluation alone.  When the evaluator returns
    nothing, the result is [True]; when it returns a report without the key
    [score] (the default report, and every report in the format the prompt
    asks for), the run ends in the [KeyError] of [final_evaluation['score']],
    which nothing catches; with a [score], the result is [True] unless the
    score cannot be formatted. *)
Theorem run_ends_as_last_evaluation_decides (E : Env) (fuel : nat) (goals : str)
        (w w' : world) (r : result (option bool)) :
  file_manager w <> None ->
  auto_iterative_development E fuel goals w = Some (r, w') ->
  exists n, requests_sent w' = S n
            /\ match evaluation_of E (client_create E n) with
               | None => r = Ok (Some true)
               | Some ev =>
                 match score_entry ev with
                 | None => r = Raise (KeyError (u "score"))
                 | Some v => match fst (format_2f v w') with
                             | Ok _ => r = Ok (Some true)
                             | Raise e => r = Raise e
                             end
                 end
               end.
Proof.
  intros Hfm H. unfold auto_iterative_development in H.
  destruct (file_manager w) as [fm|]; [|congruence]. cbv zeta in H.
  match type of H with
  | context [while_loop E fuel goals ?mx ?mn 0 ?w1] =>
    pose proof (while_loop_never_returns E goals mx mn fuel 0%Z w1) as Hl;
    destruct (while_loop E fuel goals mx mn 0 w1) as [[r2 w2]|]; [|discriminate]
  end.
  destruct (Hl _ _ eq_refl) as (c & ->).
  injection H as H. rewrite final_report_cases in H. cbv zeta in H.
  exists (requests_sent w2).
  destruct (evaluation_of E (client_create E (requests_sent w2))) as [ev|] eqn:Hev.
  - destruct (evaluation_of_dict E _ _ Hev) as (d & ->).
    destruct (score_entry (JObj d)) as [v|].
    + assert (Hw : forall w0 w1, fst (format_2f v w0) = fst (format_2f v w1))
        by (intros; unfold format_2f; destruct v; reflexivity).
      rewrite (Hw w' (set_requests_sent (S (requests_sent w2)) w2)).
      destruct (format_2f v _) as [[[]|e] w3]; injection H as <- <-; split; reflexivity.
    + injection H as <- <-. split; reflexivity.
  - injection H as <- <-. split; reflexivity.
Qed.

(** One pass, then a last evaluation that times out: the default report has no [score]. *)
Lemma run_ends_as_last_evaluation_decides_witness :
  let E := script_env [generation_reply] [] in
  let w := set_config {| max_iterations := 1; min_improvement_score := (7 # 10)%Q;
                         auto_save := true; current_api_calls := 0 |} ready_developer in
  file_manager w <> None
  /\ exists w', auto_iterative_development E 1 (u "todo app") w
                = Some (Raise (KeyError (u "score")), w').
Proof.
  intros E w.
  assert (Hfm : file_manager w <> None) by discriminate.
  split; [exact Hfm|].
  assert (H : exists rw, auto_iterative_development E 1 (u "todo app") w = Some rw)
    by (vm_compute; eauto).
  destruct H as ([r w'] & H). exists w'. rewrite H. do 2 f_equal.
  destruct (run_ends_as_last_evaluation_decides E 1 (u "todo app") w w' r Hfm H)
    as (n & Hn & Hr).
  assert (Hreq : requests_sent w' = 2) by (revert H; vm_compute; intros H; now injection H as _ <-).
  rewrite Hreq in Hn. injection Hn as <-.
  exact Hr.
Defined.

(** X21. [auto_iterative_development] never writes to the history.  When
    the developer has a file manager, the run adds exactly one entry to
    the user feedback: the goals it was given.  When it has none, the call
    returns nothing and changes nothing: the goals are not added.  This
    holds for every run that ends, however it ends. *)
Theorem run_keeps_history_and_adds_goals (E : Env) (fuel : nat) (goals : str)
        (w w' : world) (r : result (option bool)) :
  auto_iterative_development E fuel goals w = Some (r, w') ->
  history (project_state w') = history (project_state w)
  /\ match file_manager w with
     | Some _ =>
       user_feedback (project_state w') = user_feedback (project_state w) ++ [goals]
     | None => r = Ok None /\ w' = w
     end.
Proof.
  intros H. destruct (file_manager w) as [fm|] eqn:Efm.
  - exact (keeps_auto_iterative_development same_notes same_notes_refl same_notes_trans
             same_notes_inert E same_notes_adopt (same_notes_save E) fuel goals w r w' fm Efm H).
  - unfold auto_iterative_development in H. rewrite Efm in H.
    injection H as <- <-. repeat split; reflexivity.
Qed.

(** A run of five passes with a file manager, and a call without one. *)
Lemma run_keeps_history_and_adds_goals_witness :
  (exists r w', auto_iterative_development fenced_block_env 5 (u "todo app") ready_developer
                = Some (r, w')
                /\ history (project_state w') = []
                /\ user_feedback (project_state w') = [u "todo app"])
  /\ (exists r w', auto_iterative_development fenced_block_env 5 (u "todo app")
                     (new_developer (u "") []) = Some (r, w')
                   /\ r = Ok None
                   /\ user_feedback (project_state w') = []).
Proof.
  split.
  - assert (H : exists rw, auto_iterative_development fenced_block_env 5 (u "todo app")
                             ready_developer = Some rw)
      by (vm_compute; eauto).
    destruct H as ([r w'] & H). exists r, w'. split; [exact H|].
    exact (run_keeps_history_and_adds_goals fenced_block_env 5 (u "todo app")
             ready_developer w' r H).
  - exists (Ok None), (new_developer (u "") []).
    assert (H : auto_iterative_development fenced_block_env 5 (u "todo app")
                  (new_developer (u "") []) = Some (Ok None, new_developer (u "") []))
      by reflexivity.
    split; [exact H|].
    destruct (run_keeps_history_and_adds_goals fenced_block_env 5 (u "todo app")
                (new_developer (u "") []) _ _ H) as (_ & Hr & _).
    split; [exact Hr | reflexivity].
Defined.

(** X22. [auto_iterative_development] never lowers the version counter,
    and of the entries of the project root it changes none but the
    directories [v<n>] with [n] at or above the counter it started with:
    earlier versions and all other files are as they were, however the
    run ends. *)
Theorem run_keeps_earlier_versions (E : Env) (fuel : nat) (goals : str)
        (w w' : world) (r : result (option bool)) :
  auto_iterative_development E fuel goals w = Some (r, w') ->
  (version (project_state w) <= version (project_state w'))%Z
  /\ forall name,
       (forall z, (version (project_state w) <= z)%Z -> name <> version_name z) ->
       fs_lookup name (disk w') = fs_lookup name (disk w).
Proof.
  intros H. destruct (file_manager w) as [fm|] eqn:Efm.
  - exact (keeps_auto_iterative_development earlier_versions_kept earlier_versions_kept_refl
             earlier_versions_kept_trans earlier_versions_kept_inert E
             earlier_versions_kept_adopt (earlier_versions_kept_save E)
             fuel goals w r w' fm Efm H).
  - unfold auto_iterative_development in H. rewrite Efm in H. injection H as _ <-.
    split; [lia | reflexivity].
Qed.

(** A run that starts at version 1 leaves [v0] alone. *)
Lemma run_keeps_earlier_versions_witness :
  let dir c := EDir {| main_py := Some c; checkpoint_json := None |} in
  let w := set_project_state (set_version 1 (project_state ready_developer))
             (set_disk [(u "history", EDir empty_dir); (u "v0", dir (u "print(0)"))]
                       ready_developer) in
  exists r w', auto_iterative_development fenced_block_env 5 (u "todo app") w = Some (r, w')
               /\ fs_lookup (u "v0") (disk w') = Some (dir (u "print(0)"))
               /\ (1 <= version (project_state w'))%Z.
Proof.
  intros dir w.
  assert (H : exists rw, auto_iterative_development fenced_block_env 5 (u "todo app") w = Some rw)
    by (vm_compute; eauto).
  destruct H as ([r w'] & H). exists r, w'. split; [exact H|].
  destruct (run_keeps_earlier_versions fenced_block_env 5 (u "todo app") w w' r H) as [Hv Hn].
  split; [|exact Hv].
  rewrite (Hn (u "v0")); [reflexivity|].
  intros z Hz Heq. change (u "v0") with (version_name 0) in Heq.
  apply version_name_inj in Heq. change (version (project_state w)) with 1%Z in Hz. lia.
Defined.

(** When no pass of the run raises inside its [try], the passes allowed
    by [max_iterations] are enough for the loop to end. *)
Lemma while_loop_ends_when_no_pass_raises (E : Env) goals max_iter min_score :
  forall fuel iteration_count w,
    (max_iter - iteration_count <= Z.of_nat fuel)%Z ->
    no_pass_raises E fuel goals max_iter min_score iteration_count w = true ->
    exists r, while_loop E fuel goals max_iter min_score iteration_count w = Some r.
Proof.
  induction fuel as [|fuel IH]; intros c w Hfuel Hno; cbn [while_loop no_pass_raises] in *.
  - destruct (Z.ltb_spec c max_iter) as [Hlt | Hge]; [lia | eauto].
  - destruct (Z.ltb_spec c max_iter) as [Hlt | Hge]; [|eauto].
    unfold iteration, try_except.
    destruct (iteration_try E goals min_score c w) as [[f|e] w'] eqn:Hrun; [|discriminate].
    destruct (iteration_try_flow E goals _ _ _ _ _ Hrun) as [-> | [-> | ->]]; eauto.
    apply IH; [lia | exact Hno].
Qed.

(** X23. When, along the run that starts in the state at hand, no pass
    through the body of the loop raises inside its [try], the loop ends
    within [max_iterations] passes, and [auto_iterative_development] comes
    to its end.  The condition is on the passes of this run only; it can
    be checked by running them. *)
Theorem run_ends_when_no_pass_raises (E : Env) (goals : str) (w : world) :
  no_pass_raises E (Z.to_nat (max_iterations (config w))) goals (max_iterations (config w))
                 (min_improvement_score (config w)) 0 (entered goals w) = true ->
  exists rw, auto_iterative_development E (Z.to_nat (max_iterations (config w))) goals w
             = Some rw.
Proof.
  intros Hno. unfold auto_iterative_development.
  destruct (file_manager w) as [fm|]; [|eauto]. cbv zeta.
  fold (entered goals w).
  change (config (entered goals w)) with (config w).
  assert (Hfuel : (max_iterations (config w) - 0
                   <= Z.of_nat (Z.to_nat (max_iterations (config w))))%Z) by lia.
  destruct (while_loop_ends_when_no_pass_raises E goals _ _ _ 0%Z _ Hfuel Hno)
    as ([r2 w2] & ->).
  destruct r2 as [[c|v]|e]; eauto.
Qed.

(** An ordinary endpoint: code at the first request, then evaluations
    whose score reaches the threshold.  The second pass leaves the loop. *)
Lemma run_ends_when_no_pass_raises_witness :
  let E := script_env [generation_reply; passing_reply; passing_reply] [] in
  no_pass_raises E 5 (u "todo app") 5 (7 # 10)%Q 0 (entered (u "todo app") ready_developer)
  = true
  /\ exists rw, auto_iterative_development E 5 (u "todo app") ready_developer = Some rw.
Proof.
  intros E.
  assert (Hno : no_pass_raises E 5 (u "todo app") 5 (7 # 10)%Q 0
                               (entered (u "todo app") ready_developer) = true)
    by (vm_compute; reflexivity).
  split; [exact Hno|].
  exact (run_ends_when_no_pass_raises E (u "todo app") ready_developer Hno).
Defined.

(** The run of that endpoint: two passes, three requests, the result
    [True]. *)
Example ordinary_run_ends :
  let E := script_env [generation_reply; passing_reply; passing_reply] [] in
  option_map (fun rw => (fst rw, requests_sent (snd rw), version (project_state (snd rw))))
             (auto_iterative_development E 5 (u "todo app") ready_developer)
  = Some (Ok (Some true), 3, 1%Z).
Proof. vm_compute. reflexivity. Qed.

(** ** The validator: white space and markers *)

Section MarkerFacts.

Lemma strip_markers_strip code : strip_markers (Py.strip code) = strip_markers code.
Proof. unfold strip_markers. now rewrite strip_strip. Qed.

(** Text that starts with a character that is no white space keeps it
    through [strip]. *)
Lemma strip_keeps_head c t :
  Py.isspace c = false -> exists t', Py.strip (c :: t) = c :: t'.
Proof.
  intros Hc. unfold Py.strip. cbn [Py.lstrip]. rewrite Hc.
  destruct (rstrip_spec (c :: t)) as (ws & Hs & Hws).
  destruct (Py.rstrip (c :: t)) as [|x r].
  - simpl in Hs. subst ws. simpl in Hws. rewrite Hc in Hws. discriminate.
  - injection Hs as <- _. eauto.
Qed.

End MarkerFacts.

(** X24. [validate_code] does not see white space around the code: a text
    and the same text stripped are validated alike. *)
Theorem validate_ignores_surrounding_space (E : Env) (code : str) :
  validate_code E (Py.strip code) = validate_code E code.
Proof.
  unfold validate_code. rewrite strip_markers_strip.
  destruct code as [|c code]; [reflexivity|].
  destruct (Py.strip (c :: code)) as [|x s] eqn:Hs; [|reflexivity].
  cbn [Py.truthy negb]. cbv iota.
  rewrite <- strip_markers_strip, Hs. reflexivity.
Qed.

(** X25. The opening marker has nine characters and [validate_code] cuts
    eight: for code that starts with [```python], the text that is counted,
    searched and compiled starts with the letter [n] left over from the
    marker. *)
Theorem opening_marker_leaves_a_letter (code : str) :
  Py.startswith fence_open (Py.strip code) = true ->
  exists rest, strip_markers code = 110%N :: rest.
Proof.
  intros H. unfold strip_markers. cbv zeta. rewrite H.
  apply startswith_spec in H. destruct H as (r & ->).
  change (skipn 8 (fence_open ++ r)) with (110%N :: r).
  assert (Hn : Py.isspace 110 = false) by reflexivity.
  destruct (Py.endswith fence_close (110%N :: r)) eqn:He; [|now apply strip_keeps_head].
  apply endswith_spec in He. destruct He as (t & Ht & Hf).
  change (length fence_close) with 3 in Hf. rewrite Hf.
  destruct t as [|x t].
  - simpl in Ht. discriminate Ht.
  - injection Ht as <- _. now apply strip_keeps_head.
Qed.

(** A fenced block of one line. *)
Lemma opening_marker_leaves_a_letter_witness :
  Py.startswith fence_open (Py.strip (u "```python\nprint(1)\n```\n")) = true
  /\ strip_markers (u "```python\nprint(1)\n```\n") = u "n\nprint(1)".
Proof.
  split; [reflexivity|].
  destruct (opening_marker_leaves_a_letter (u "```python\nprint(1)\n```\n") eq_refl) as (rest & H).
  rewrite H. revert H. vm_compute. intros H. injection H as <-. reflexivity.
Defined.

(** ** [validate_and_merge_code] *)

Section MergeFacts.

Variable E : Env.

Lemma merge_all_effect codes : forall w,
  let w' := merge_all E codes w in
  let accepted := filter (validate_code E) codes in
  version (project_state w') = (version (project_state w) + Z.of_nat (length accepted))%Z
  /\ history (project_state w') ++ [current_code (project_state w')]
     = history (project_state w) ++ [current_code (project_state w)] ++ accepted
  /\ disk w' = disk w /\ code (project_state w') = code (project_state w)
  /\ user_feedback (project_state w') = user_feedback (project_state w).
Proof.
  induction codes as [|c cs IH]; intros w; cbv zeta; cbn [merge_all filter].
  - cbn [length app]. rewrite Z.add_0_r. repeat split; reflexivity.
  - specialize (IH (snd (validate_and_merge_code E c w))). cbv zeta in IH.
    destruct IH as (Hv & Hh & Hd & Hc & Hf). rewrite Hv, Hh, Hd, Hc, Hf.
    unfold validate_and_merge_code.
    destruct (validate_code E c); cbn.
    + rewrite <- !app_assoc. cbn [app]. repeat split; try reflexivity; lia.
    + repeat split; try reflexivity; lia.
Qed.

End MergeFacts.

(** X26. Along any run of calls of [validate_and_merge_code], the version
    counter goes up by the number of codes that pass [validate_code]; the
    history followed by the current content lists the content of the
    start and then the accepted codes, in the order of the calls.  Nothing
    is written: the disk, the code map and the feedback are as before. *)
Theorem merges_are_counted_and_recorded (E : Env) (codes : list str) (w : world) :
  let w' := merge_all E codes w in
  let accepted := filter (validate_code E) codes in
  version (project_state w') = (version (project_state w) + Z.of_nat (length accepted))%Z
  /\ history (project_state w') ++ [current_code (project_state w')]
     = history (project_state w) ++ [current_code (project_state w)] ++ accepted
  /\ disk w' = disk w /\ code (project_state w') = code (project_state w)
  /\ user_feedback (project_state w') = user_feedback (project_state w).
Proof. apply merge_all_effect. Qed.

(** ** The dialogue on the terminal *)

Lemma options_choice c : dict_has c options = true <-> c = u "1" \/ c = u "2".
Proof.
  unfold dict_has, options. cbn [dict_get].
  destruct (Py.eqb c (u "1")) eqn:H1; [apply Py_eqb_eq in H1; tauto|].
  destruct (Py.eqb c (u "2")) eqn:H2; [apply Py_eqb_eq in H2; tauto|].
  split; [discriminate|]. intros [-> | ->]; [now rewrite Py_eqb_refl in H1 | now rewrite Py_eqb_refl in H2].
Qed.

(** X27. [get_project_source] returns the first line typed that is [1] or
    [2] once stripped, and nothing else; the lines before it are skipped,
    the lines after it are left unread.  It fails, with the [EOFError] of
    [input], only when no line typed is a valid choice. *)
Theorem project_source_is_first_valid_choice (stdin : list str) :
  match get_project_source stdin with
  | (Ok c, rest) =>
    (c = u "1" \/ c = u "2")
    /\ exists skipped line,
         stdin = skipped ++ line :: rest /\ Py.strip line = c
         /\ Forall (fun l => dict_has (Py.strip l) options = false) skipped
  | (Raise e, rest) =>
    e = EOFError /\ rest = []
    /\ Forall (fun l => dict_has (Py.strip l) options = false) stdin
  end.
Proof.
  induction stdin as [|line stdin IH]; cbn [get_project_source].
  - repeat split. constructor.
  - cbv zeta. destruct (dict_has (Py.strip line) options) eqn:Hc.
    + split; [now apply options_choice|]. exists [], line. repeat split. constructor.
    + destruct (get_project_source stdin) as [[c|e] rest].
      * destruct IH as (Hc' & skipped & l & -> & Hl & Hs). split; [exact Hc'|].
        exists (line :: skipped), l. repeat split; [exact Hl|]. now constructor.
      * destruct IH as (-> & -> & Hs). repeat split. now constructor.
Qed.

(** ** [continue_iteration] *)

(** X28. [continue_iteration] answers [False] at once, without a request,
    when there is no current code, and also when the line typed at the menu
    is none of [1] to [6].  Called with goals, it hands the loop a prompt
    built around the whole current code.  When the developer has a file
    manager and the run ends, that prompt, not the goals, is the entry
    added to the user feedback, and the history is as before; when it has
    no file manager, the call returns nothing and changes nothing. *)
Theorem continue_iteration_logs_the_prompt (E : Env) (fuel : nat) (stdin : list str)
        (w : world) :
  (current_code (project_state w) = [] ->
   forall goals, continue_iteration E fuel goals stdin w = Some (Ok (Some false), w))
  /\ (current_code (project_state w) <> [] ->
      forall line rest,
        dict_get (Py.strip line) goals_map = None -> Py.strip line <> u "6" ->
        continue_iteration E fuel None (line :: rest) w = Some (Ok (Some false), w))
  /\ (current_code (project_state w) <> [] ->
      forall goals r w',
        goals <> [] ->
        continue_iteration E fuel (Some goals) stdin w = Some (r, w') ->
        history (project_state w') = history (project_state w)
        /\ match file_manager w with
           | Some _ =>
             user_feedback (project_state w')
             = user_feedback (project_state w)
               ++ [improvement_prompt (current_code (project_state w)) goals]
           | None => r = Ok None /\ w' = w
           end).
Proof.
  split; [|split].
  - intros Hc goals. unfold continue_iteration. now rewrite Hc.
  - intros Hc line rest Hm H6. unfold continue_iteration.
    destruct (current_code (project_state w)) as [|c0 code0]; [congruence|].
    cbn [Py.truthy negb]. cbv iota zeta. rewrite Hm.
    destruct (Py.eqb (Py.strip line) (u "6")) eqn:He; [|reflexivity].
    apply Py_eqb_eq in He. congruence.
  - intros Hc goals r w' Hg H. unfold continue_iteration in H.
    destruct (current_code (project_state w)) as [|c0 code0] eqn:Ec; [congruence|].
    cbn [Py.truthy negb] in H. cbv iota zeta in H.
    destruct goals as [|g goals]; [congruence|]. cbn [Py.truthy] in H.
    destruct (file_manager w) as [fm|] eqn:Efm.
    + exact (keeps_auto_iterative_development same_notes same_notes_refl same_notes_trans
               same_notes_inert E same_notes_adopt (same_notes_save E) fuel _ w r w' fm Efm H).
    + unfold auto_iterative_development in H. rewrite Efm in H.
      injection H as <- <-. repeat split; reflexivity.
Qed.

(** Goals given for a project that has code. *)
Lemma continue_iteration_logs_the_prompt_witness :
  let w := snd (adopt (u "print(0)") ready_developer) in
  current_code (project_state w) <> []
  /\ exists r w', continue_iteration fenced_block_env 5 (Some (u "add tests")) [] w = Some (r, w')
                  /\ user_feedback (project_state w')
                     = [improvement_prompt (u "print(0)") (u "add tests")].
Proof.
  intros w.
  assert (Hc : current_code (project_state w) <> []) by discriminate.
  split; [exact Hc|].
  assert (H : exists rw, continue_iteration fenced_block_env 5 (Some (u "add tests")) [] w = Some rw)
    by (vm_compute; eauto).
  destruct H as ([r w'] & H). exists r, w'. split; [exact H|].
  assert (Hg : u "add tests" <> []) by discriminate.
  exact (proj2 (proj2 (proj2 (continue_iteration_logs_the_prompt fenced_block_env 5 [] w))
                  Hc (u "add tests") r w' Hg H)).
Defined.

(** ** [init_file_manager] *)


(** ** The validity predicate and the evaluator *)

Lemma dict_get_app_fresh {V} k k' (v : V) (d : list (str * V)) :
  k <> k' -> dict_get k (d ++ [(k', v)]) = dict_get k d.
Proof.
  intros Hne. induction d as [|[k0 v0] d IH]; cbn [app dict_get].
  - destruct (Py.eqb k k') eqn:He; [apply Py_eqb_eq in He; congruence | reflexivity].
  - now rewrite IH.
Qed.

(** X30. [_validate_evaluation_format] checks every entry of [scores], not
    the five dimensions only: one entry that is not a number in [0, 1]
    makes the report invalid.  Keys of the report other than [scores],
    [total_score] and [analysis] are not looked at. *)
Theorem validator_checks_every_score (d : dict) :
  (forall scores k v,
      dict_get (u "scores") d = Some (JObj scores) -> In (k, v) scores ->
      in_unit_interval v <> Some true ->
      _validate_evaluation_format (JObj d) = false)
  /\ (forall k v,
        ~ In k required_keys ->
        _validate_evaluation_format (JObj (d ++ [(k, v)])) = _validate_evaluation_format (JObj d)).
Proof.
  split.
  - intros scores k v Hs Hin Hv. unfold _validate_evaluation_format.
    destruct (negb (forallb _ required_keys)); [reflexivity|]. rewrite Hs.
    destruct (negb (forallb _ required_scores)); [reflexivity|].
    assert (Hall : all_in_unit_interval scores = false).
    { apply not_true_is_false. intros Hall. unfold all_in_unit_interval in Hall.
      rewrite forallb_forall in Hall. specialize (Hall _ Hin). cbn [snd] in Hall.
      destruct (in_unit_interval v) as [[|]|]; congruence. }
    now rewrite Hall.
  - intros k v Hk. unfold _validate_evaluation_format.
    assert (Hget : forall key, In key required_keys ->
                               dict_get key (d ++ [(k, v)]) = dict_get key d).
    { intros key Hin. apply dict_get_app_fresh. intros ->. contradiction. }
    assert (Hkeys : forallb (fun key => dict_has key (d ++ [(k, v)])) required_keys
                    = forallb (fun key => dict_has key d) required_keys).
    { unfold required_keys in *. cbn [forallb]. unfold dict_has.
      rewrite !Hget by (simpl; tauto). reflexivity. }
    rewrite Hkeys, !Hget by (unfold required_keys; simpl; tauto). reflexivity.
Qed.

(** A sixth score that is a text. *)
Lemma validator_checks_every_score_witness :
  let scores := [ (u "structure", JNum (1 # 2)%Q); (u "style", JNum (1 # 2)%Q);
                  (u "error_handling", JNum (1 # 2)%Q); (u "readability", JNum (1 # 2)%Q);
                  (u "performance", JNum (1 # 2)%Q); (u "security", JStr (u "high")) ] in
  let d := [ (u "scores", JObj scores); (u "total_score", JNum (1 # 2)%Q);
             (u "analysis", JStr (u "a careful review")) ] in
  In (u "security", JStr (u "high")) scores
  /\ _validate_evaluation_format (JObj d) = false.
Proof.
  intros scores d.
  assert (Hin : In (u "security", JStr (u "high")) scores) by (do 5 right; left; reflexivity).
  split; [exact Hin|].
  apply (proj1 (validator_checks_every_score d) scores (u "security") (JStr (u "high")) eq_refl Hin).
  discriminate.
Defined.
